(** * energymeter: the register-oriented read engine

    A shallow embedding of [energymeter.py]: the value codecs
    ([_convert_value]), the result interpreters ([_interpret_result]), the
    two batching policies ([_batch_read], [_split_ranges]), the TCP request
    loop ([_perform_request]) and the [read] facades of [ModbusRTUMeter],
    [ModbusTCPMeter], [AsyncModbusTCPMeter] and [SaiaMeter]; further on,
    the constructor of [MulticubeMeter] with [set_scaling], and the
    catalog [ABBMeter.__init__] selects for a model.

    Conventions.
    - Python integers are [Z]; bytes and 16-bit words are [Z] with their
      range checked where [struct] or [bytes()] check it.
    - A Python exception is a [Raise e] result; stateful code is a state and
      exception monad over the client object, whose state survives a raise.
    - A dict of results is a [gmap string value].
    - Floating point is kept exact: a float produced by [struct.unpack] is
      the bit pattern it was decoded from, and [float(v) / 10 ** d] is the
      symbolic quotient [VQuot v d], with its ideal rational value given by
      [value_Q]; the rounding of the quotient is not modelled.  The two
      exceptions of the division are: [OverflowError] when [10 ** d] is an
      int no float holds (from [d = 309] on), [ZeroDivisionError] when it
      is the float [0.0] (from [d = -324] down). *)

From Stdlib Require Import ZArith QArith Lia.
From stdpp Require Import gmap strings list fin_maps.

Local Open Scope Z_scope.
#[local] Set Warnings "-clear-no-such-hyp".

(** ** Exceptions and results *)

Inductive exn :=
| TypeError
| ValueError
| IndexError
| StructError        (* struct.error *)
| AttributeError
| KeyError
| IOError            (* a fault raised by the serial driver or the socket *)
| IncompleteReadError
| OverflowError
| ZeroDivisionError.

Inductive result (A : Type) :=
| Ok (a : A)
| Raise (e : exn).
Arguments Ok {A} a.
Arguments Raise {A} e.

Definition rbind {A B} (m : result A) (k : A -> result B) : result B :=
  match m with
  | Ok a => k a
  | Raise e => Raise e
  end.

Declare Scope res_scope.
Delimit Scope res_scope with res.
Notation "x <- e ;; k" := (rbind e (fun x => k))
  (at level 100, e at next level, right associativity) : res_scope.

Definition is_ok {A} (r : result A) : bool :=
  match r with Ok _ => true | Raise _ => false end.

(** ** Registers *)

(** One entry of a register map, e.g.
    [{'name': 'active_import', 'start': 20480, 'length': 4, 'signed': True,
      'decimals': 2}].  [register.get('is_float')] is [None] when the key is
    absent, which is falsy: the field is [false] then. *)
Record register := {
  r_name : string;
  r_start : Z;
  r_length : Z;
  r_signed : bool;
  r_decimals : Z;
  r_is_float : bool
}.

Definition r_end (r : register) : Z := r_start r + r_length r.

(** ** Numbers and values *)

(** A float as [struct.unpack] produces it: a binary32 pattern (widened to
    a Python float without loss) or a binary64 pattern. *)
Inductive pyfloat :=
| F32 (bits : Z)
| F64 (bits : Z).

Inductive num :=
| NInt (z : Z)
| NFloat (f : pyfloat).

Inductive value :=
| VNone
| VNum (n : num)
| VQuot (n : num) (d : Z)     (* float(n) / 10 ** d *)
| VStr (s : string).

(** What [read] hands back: a dict of values, or one value. *)
Inductive retval :=
| RDict (d : gmap string value)
| RVal (v : value).

(** The exact value of a finite float as [m * 2^e]; [None] for infinities
    and NaNs. *)
Definition float_dyadic (f : pyfloat) : option (Z * Z) :=
  match f with
  | F32 b =>
      let s := if Z.testbit b 31 then -1 else 1 in
      let e := Z.land (Z.shiftr b 23) 255 in
      let m := Z.land b (2 ^ 23 - 1) in
      if e =? 255 then None
      else if e =? 0 then Some (s * m, -149)
      else Some (s * (2 ^ 23 + m), e - 150)
  | F64 b =>
      let s := if Z.testbit b 63 then -1 else 1 in
      let e := Z.land (Z.shiftr b 52) 2047 in
      let m := Z.land b (2 ^ 52 - 1) in
      if e =? 2047 then None
      else if e =? 0 then Some (s * m, -1074)
      else Some (s * (2 ^ 52 + m), e - 1075)
  end.

(** Python's [x == k] for a number [x] and an int [k]: exact, also when [x]
    is a float. *)
Definition num_eq_int (n : num) (k : Z) : bool :=
  match n with
  | NInt z => z =? k
  | NFloat f =>
      match float_dyadic f with
      | None => false
      | Some (m, e) =>
          if 0 <=? e then m * 2 ^ e =? k else m =? k * 2 ^ (- e)
      end
  end.

(** [x in l] for a list of ints. *)
Definition num_in (n : num) (l : list Z) : bool := existsb (num_eq_int n) l.
Arguments num_in : simpl never.

Definition num_Q (n : num) : option Q :=
  match n with
  | NInt z => Some (inject_Z z)
  | NFloat f =>
      match float_dyadic f with
      | None => None
      | Some (m, e) => Some (inject_Z m * Qpower 2 e)%Q
      end
  end.

(** The ideal (unrounded) rational value of a decoded value. *)
Definition value_Q (v : value) : option Q :=
  match v with
  | VNone => None
  | VNum n => num_Q n
  | VQuot n d => (fun q => q / Qpower 10 d)%Q <$> num_Q n
  | VStr _ => None
  end.

(** [v == 0] as [_interpret_result] tests it on a decoded value. *)
Definition value_is_zero (v : value) : bool :=
  match v with
  | VNum n | VQuot n _ => num_eq_int n 0
  | _ => false
  end.

(** [float(value) / 10 ** decimals].  For [decimals >= 0] the divisor is an
    int, and from [10 ** 309] on it is too large to convert to a float:
    [OverflowError].  For [decimals < 0] the divisor is a float, and from
    [10 ** -324] down it is [0.0]: [ZeroDivisionError].  In between the
    result is the quotient. *)
Definition float_over_pow10 (v : num) (decimals : Z) : result value :=
  if 309 <=? decimals then Raise OverflowError
  else if decimals <=? -324 then Raise ZeroDivisionError
  else Ok (VQuot v decimals).

(** [v / 10 ** decimals] for an int [v]: the true division of two
    ints does not convert the divisor, so only the float divisor [0.0]
    raises. *)
Definition int_over_pow10 (v : Z) (decimals : Z) : result value :=
  if decimals <=? -324 then Raise ZeroDivisionError
  else Ok (VQuot (NInt v) decimals).

(** ** The [struct] module, as far as the meters use it *)

Inductive fmt_code := Fb | FB | Fh | FH | Fl | FL | Fq | FQ | Ff | Fd.

(** Standard sizes (every format string here starts with [>]). *)
Definition code_size (c : fmt_code) : nat :=
  match c with
  | Fb | FB => 1
  | Fh | FH => 2
  | Fl | FL | Ff => 4
  | Fq | FQ | Fd => 8
  end%nat.

Definition calcsize (fmt : list fmt_code) : nat :=
  foldr (fun c n => (code_size c + n)%nat) 0%nat fmt.

(** Big-endian bytes of a non-negative integer, [n] of them. *)
Fixpoint be_bytes (n : nat) (v : Z) : list Z :=
  match n with
  | O => []
  | S n' => be_bytes n' (v / 256) ++ [v mod 256]
  end.

Definition be_unsigned (bs : list Z) : Z :=
  fold_left (fun acc b => acc * 256 + b) bs 0.

(** Two's complement reading of the same bytes. *)
Definition be_signed (bs : list Z) : Z :=
  let u := be_unsigned bs in
  let w := 8 * Z.of_nat (length bs) in
  if u <? 2 ^ (w - 1) then u else u - 2 ^ w.

(** The integers a code accepts in [struct.pack]; the float codes are not
    packed anywhere in the module. *)
Definition code_accepts (c : fmt_code) (v : Z) : bool :=
  let w := 8 * Z.of_nat (code_size c) in
  match c with
  | FB | FH | FL | FQ => (0 <=? v) && (v <? 2 ^ w)
  | Fb | Fh | Fl | Fq => (- 2 ^ (w - 1) <=? v) && (v <? 2 ^ (w - 1))
  | Ff | Fd => false
  end.

Fixpoint pack_items (fmt : list fmt_code) (vals : list Z) : list Z :=
  match fmt, vals with
  | c :: fmt', v :: vals' =>
      be_bytes (code_size c) (v mod 2 ^ (8 * Z.of_nat (code_size c)))
        ++ pack_items fmt' vals'
  | _, _ => []
  end.

(** [struct.pack('>' + fmt, *vals)]: [struct.error] on a wrong number of
    items or an item out of range. *)
Definition struct_pack (fmt : list fmt_code) (vals : list Z) : result (list Z) :=
  if negb (length fmt =? length vals)%nat then Raise StructError
  else if forallb (fun cv => code_accepts cv.1 cv.2) (zip fmt vals)
       then Ok (pack_items fmt vals)
       else Raise StructError.

Definition unpack_item (c : fmt_code) (bs : list Z) : num :=
  match c with
  | FB | FH | FL | FQ => NInt (be_unsigned bs)
  | Fb | Fh | Fl | Fq => NInt (be_signed bs)
  | Ff => NFloat (F32 (be_unsigned bs))
  | Fd => NFloat (F64 (be_unsigned bs))
  end.

Fixpoint unpack_items (fmt : list fmt_code) (bs : list Z) : list num :=
  match fmt with
  | [] => []
  | c :: fmt' =>
      unpack_item c (take (code_size c) bs)
        :: unpack_items fmt' (drop (code_size c) bs)
  end.

(** [struct.unpack('>' + fmt, bs)]: [struct.error] unless the buffer has
    exactly [calcsize] bytes; the result is a tuple. *)
Definition struct_unpack (fmt : list fmt_code) (bs : list Z) : result (list num) :=
  if (length bs =? calcsize fmt)%nat then Ok (unpack_items fmt bs)
  else Raise StructError.

(** [t[0]] on a tuple. *)
Definition tuple_first {A} (t : list A) : result A :=
  match t with
  | x :: _ => Ok x
  | [] => Raise IndexError
  end.

(** [bytes(values)]: every item must be in [range(256)]. *)
Definition to_bytes (values : list Z) : result (list Z) :=
  if forallb (fun b => (0 <=? b) && (b <? 256)) values then Ok values
  else Raise ValueError.

(** ** Small pieces of Python *)

(** [min(l)] and [max(l)]: [ValueError] on an empty list. *)
Definition py_min (l : list Z) : result Z :=
  match l with
  | [] => Raise ValueError
  | x :: l' => Ok (foldl Z.min x l')
  end.

Definition py_max (l : list Z) : result Z :=
  match l with
  | [] => Raise ValueError
  | x :: l' => Ok (foldl Z.max x l')
  end.

(** [data[start:end]] with Python's clamping of both bounds. *)
Definition slice_bound (n i : Z) : Z :=
  if i <? 0 then Z.max (i + n) 0 else Z.min i n.

Definition py_slice {A} (data : list A) (start stop : Z) : list A :=
  let n := Z.of_nat (length data) in
  let s := slice_bound n start in
  let e := slice_bound n stop in
  take (Z.to_nat (e - s)) (drop (Z.to_nat s) data).

(** [l.sort(key=lambda reg: reg['start'])]: stable, ascending. *)
Fixpoint insert_by_start (r : register) (l : list register) : list register :=
  match l with
  | [] => [r]
  | x :: l' =>
      if r_start r <=? r_start x then r :: x :: l'
      else x :: insert_by_start r l'
  end.

Definition sort_by_start (l : list register) : list register :=
  foldr insert_by_start [] l.

(** ** The client object and its effects *)

(** What a client does to the outside world, in order. *)
Inductive event :=
| Print (s : string)
| InstrReadRegisters (registeraddress number_of_registers : Z)
| InstrReadRegister (registeraddress number_of_decimals : Z) (signed : bool)
| InstrReadLong (registeraddress : Z) (signed : bool)
| InstrReadFloat (registeraddress number_of_registers : Z)
| Connect
| Send (message : list Z)
| Sleep
| Recv
| WriterWrite (message : list Z)
| WriterDrain
| ReadExactly (n : Z).

(** A call into the serial driver or the socket. *)
Definition is_transport (e : event) : bool :=
  match e with
  | Print _ | Sleep => false
  | _ => true
  end.

(** [self.device] of a TCP client: [ModbusTCPMeter.__init__] does not set
    it, [MulticubeMeter.__init__] connects at once. *)
Inductive device_attr :=
| NoAttribute
| DeviceNone
| Connected.

(** The mutable part of a client: the list object [self.REGS], the socket
    attribute, and what was done so far ([polls] counts the [recv] and
    [readexactly] calls, [sent] the request frames built). *)
Record client := {
  REGS : list register;
  device : device_attr;
  log : list event;
  polls : nat;
  sent : nat
}.

Definition set_REGS (l : list register) (c : client) : client :=
  {| REGS := l; device := device c; log := log c; polls := polls c; sent := sent c |}.
Definition set_device (d : device_attr) (c : client) : client :=
  {| REGS := REGS c; device := d; log := log c; polls := polls c; sent := sent c |}.
Definition add_event (e : event) (c : client) : client :=
  {| REGS := REGS c; device := device c; log := log c ++ [e];
     polls := polls c; sent := sent c |}.
Definition incr_polls (c : client) : client :=
  {| REGS := REGS c; device := device c; log := log c;
     polls := S (polls c); sent := sent c |}.
Definition incr_sent (c : client) : client :=
  {| REGS := REGS c; device := device c; log := log c;
     polls := polls c; sent := S (sent c) |}.

Definition M (A : Type) : Type := client -> client * result A.

Definition ret {A} (a : A) : M A := fun c => (c, Ok a).
Definition raise {A} (e : exn) : M A := fun c => (c, Raise e).
Definition bind {A B} (m : M A) (k : A -> M B) : M B :=
  fun c =>
    match m c with
    | (c', Ok a) => k a c'
    | (c', Raise e) => (c', Raise e)
    end.
Definition lift {A} (r : result A) : M A := fun c => (c, r).
Definition emit (e : event) : M unit := fun c => (add_event e c, Ok tt).
Definition get_REGS : M (list register) := fun c => (c, Ok (REGS c)).

Declare Scope io_scope.
Delimit Scope io_scope with io.
Notation "x <- e ;; k" := (bind e (fun x => k))
  (at level 100, e at next level, right associativity) : io_scope.
Notation "e ;; k" := (bind e (fun _ => k))
  (at level 100, right associativity) : io_scope.

(** The events a run added to the log. *)
Definition new_events (c c' : client) : list event := drop (length (log c)) (log c').

(** The argument of [read]: [None], a [str], a [list] of names, or a value
    of any other type. *)
Inductive selector :=
| SelNone
| SelStr (s : string)
| SelList (l : list string)
| SelOther.

(** A list argument of [_read_multiple]: the catalog object [self.REGS]
    itself, or a list built by a comprehension. *)
Inductive reglist :=
| TheCatalog
| Fresh (l : list register).

(** ** Gap-tolerant batching ([_batch_read]) *)

(** [ModbusRTUMeter._batch_read] and [SaiaMeter._batch_read] are the same
    loop with the caps 125 and 10, each around the [_read_multiple] of its
    class. *)
Section BatchRead.
Context (cap : Z) (_read_multiple : list register -> M (gmap string value)).

(** The [for] loop of [_batch_read] and the final
    [results.update(self._read_multiple(batch))]. *)
Fixpoint batch_loop (registers : list register) (start_reg : Z)
    (batch : list register) (results : gmap string value)
  : M (gmap string value) :=
  match registers with
  | [] =>
      (d <- _read_multiple batch ;;
       ret (d ∪ results))%io
  | register :: rest =>
      if r_start register + r_length register - start_reg <=? cap
      then batch_loop rest start_reg (batch ++ [register]) results
      else
        (d <- _read_multiple batch ;;
         batch_loop rest (r_start register) [register] (d ∪ results))%io
  end.

Definition batch_read (registers : list register) : M (gmap string value) :=
  match registers with
  | [] => raise IndexError           (* registers[0] *)
  | r0 :: _ => batch_loop registers (r_start r0) [] ∅
  end.
End BatchRead.

(** The batches the loop hands to [_read_multiple], in order. *)
Fixpoint batches_from (cap : Z) (registers : list register) (start_reg : Z)
    (batch : list register) : list (list register) :=
  match registers with
  | [] => [batch]
  | register :: rest =>
      if r_start register + r_length register - start_reg <=? cap
      then batches_from cap rest start_reg (batch ++ [register])
      else batch :: batches_from cap rest (r_start register) [register]
  end.

Definition batches (cap : Z) (registers : list register) : list (list register) :=
  match registers with
  | [] => []
  | r0 :: _ => batches_from cap registers (r_start r0) []
  end.

(** The address window [_read_multiple] asks the device for:
    [(first_reg, num_regs)]. *)
Definition window (registers : list register) : result (Z * Z) :=
  (first_reg <- py_min (map r_start registers) ;;
   last <- py_max (map r_end registers) ;;
   Ok (first_reg, last - first_reg))%res.

(** ** The serial driver *)

(** [minimalmodbus.Instrument] and [tinysbus.Instrument]: what each typed
    read returns for its arguments, or the exception it raises. *)
Record instrument := {
  read_registers : Z -> Z -> result (list Z);
  read_register : Z -> Z -> bool -> result num;
  read_long : Z -> bool -> result Z;
  read_float : Z -> Z -> result pyfloat
}.

Definition join (sep : string) (l : list string) : string := String.concat sep l.

Definition not_found_message : string := "Register not found on device.".

(** The two warning lines shared by [ModbusRTUMeter.read] and
    [SaiaMeter.read]. *)
Definition warn_unavailable (catalog : list register) (regnames : list string)
  : M unit :=
  (let regs_not_available :=
     filter (fun regname => regname ∉ map r_name catalog) regnames in
   emit (Print ("Warning: the following registers are not available on this device: "
                +:+ join ", " regs_not_available)) ;;
   emit (Print ("The available registers are: %s"
                +:+ join ", " (map r_name catalog))))%io.

(** ** Null sentinels *)

Module ABBMeter.
(** [NULLS = [pow(2, n) - 1 for n in (64, 63, 32, 31, 16, 15)]] *)
Definition NULLS : list Z := map (fun n => 2 ^ n - 1) [64; 63; 32; 31; 16; 15].
End ABBMeter.

Module MEM001.
Definition NULLS : list Z := [].
End MEM001.

(** ** The serial (RTU) client *)

Module ModbusRTUMeter.

(** The format strings built by the three [if number_of_registers == ...]
    statements: [(formatcode_i, formatcode_o)] after the leading [>]. *)
Definition formatcodes (number_of_registers : nat) (signed : bool)
  : list fmt_code * list fmt_code :=
  let fi := [] in
  let fo := [] in
  let '(fi, fo) :=
    if (number_of_registers =? 1)%nat
    then (fi ++ [FH], fo ++ [if signed then Fh else FH]) else (fi, fo) in
  let '(fi, fo) :=
    if (number_of_registers =? 2)%nat
    then (fi ++ [FH; FH], fo ++ [if signed then Fl else FL]) else (fi, fo) in
  let '(fi, fo) :=
    if (number_of_registers =? 4)%nat
    then (fi ++ [FH; FH; FH; FH], fo ++ [if signed then Fq else FQ]) else (fi, fo) in
  (fi, fo).

(** The integer part of [_convert_value], below the [is_float] block.
    The null test reads [ABBMeter.NULLS] whatever the class of [self]. *)
Definition convert_integer (values : list Z) (signed : bool)
    (number_of_decimals : Z) : result value :=
  (let number_of_registers := length values in
   let '(formatcode_i, formatcode_o) := formatcodes number_of_registers signed in
   bytestring <- struct_pack formatcode_i values ;;
   t <- struct_unpack formatcode_o bytestring ;;
   value <- tuple_first t ;;
   if num_in value ABBMeter.NULLS then Ok VNone
   else float_over_pow10 value number_of_decimals)%res.

Definition _convert_value (values : list Z) (signed : bool)
    (number_of_decimals : Z) (is_float : bool) : result value :=
  (if is_float && (length values =? 2)%nat then
     bytestring <- struct_pack [FH; FH] values ;;
     t <- struct_unpack [Ff] bytestring ;;
     v <- tuple_first t ;;
     Ok (VNum v)
   else if is_float && (length values =? 4)%nat then
     bytestring <- struct_pack [FH; FH; FH; FH] values ;;
     t <- struct_unpack [Fd] bytestring ;;
     v <- tuple_first t ;;
     Ok (VNum v)
   else convert_integer values signed number_of_decimals)%res.

Fixpoint interpret_loop (data : list Z) (first_reg : Z)
    (registers : list register) (results : gmap string value)
  : result (gmap string value) :=
  match registers with
  | [] => Ok results
  | register :: rest =>
      (let regname := r_name register in
       let start := r_start register - first_reg in
       let end_ := start + r_length register in
       let values := py_slice data start end_ in
       v <- _convert_value values (r_signed register)
              (r_decimals register) (r_is_float register) ;;
       interpret_loop data first_reg rest (<[regname := v]> results))%res
  end.

Definition _interpret_result (data : list Z) (registers : list register)
  : result (gmap string value) :=
  (first_reg <- py_min (map r_start registers) ;;
   interpret_loop data first_reg registers ∅)%res.

Section Client.
Context (instr : instrument).

Definition _read_multiple (registers : list register)
  : M (gmap string value) :=
  (first_reg <- lift (py_min (map r_start registers)) ;;
   last <- lift (py_max (map r_end registers)) ;;
   let num_regs := last - first_reg in
   emit (InstrReadRegisters first_reg num_regs) ;;
   values <- lift (read_registers instr first_reg num_regs) ;;
   lift (_interpret_result values registers))%io.

Definition _batch_read : list register -> M (gmap string value) :=
  batch_read 125 _read_multiple.

Definition _read_single (register : register) : M value :=
  (if r_length register =? 1 then
     emit (InstrReadRegister (r_start register) (r_decimals register)
             (r_signed register)) ;;
     v <- lift (read_register instr (r_start register)
                  (r_decimals register) (r_signed register)) ;;
     ret (VNum v)
   else if r_length register =? 2 then
     if r_is_float register then
       emit (InstrReadFloat (r_start register) 2) ;;
       f <- lift (read_float instr (r_start register) 2) ;;
       ret (VNum (NFloat f))
     else
       emit (InstrReadLong (r_start register) (r_signed register)) ;;
       v <- lift (read_long instr (r_start register) (r_signed register)) ;;
       lift (int_over_pow10 v (r_decimals register))
   else if r_length register =? 4 then
     emit (InstrReadRegisters (r_start register) (r_length register)) ;;
     v <- lift (read_registers instr (r_start register) (r_length register)) ;;
     lift (_convert_value v (r_signed register)
             (r_decimals register) (r_is_float register))
   else ret VNone)%io.

Definition read (regnames : selector) : M retval :=
  match regnames with
  | SelNone =>
      (catalog <- get_REGS ;;
       d <- _batch_read catalog ;;
       ret (RDict d))%io
  | SelList regnames =>
      (catalog <- get_REGS ;;
       let registers := filter (fun register => r_name register ∈ regnames) catalog in
       (if (length registers <? length regnames)%nat
        then warn_unavailable catalog regnames else ret tt) ;;
       if (length registers =? 0)%nat then ret (RDict ∅)
       else
         let registers := sort_by_start registers in
         d <- _batch_read registers ;;
         ret (RDict d))%io
  | SelStr regnames =>
      (catalog <- get_REGS ;;
       let registers := filter (fun register => r_name register = regnames) catalog in
       match registers with
       | [] => ret (RVal (VStr not_found_message))
       | register :: _ =>
           v <- _read_single register ;;
           ret (RVal v)
       end)%io
  | SelOther => raise TypeError
  end.
End Client.
End ModbusRTUMeter.

(** ** The TCP clients *)

(** The class attributes a [ModbusTCPMeter] subclass sets, and the unit id
    stored by [__init__]. *)
Record tcp_meter := {
  REG_OFFSET : Z;
  PROTOCOL_CODE : Z;
  FUNCTION_CODE : Z;
  NULLS : list Z;
  device_id : Z
}.

Module SMAMeter.
Definition meter : tcp_meter :=
  {| REG_OFFSET := 1; PROTOCOL_CODE := 0; FUNCTION_CODE := 3;
     NULLS := [2 ^ 16 - 1; 2 ^ 15 - 1; 2 ^ 15; - 2 ^ 15];
     device_id := 126 |}.
End SMAMeter.

Module MulticubeMeter.
Definition meter : tcp_meter :=
  {| REG_OFFSET := 0; PROTOCOL_CODE := 0; FUNCTION_CODE := 3;
     NULLS := [2 ^ 16 - 1; 2 ^ 15 - 1; 2 ^ 15; - 2 ^ 15];
     device_id := 1 |}.
End MulticubeMeter.

(** The peer of a TCP client: what the k-th call of [recv] (or of
    [readexactly]) returns, and the k-th transaction id drawn by
    [random.randint(1, 2**16 - 1)]. *)
Record socket := {
  recv : nat -> result (list Z);
  randint : nat -> Z
}.

(** [a is b] for two ints computed separately, as in
    [len(data) is not expect_bytes].  CPython keeps one object for each
    integer from -5 to 256, where identity is equality; equal integers
    outside that range are distinct objects. *)
Definition int_is (a b : Z) : bool :=
  (a =? b) && (-5 <=? a) && (a <=? 256).

(** [struct.unpack(">H", message[-2:])[0]] *)
Definition last_word (message : list Z) : result Z :=
  (t <- struct_unpack [FH] (py_slice message (-2) (Z.of_nat (length message))) ;;
   v <- tuple_first t ;;
   match v with
   | NInt z => Ok z
   | NFloat _ => Raise TypeError
   end)%res.

(** ** Contiguity-strict splitting ([_split_ranges]) *)

(** The [for] loop of the generator; the lists it yields, in order. *)
Fixpoint split_loop (registers : list register) (prev_end : Z)
    (reg_list : list register) : list (list register) :=
  match registers with
  | [] => [reg_list]
  | r :: rest =>
      if r_start r - prev_end >? 1
      then reg_list :: split_loop rest (r_start r + r_length r) [r]
      else split_loop rest (r_start r + r_length r) (reg_list ++ [r])
  end.

Module ModbusTCPMeter.
Section Codec.
Context (self : tcp_meter).

(** [formatcode_o] after the leading [>], from the [if]/[elif] chain on
    [is_float] and the number of bytes. *)
Definition formatcode (numberOfBytes : nat) (signed is_float : bool)
  : list fmt_code :=
  if is_float then [Ff]
  else if (numberOfBytes =? 1)%nat then [if signed then Fb else FB]
  else if (numberOfBytes =? 2)%nat then [if signed then Fh else FH]
  else if (numberOfBytes =? 4)%nat then [if signed then Fl else FL]
  else [].

Definition _convert_value (values : list Z) (signed : bool)
    (decimals : Z) (is_float : bool) : result value :=
  (let numberOfBytes := length values in
   let formatcode_o := formatcode numberOfBytes signed is_float in
   bs <- to_bytes values ;;
   t <- struct_unpack formatcode_o bs ;;
   value <- tuple_first t ;;
   if num_in value (NULLS self) then Ok VNone
   else float_over_pow10 value decimals)%res.

Fixpoint interpret_loop (data : list Z) (first_reg : Z)
    (registers : list register) (results : gmap string value)
  : result (gmap string value) :=
  match registers with
  | [] => Ok results
  | register :: rest =>
      (let regname := r_name register in
       let start := (r_start register - first_reg) * 2 in
       let end_ := start + r_length register * 2 in
       let values := py_slice data start end_ in
       v <- _convert_value values (r_signed register)
              (r_decimals register) (r_is_float register) ;;
       let v :=
         if String.eqb regname "power_factor_total" && value_is_zero v
         then VNum (NInt 1) else v in
       interpret_loop data first_reg rest (<[regname := v]> results))%res
  end.

Definition _interpret_result (data : list Z) (registers : list register)
  : result (gmap string value) :=
  (first_reg <- py_min (map r_start registers) ;;
   interpret_loop data first_reg registers ∅)%res.
End Codec.

(** The generator is pure: its only failure, [registers[0]] on an empty
    list, is raised when the [for] statement asks for the first item. *)
Definition _split_ranges (registers : list register)
  : result (list (list register)) :=
  match registers with
  | [] => Raise IndexError
  | r0 :: _ => Ok (split_loop registers (r_start r0 - 1) [])
  end.

(** [registers.sort(key=...)] on the list object passed in: sorting the
    catalog object rewrites [self.REGS]. *)
Definition sort_in_place (registers : reglist) : M (list register) :=
  match registers with
  | TheCatalog => fun c =>
      let sorted := sort_by_start (REGS c) in (set_REGS sorted c, Ok sorted)
  | Fresh l => ret (sort_by_start l)
  end.

Section Client.
Context (self : tcp_meter) (sock : socket).

Definition _modbus_message (start_reg num_regs : Z) : M (list Z) :=
  fun c =>
    let transaction_id := randint sock (sent c) in
    (incr_sent c,
     struct_pack [FH; FH; FH; FB; FB; FH; FH]
       [transaction_id; PROTOCOL_CODE self; 6; device_id self;
        FUNCTION_CODE self; start_reg - REG_OFFSET self; num_regs]).

Definition _connect : M unit :=
  (emit Connect ;; fun c => (set_device Connected c, Ok tt))%io.

Definition device_recv : M (list Z) :=
  (emit Recv ;; fun c => (incr_polls c, recv sock (polls c)))%io.

(** The [while] loop of [_perform_request].  [attempt] starts at 1 and
    the body returns once it has reached 10, so [left], the number of
    further iterations allowed, is never used up when it starts at 9
    (see [recv_loop_left]). *)
Fixpoint recv_loop (left : nat) (num_regs expect_bytes : Z)
    (data : list Z) (attempt : Z) : M (list Z) :=
  if negb (int_is (Z.of_nat (length data)) expect_bytes) then
    (emit Sleep ;;
     chunk <- device_recv ;;
     let data := data ++ chunk in
     if attempt >=? 10 then ret (replicate (Z.to_nat (2 * num_regs)) 0)
     else
       match left with
       | O => ret (replicate (Z.to_nat (2 * num_regs)) 0)
       | S left' => recv_loop left' num_regs expect_bytes data (attempt + 1)
       end)%io
  else ret (drop 9 data).

Definition _perform_request (message : list Z) : M (list Z) :=
  (dev <- (fun c => (c, Ok (device c))) ;;
   match dev with
   | NoAttribute => raise AttributeError
   | DeviceNone => _connect
   | Connected => ret tt
   end ;;
   emit (Send message) ;;
   num_regs <- lift (last_word message) ;;
   let expect_bytes := 9 + 2 * num_regs in
   recv_loop 9 num_regs expect_bytes [] 1)%io.

Definition _read_single (register : register) : M value :=
  (message <- _modbus_message (r_start register) (r_length register) ;;
   data <- _perform_request message ;;
   lift (_convert_value self data (r_signed register)
           (r_decimals register) false))%io.

Fixpoint ranges_loop (ranges : list (list register))
    (results : gmap string value) : M (gmap string value) :=
  match ranges with
  | [] => ret results
  | reg_range :: rest =>
      (first_reg <- lift (py_min (map r_start reg_range)) ;;
       last <- lift (py_max (map r_end reg_range)) ;;
       let num_regs := last - first_reg in
       message <- _modbus_message first_reg num_regs ;;
       data <- _perform_request message ;;
       d <- lift (_interpret_result self data reg_range) ;;
       ranges_loop rest (d ∪ results))%io
  end.

Definition _read_multiple (registers : reglist) : M (gmap string value) :=
  (registers <- sort_in_place registers ;;
   ranges <- lift (_split_ranges registers) ;;
   ranges_loop ranges ∅)%io.

Definition read (regnames : selector) : M retval :=
  match regnames with
  | SelNone =>
      (d <- _read_multiple TheCatalog ;;
       ret (RDict d))%io
  | SelStr regnames =>
      (catalog <- get_REGS ;;
       let registers := filter (fun register => r_name register = regnames) catalog in
       match registers with
       | [] => raise IndexError          (* registers[0] *)
       | register :: _ =>
           v <- _read_single register ;;
           ret (RVal v)
       end)%io
  | SelList regnames =>
      (catalog <- get_REGS ;;
       let registers := filter (fun register => r_name register ∈ regnames) catalog in
       d <- _read_multiple (Fresh registers) ;;
       ret (RDict d))%io
  | SelOther => ret (RVal VNone)       (* no branch taken: falls off the end *)
  end.
End Client.
End ModbusTCPMeter.

Module AsyncModbusTCPMeter.
Section Client.
Context (self : tcp_meter) (sock : socket).

(** [self.writer is None] is [device = DeviceNone] here. *)
Definition _connect : M unit :=
  (emit Connect ;; fun c => (set_device Connected c, Ok tt))%io.

Definition connect_if_needed : M unit :=
  (dev <- (fun c => (c, Ok (device c))) ;;
   match dev with
   | NoAttribute => raise AttributeError
   | DeviceNone => _connect
   | Connected => ret tt
   end)%io.

Definition readexactly (n : Z) : M (list Z) :=
  (emit (ReadExactly n) ;; fun c => (incr_polls c, recv sock (polls c)))%io.

Definition _read_single (register : register) : M value :=
  (let num_regs := r_length register in
   message <- ModbusTCPMeter._modbus_message self sock (r_start register) num_regs ;;
   connect_if_needed ;;
   emit (WriterWrite message) ;;
   emit WriterDrain ;;
   data <- readexactly (9 + 2 * num_regs) ;;
   lift (ModbusTCPMeter._convert_value self (drop 9 data) (r_signed register)
           (r_decimals register) (r_is_float register)))%io.

Fixpoint ranges_loop (ranges : list (list register))
    (results : gmap string value) : M (gmap string value) :=
  match ranges with
  | [] => ret results
  | reg_range :: rest =>
      (first_reg <- lift (py_min (map r_start reg_range)) ;;
       last <- lift (py_max (map r_end reg_range)) ;;
       let num_regs := last - first_reg in
       connect_if_needed ;;
       message <- ModbusTCPMeter._modbus_message self sock first_reg num_regs ;;
       emit (WriterWrite message) ;;
       emit WriterDrain ;;
       data <- readexactly (9 + 2 * num_regs) ;;
       d <- lift (ModbusTCPMeter._interpret_result self (drop 9 data) reg_range) ;;
       ranges_loop rest (d ∪ results))%io
  end.

Definition _read_multiple (registers : reglist) : M (gmap string value) :=
  (registers <- ModbusTCPMeter.sort_in_place registers ;;
   ranges <- lift (ModbusTCPMeter._split_ranges registers) ;;
   ranges_loop ranges ∅)%io.

(** [SelList] stands for any iterable of names, [SelOther] for a value
    that is not iterable. *)
Definition read (regnames : selector) : M retval :=
  match regnames with
  | SelNone =>
      (d <- _read_multiple TheCatalog ;;
       ret (RDict d))%io
  | SelStr regnames =>
      (catalog <- get_REGS ;;
       let registers := filter (fun register => r_name register = regnames) catalog in
       match registers with
       | [] => ret (RVal (VStr not_found_message))
       | register :: _ =>
           v <- _read_single register ;;
           ret (RVal v)
       end)%io
  | SelList regnames =>
      (catalog <- get_REGS ;;
       let registers := filter (fun register => r_name register ∈ regnames) catalog in
       d <- _read_multiple (Fresh registers) ;;
       ret (RDict d))%io
  | SelOther => ret (RVal VNone)
  end.
End Client.
End AsyncModbusTCPMeter.

(** ** The S-Bus client (32-bit registers) *)

Module SaiaMeter.

Definition formatcodes (number_of_registers : nat) (signed : bool)
  : list fmt_code * list fmt_code :=
  let fi := [] in
  let fo := [] in
  let '(fi, fo) :=
    if (number_of_registers =? 1)%nat
    then (fi ++ [FL], fo ++ [if signed then Fl else FL]) else (fi, fo) in
  let '(fi, fo) :=
    if (number_of_registers =? 2)%nat
    then (fi ++ [FL; FL], fo ++ [if signed then Fq else FQ]) else (fi, fo) in
  (fi, fo).

Definition _convert_value (values : list Z) (signed : bool)
    (number_of_decimals : Z) : result value :=
  (let number_of_registers := length values in
   let '(formatcode_i, formatcode_o) := formatcodes number_of_registers signed in
   bytestring <- struct_pack formatcode_i values ;;
   t <- struct_unpack formatcode_o bytestring ;;
   value <- tuple_first t ;;
   float_over_pow10 value number_of_decimals)%res.

Fixpoint interpret_loop (data : list Z) (first_reg : Z)
    (registers : list register) (results : gmap string value)
  : result (gmap string value) :=
  match registers with
  | [] => Ok results
  | register :: rest =>
      (let regname := r_name register in
       let start := r_start register - first_reg in
       let end_ := start + r_length register in
       let values := py_slice data start end_ in
       v <- _convert_value values (r_signed register) (r_decimals register) ;;
       interpret_loop data first_reg rest (<[regname := v]> results))%res
  end.

Definition _interpret_result (data : list Z) (registers : list register)
  : result (gmap string value) :=
  (first_reg <- py_min (map r_start registers) ;;
   interpret_loop data first_reg registers ∅)%res.

Section Client.
Context (instr : instrument).

Definition _read_multiple (registers : list register)
  : M (gmap string value) :=
  (first_reg <- lift (py_min (map r_start registers)) ;;
   last <- lift (py_max (map r_end registers)) ;;
   let num_regs := last - first_reg in
   emit (InstrReadRegisters first_reg num_regs) ;;
   values <- lift (read_registers instr first_reg num_regs) ;;
   lift (_interpret_result values registers))%io.

Definition _batch_read : list register -> M (gmap string value) :=
  batch_read 10 _read_multiple.

Definition _read_single (register : register) : M value :=
  (if r_length register =? 1 then
     emit (InstrReadRegister (r_start register) (r_decimals register)
             (r_signed register)) ;;
     v <- lift (read_register instr (r_start register)
                  (r_decimals register) (r_signed register)) ;;
     ret (VNum v)
   else if r_length register =? 2 then
     emit (InstrReadLong (r_start register) (r_signed register)) ;;
     v <- lift (read_long instr (r_start register) (r_signed register)) ;;
     lift (int_over_pow10 v (r_decimals register))
   else if r_length register =? 4 then
     emit (InstrReadRegisters (r_start register) (r_length register)) ;;
     v <- lift (read_registers instr (r_start register) (r_length register)) ;;
     lift (_convert_value v (r_signed register) (r_decimals register))
   else ret VNone)%io.

Definition read (regnames : selector) : M retval :=
  match regnames with
  | SelNone =>
      (catalog <- get_REGS ;;
       d <- _batch_read catalog ;;
       ret (RDict d))%io
  | SelList regnames =>
      (catalog <- get_REGS ;;
       let registers := filter (fun register => r_name register ∈ regnames) catalog in
       (if (length registers <? length regnames)%nat
        then warn_unavailable catalog regnames else ret tt) ;;
       if (length registers =? 0)%nat then ret (RDict ∅)
       else
         let registers := sort_by_start registers in
         d <- _batch_read registers ;;
         ret (RDict d))%io
  | SelStr regnames =>
      (catalog <- get_REGS ;;
       let registers := filter (fun register => r_name register = regnames) catalog in
       match registers with
       | [] => raise ValueError
       | register :: _ =>
           v <- _read_single register ;;
           ret (RVal v)
       end)%io
  | SelOther => raise TypeError
  end.
End Client.
End SaiaMeter.

(** ** Notions used by the statements *)

(** [R] holds between every two neighbours of the list. *)
Fixpoint adjacent {A} (R : A -> A -> Prop) (l : list A) : Prop :=
  match l with
  | x :: l' =>
      match l' with
      | y :: _ => R x y /\ adjacent R l'
      | [] => True
      end
  | [] => True
  end.

(** Sorted ascending by [start], as [registers.sort(key=...)] leaves a list. *)
Definition sorted_by_start (l : list register) : Prop :=
  adjacent (fun a b => r_start a <= r_start b) l.

(** No register reaches into the next one: addresses do not collide. *)
Definition non_overlapping (l : list register) : Prop :=
  Forall (fun r => 0 <= r_length r) l /\
  adjacent (fun a b => r_end a <= r_start b) l.

(** A batch of the gap-tolerant policy: a first register, and after it
    only registers that end within [cap] addresses of its start. *)
Definition batch_ok (cap : Z) (b : list register) : Prop :=
  match b with
  | [] => False
  | f :: tl => Forall (fun r => r_end r - r_start f <= cap) tl
  end.

(** The batch [b] was closed because the first register of [b'] did not
    fit in it. *)
Definition batch_closed_by (cap : Z) (b b' : list register) : Prop :=
  match b, b' with
  | f :: _, g :: _ => r_end g - r_start f > cap
  | _, _ => False
  end.

(** A range of the contiguity-strict policy: not empty, and every register
    starts at most one address after the end of the one before. *)
Definition range_ok (g : list register) : Prop :=
  g <> [] /\ adjacent (fun a b => r_start b - r_end a <= 1) g.

(** The range [g] was closed because of the gap before [g']. *)
Definition range_closed_by (g g' : list register) : Prop :=
  match last g, g' with
  | Some a, b :: _ => r_start b - r_end a > 1
  | _, _ => False
  end.

(** The windows of a plan, batch by batch. *)
Definition windows (bs : list (list register)) : list (result (Z * Z)) :=
  map window bs.

(** Reading a planned list of batches one after the other, merging each
    decoded dict into [results]. *)
Fixpoint read_batches (_read_multiple : list register -> M (gmap string value))
    (bs : list (list register)) (results : gmap string value)
  : M (gmap string value) :=
  match bs with
  | [] => ret results
  | b :: bs' =>
      (d <- _read_multiple b ;;
       read_batches _read_multiple bs' (d ∪ results))%io
  end.

(** The names of a list of registers, as a set. *)
Definition names (l : list register) : gset string :=
  list_to_set (map r_name l).

(** [m] leaves the catalog list as it was. *)
Definition keeps_REGS {A} (m : M A) : Prop :=
  forall c, REGS (m c).1 = REGS c.

(** [m] makes no call into the transport. *)
Definition no_transport {A} (m : M A) (c : client) : Prop :=
  Forall (fun e => is_transport e = false) (new_events c (m c).1).

(** The request [_read_multiple] sends for a batch: one
    [read_registers(first_reg, num_regs)], or nothing when [min] raises on
    an empty batch. *)
Definition window_event (b : list register) : list event :=
  match window b with
  | Ok (first_reg, num_regs) => [InstrReadRegisters first_reg num_regs]
  | Raise _ => []
  end.

(** ** Data for the worked examples *)

Definition reg (name : string) (start len : Z) : register :=
  {| r_name := name; r_start := start; r_length := len;
     r_signed := false; r_decimals := 0; r_is_float := false |}.

Definition new_client (catalog : list register) (d : device_attr) : client :=
  {| REGS := catalog; device := d; log := []; polls := 0; sent := 0 |}.

(** A meter on which every register holds zero. *)
Definition zero_instrument : instrument :=
  {| read_registers := fun _ n => Ok (replicate (Z.to_nat n) 0);
     read_register := fun _ _ _ => Ok (NInt 0);
     read_long := fun _ _ => Ok 0;
     read_float := fun _ _ => Ok (F32 0) |}.

Definition gap_example : list register := [reg "a" 10 2; reg "b" 14 2].

Definition strict_example : list register :=
  [reg "a" 10 1; reg "b" 11 1; reg "c" 50 1].

(** The window of a non-empty batch begins at its first register and
    reaches to the largest end among its registers. *)
Definition spans_to_largest_end (b : list register) : Prop :=
  match b with
  | [] => False
  | f :: tl =>
      window b = Ok (r_start f, foldl Z.max (r_end f) (map r_end tl) - r_start f)
  end.

(** The window of a non-empty batch begins at its first register and
    reaches to the end of its last register. *)
Definition spans_to_last_end (b : list register) : Prop :=
  match b with
  | [] => False
  | f :: tl => window b = Ok (r_start f, r_end (default f (last tl)) - r_start f)
  end.

(** A peer that answers the k-th [recv] with [script k] and hands out the
    transaction id 1. *)
Definition scripted_socket (script : nat -> list Z) : socket :=
  {| recv := fun k => Ok (script k); randint := fun _ => 1 |}.

(** A Multicube meter that answers the two requests for [strict_example]
    at once, every register holding zero: 9 header bytes and two bytes per
    register. *)
Definition strict_socket : socket :=
  scripted_socket (fun k => if (k =? 0)%nat then replicate 13 0 else replicate 11 0).



(** A catalog declared out of address order. *)
Definition unsorted_catalog : list register := [reg "b" 20 1; reg "a" 10 1].

(** No register of the catalog carries a name of [regnames]. *)
Definition resolves_to_nothing (catalog : list register) (regnames : list string) : Prop :=
  Forall (fun r => r_name r ∉ regnames) catalog.

(** No register of the catalog is called [regname]. *)
Definition names_no_register (catalog : list register) (regname : string) : Prop :=
  Forall (fun r => r_name r <> regname) catalog.

(** [read] fails: the call ends in an exception. *)
Definition fails {A} (m : M A) (c : client) : Prop :=
  exists e, (m c).2 = Raise e.

(** ** The decode rules in the words of the specification *)

(** A 16-bit register word, and a byte. *)
Definition is_word (w : Z) : Prop := 0 <= w < 65536.
Definition is_byte (b : Z) : Prop := 0 <= b < 256.

(** The words packed big-endian into one unsigned integer. *)
Definition words_value (ws : list Z) : Z :=
  fold_left (fun acc w => acc * 65536 + w) ws 0.

(** The payload bytes of the words: two per word, high byte first. *)
Definition bytes_of_words (ws : list Z) : list Z :=
  concat (map (be_bytes 2) ws).

(** The packed integer of [16 * length ws] bits, read as unsigned or as
    two's complement. *)
Definition raw_integer (ws : list Z) (signed : bool) : Z :=
  let u := words_value ws in
  let bits := 16 * Z.of_nat (length ws) in
  if signed && (2 ^ (bits - 1) <=? u) then u - 2 ^ bits else u.

(** The decimals for which the division by [10 ** decimals] returns: the
    divisor is neither the float [0.0] (from [10 ** -324] down) nor an int
    that no float holds (from [10 ** 309] on). *)
Definition decimals_ok (decimals : Z) : Prop := -324 < decimals < 309.

(** Absent for a null sentinel, [raw / 10^decimals] otherwise. *)
Definition scaled (nulls : list Z) (raw decimals : Z) : value :=
  if bool_decide (raw ∈ nulls) then VNone else VQuot (NInt raw) decimals.

(** What the integer rule hands back for every [decimals]: a sentinel is
    absent before any division; otherwise the division returns the quotient
    or raises. *)
Definition scaled_result (nulls : list Z) (raw decimals : Z) : result value :=
  if bool_decide (raw ∈ nulls) then Ok VNone
  else float_over_pow10 (NInt raw) decimals.

(** The float rule as the specification states it for a codec that is
    given the raw words: two words decode to the single-precision float
    with that pattern, four words to the double, with nothing applied
    afterwards. *)
Definition decodes_floats_unscaled
    (codec : list Z -> bool -> Z -> result value) : Prop :=
  forall ws signed decimals,
    Forall is_word ws ->
    (length ws = 2%nat ->
     codec ws signed decimals = Ok (VNum (NFloat (F32 (words_value ws))))) /\
    (length ws = 4%nat ->
     codec ws signed decimals = Ok (VNum (NFloat (F64 (words_value ws))))).

(** The two codecs on the raw words of a register flagged [is_float]. *)
Definition rtu_float_codec (ws : list Z) (signed : bool) (decimals : Z) : result value :=
  ModbusRTUMeter._convert_value ws signed decimals true.

Definition tcp_float_codec (self : tcp_meter) (ws : list Z) (signed : bool)
    (decimals : Z) : result value :=
  ModbusTCPMeter._convert_value self (bytes_of_words ws) signed decimals true.

(** [{'name': 'active_import', 'start': 20480, 'length': 4, 'signed': True,
      'decimals': 2}], the first entry of [ABBMeter._REGS]. *)
Definition active_import : register :=
  {| r_name := "active_import"; r_start := 20480; r_length := 4;
     r_signed := true; r_decimals := 2; r_is_float := false |}.

(** ** The receive loop, seen from outside *)

(** The bytes the peer hands over in [k] successive calls of [recv],
    starting with call number [from]. *)
Fixpoint received (sock : socket) (from k : nat) : list Z :=
  match k with
  | O => []
  | S k' =>
      match recv sock from with
      | Ok chunk => chunk ++ received sock (S from) k'
      | Raise _ => []
      end
  end.

(** The client after [k] rounds of [time.sleep(0.05)] and [recv(2048)]. *)
Fixpoint after_polls (k : nat) (c : client) : client :=
  match k with
  | O => c
  | S k' => after_polls k' (incr_polls (add_event Recv (add_event Sleep c)))
  end.

(** A peer whose answer to a one-register request trickles in: one header
    byte per [recv] for nine calls, the two data bytes 0x12 0x34 on the
    tenth. *)
Definition slow_socket : socket :=
  scripted_socket (fun k => if (k <? 9)%nat then [Z.of_nat k] else [18; 52]).

(** The request frame for the window (2816, 1) on a Multicube meter. *)
Definition one_register_request : list Z := [0; 1; 0; 0; 0; 6; 1; 3; 11; 0; 0; 1].


(** The word lengths of the data model: 1, 2 or 4. *)
Definition word_length_ok (r : register) : Prop :=
  r_length r = 1 \/ r_length r = 2 \/ r_length r = 4.

(** A register the serial codec decodes: a word length of the data model
    and decimals its division accepts. *)
Definition rtu_readable (r : register) : Prop :=
  word_length_ok r /\ decimals_ok (r_decimals r).


(** The integers of [bits] bits, two's complement or unsigned. *)
Definition in_int_range (bits : Z) (signed : bool) (v : Z) : Prop :=
  if signed then - 2 ^ (bits - 1) <= v < 2 ^ (bits - 1) else 0 <= v < 2 ^ bits.

(** The fields of a request frame that come from the meter object and from
    [random.randint] fit their [struct] codes. *)
Definition frame_header_ok (self : tcp_meter) (transaction_id : Z) : Prop :=
  is_word transaction_id /\ is_word (PROTOCOL_CODE self) /\
  is_byte (device_id self) /\ is_byte (FUNCTION_CODE self).

(** [ModbusTCPMeter.__init__] stores the host, the port and the unit id; it
    sets no [device] attribute, and [SMAMeter.__init__] adds nothing. *)
Definition tcp_client_init (catalog : list register) : client :=
  {| REGS := catalog; device := NoAttribute; log := []; polls := 0; sent := 0 |}.

(** A peer that hands over a complete answer of 257 bytes (124
    registers) with the first [recv]. *)
Definition eager_socket : socket :=
  scripted_socket (fun k => if (k =? 0)%nat then replicate 257 7 else []).

(** The request frame for the window (0, 124) on a Multicube meter. *)
Definition large_request : list Z := [0; 1; 0; 0; 0; 6; 1; 3; 0; 0; 0; 124].

(** [{'name': 'power_factor_total', 'start': 40208, 'length': 1,
      'signed': True, 'decimals': 3}] of [SMAMeter.REGS]. *)
Definition sma_power_factor_total : register :=
  {| r_name := "power_factor_total"; r_start := 40208; r_length := 1;
     r_signed := true; r_decimals := 3; r_is_float := false |}.

(** A request of the serial driver for at most [cap] registers. *)
Definition request_within (cap : Z) (e : event) : Prop :=
  exists address n, e = InstrReadRegisters address n /\ 0 <= n <= cap.

(** The window of the batch holds at most [cap] addresses. *)
Definition window_within (cap : Z) (b : list register) : Prop :=
  exists first_reg num_regs,
    window b = Ok (first_reg, num_regs) /\ 0 <= num_regs <= cap.

(** ** Reading over TCP, seen from outside *)

(** A register a TCP meter can be asked for and whose bytes the TCP codec
    takes: one or two words, not a float, at an address that fits the
    frame, with decimals the division accepts. *)
Definition tcp_readable (self : tcp_meter) (r : register) : Prop :=
  (r_length r = 1 \/ r_length r = 2) /\
  r_is_float r = false /\
  REG_OFFSET self <= r_start r /\
  r_end r - REG_OFFSET self < 65536 /\
  decimals_ok (r_decimals r).

(** The meter object and the transaction ids fit the frame. *)
Definition frames_ok (self : tcp_meter) (sock : socket) : Prop :=
  forall k, frame_header_ok self (randint sock k).

(** A peer from which nothing arrives: every [recv] returns the empty
    bytes, as on a connection the peer has closed or on a socket that does
    not block. *)
Definition silent (sock : socket) : Prop :=
  forall k, recv sock k = Ok [].

(** What a register reads as when its bytes are all zero. *)
Definition zero_reading (r : register) : value :=
  if String.eqb (r_name r) "power_factor_total" then VNum (NInt 1)
  else VQuot (NInt 0) (r_decimals r).

(** The ranges [_read_multiple] splits a list of its own into. *)
Definition tcp_plan (regs : list register) : list (list register) :=
  match ModbusTCPMeter._split_ranges (sort_by_start regs) with
  | Ok gs => gs
  | Raise _ => []
  end.

(** A peer whose every [recv] returns the empty bytes. *)
Definition silent_socket : socket := scripted_socket (fun _ => []).

(** The registers [read] hands to [_read_multiple]: the whole catalog for
    [None], the catalog entries named in the list for a list. *)
Definition selected (regnames : selector) (catalog : list register)
  : list register :=
  match regnames with
  | SelNone => catalog
  | SelList regnames => filter (fun register => r_name register ∈ regnames) catalog
  | _ => []
  end.

(** [SMAMeter.REGS] *)
Definition sma_reg (name : string) (start length : Z) (signed : bool)
    (decimals : Z) : register :=
  {| r_name := name; r_start := start; r_length := length;
     r_signed := signed; r_decimals := decimals; r_is_float := false |}.

Definition SMAMeter_REGS : list register :=
  [ sma_reg "current_ac" 40188 1 false 1;
    sma_reg "current_l1" 40189 1 false 1;
    sma_reg "current_l2" 40190 1 false 1;
    sma_reg "current_l3" 40191 1 false 1;
    sma_reg "voltage_l1_l2" 40193 1 false 1;
    sma_reg "voltage_l2_l3" 40194 1 false 1;
    sma_reg "voltage_l3_l1" 40195 1 false 1;
    sma_reg "voltage_l1_n" 40196 1 false 1;
    sma_reg "voltage_l2_n" 40197 1 false 1;
    sma_reg "voltage_l3_n" 40198 1 false 1;
    sma_reg "active_power_total" 40200 1 true (-1);
    sma_reg "frequency" 40202 1 false 2;
    sma_reg "apparent_power_total" 40204 1 true (-1);
    sma_reg "reactive_power_total" 40206 1 true (-1);
    sma_reg "power_factor_total" 40208 1 true 3;
    sma_reg "active_export" 40210 2 false 3;
    sma_reg "dc_power" 40217 1 false (-1);
    sma_reg "temperature_internal" 40219 1 false 0;
    sma_reg "temperature_other" 40222 1 false 0;
    sma_reg "operating_status" 40224 1 false 0 ].

(** ** Decoding a window *)

(** The words a window that begins at [first_reg] holds for the register:
    [data[start - first_reg : start - first_reg + length]]. *)
Definition words_at (data : list Z) (first_reg : Z) (r : register) : list Z :=
  take (Z.to_nat (r_length r)) (drop (Z.to_nat (r_start r - first_reg)) data).

(** The reading of a register of the serial clients from its words: the
    float with that bit pattern for a float register of two or four words,
    the scaled integer (or nothing, for a sentinel) otherwise. *)
Definition rtu_reading (ws : list Z) (r : register) : value :=
  if r_is_float r && (length ws =? 2)%nat
  then VNum (NFloat (F32 (words_value ws)))
  else if r_is_float r && (length ws =? 4)%nat
  then VNum (NFloat (F64 (words_value ws)))
  else scaled ABBMeter.NULLS (raw_integer ws (r_signed r)) (r_decimals r).

(** The reading of an integer register of a TCP client from its words. *)
Definition tcp_reading (self : tcp_meter) (ws : list Z) (r : register) : value :=
  let v := scaled (NULLS self) (raw_integer ws (r_signed r)) (r_decimals r) in
  if String.eqb (r_name r) "power_factor_total" && value_is_zero v
  then VNum (NInt 1) else v.

(** ** A meter behind the serial driver *)

(** The words the meter holds at the addresses [address .. address + n). *)
Definition memory_words (mem : Z -> Z) (address n : Z) : list Z :=
  map (fun i => mem (address + Z.of_nat i)) (seq 0 (Z.to_nat n)).

(** A serial driver in front of a meter whose register at address [a]
    holds the word [mem a]: [read_registers(address, n)] returns the [n]
    words from [address] on. *)
Definition reads_memory (instr : instrument) (mem : Z -> Z) : Prop :=
  (forall a, is_word (mem a)) /\
  forall address n, read_registers instr address n = Ok (memory_words mem address n).

(** The words the meter holds for a register. *)
Definition words_of (mem : Z -> Z) (r : register) : list Z :=
  memory_words mem (r_start r) (r_length r).

(** A driver in front of a meter that counts: the register at address [a]
    holds [a mod 7]. *)
Definition counting_instrument : instrument :=
  {| read_registers := fun address n => Ok (memory_words (fun a => a mod 7) address n);
     read_register := fun _ _ _ => Raise IOError;
     read_long := fun _ _ => Raise IOError;
     read_float := fun _ _ => Raise IOError |}.

(** ** A meter behind a TCP connection *)

(** A peer that answers the request for each range of [gs], in order and
    starting with call number [from] of [recv] (or of [readexactly]), with
    one chunk: nine header bytes, then the words the meter holds for the
    window, two bytes each. *)
Fixpoint answers_from_memory (sock : socket) (mem : Z -> Z) (from : nat)
    (gs : list (list register)) : Prop :=
  match gs with
  | [] => True
  | g :: gs' =>
      (exists first_reg num_regs header,
         window g = Ok (first_reg, num_regs) /\
         length header = 9%nat /\
         recv sock from
         = Ok (header ++ bytes_of_words (memory_words mem first_reg num_regs))) /\
      answers_from_memory sock mem (S from) gs'
  end.

(** The peer that answers the k-th call with the window of the k-th range
    of [gs], after a header of nine zero bytes. *)
Definition memory_socket (mem : Z -> Z) (gs : list (list register)) : socket :=
  {| recv := fun k =>
       match gs !! k with
       | Some g =>
           match window g with
           | Ok (first_reg, num_regs) =>
               Ok (replicate 9 0 ++ bytes_of_words (memory_words mem first_reg num_regs))
           | Raise e => Raise e
           end
       | None => Ok []
       end;
     randint := fun _ => 1 |}.

(** ** The S-Bus meter *)

(** A 32-bit register value, as the S-Bus driver returns it. *)
Definition is_dword (v : Z) : Prop := 0 <= v < 4294967296.

(** The 32-bit values packed big-endian into one unsigned integer. *)
Definition dwords_value (vs : list Z) : Z :=
  fold_left (fun acc v => acc * 4294967296 + v) vs 0.

(** The bytes of the values: four per value, high byte first. *)
Definition bytes_of_dwords (vs : list Z) : list Z :=
  concat (map (be_bytes 4) vs).

(** The packed integer of [32 * length vs] bits, read as unsigned or as
    two's complement. *)
Definition raw_integer32 (vs : list Z) (signed : bool) : Z :=
  let u := dwords_value vs in
  let bits := 32 * Z.of_nat (length vs) in
  if signed && (2 ^ (bits - 1) <=? u) then u - 2 ^ bits else u.

(** A register the S-Bus codec decodes: one or two values, and decimals
    its division accepts. *)
Definition saia_readable (r : register) : Prop :=
  (r_length r = 1 \/ r_length r = 2) /\ decimals_ok (r_decimals r).

(** The reading of a register of the S-Bus meter from its values. *)
Definition saia_reading (vs : list Z) (r : register) : value :=
  VQuot (NInt (raw_integer32 vs (r_signed r))) (r_decimals r).

(** An S-Bus driver in front of a meter whose register at address [a]
    holds the 32-bit value [mem a]. *)
Definition saia_reads_memory (instr : instrument) (mem : Z -> Z) : Prop :=
  (forall a, is_dword (mem a)) /\
  forall address n, read_registers instr address n = Ok (memory_words mem address n).

(** A driver in front of a meter whose every word is 0xFFFF; [read_long]
    returns the 32-bit integer of the two words at the address. *)
Definition saturated_instrument : instrument :=
  {| read_registers := fun address n => Ok (memory_words (fun _ => 65535) address n);
     read_register := fun _ _ _ => Raise IOError;
     read_long := fun address signed =>
       Ok (raw_integer (memory_words (fun _ => 65535) address 2) signed);
     read_float := fun _ _ => Raise IOError |}.

(** A peer of an SMA meter at rest: every [recv] brings nine header bytes
    and one word of zeros. *)
Definition resting_socket : socket :=
  scripted_socket (fun _ => replicate 9 0 ++ bytes_of_words [0]).

(** ** The Multicube meter and its scaling *)

Module Multicube.

Definition mc_reg (name : string) (start length decimals : Z) : register :=
  {| r_name := name; r_start := start; r_length := length;
     r_signed := true; r_decimals := decimals; r_is_float := false |}.

(** The list [MulticubeMeter.__init__] stores in [self.REGS]. *)
Definition REGS : list register :=
  [
    mc_reg "energy_scale" 512 2 0;
    mc_reg "active_net" 514 2 0;
    mc_reg "apparent_net" 516 2 0;
    mc_reg "reactive_net" 518 2 0;
    mc_reg "active_power_total" 2816 1 0;
    mc_reg "apparent_power_total" 2817 1 0;
    mc_reg "reactive_power_total" 2818 1 0;
    mc_reg "power_factor_total" 2819 1 3;
    mc_reg "frequency" 2820 1 1;
    mc_reg "voltage_l1_n" 2821 1 0;
    mc_reg "current_l1" 2822 1 0;
    mc_reg "active_power_l1" 2823 1 0;
    mc_reg "voltage_l2_n" 2824 1 0;
    mc_reg "current_l2" 2825 1 0;
    mc_reg "active_power_l2" 2826 1 0;
    mc_reg "voltage_l3_n" 2827 1 0;
    mc_reg "current_l3" 2828 1 0;
    mc_reg "active_power_l3" 2829 1 0;
    mc_reg "power_factor_l1" 2830 1 0;
    mc_reg "power_factor_l2" 2831 1 0;
    mc_reg "power_factor_l3" 2832 1 0;
    mc_reg "voltage_l1_l2" 2833 1 0;
    mc_reg "voltage_l2_l3" 2834 1 0;
    mc_reg "voltage_l3_l1" 2835 1 0;
    mc_reg "current_n" 2836 1 0;
    mc_reg "amps_scale" 2837 1 0;
    mc_reg "phase_volts_scale" 2838 1 0;
    mc_reg "line_volts_scale" 2839 1 0;
    mc_reg "power_scale" 2840 1 0;
    mc_reg "apparent_power_l1" 3072 1 0;
    mc_reg "apparent_power_l2" 3073 1 0;
    mc_reg "apparent_power_l3" 3074 1 0;
    mc_reg "reactive_power_l1" 3075 1 0;
    mc_reg "reactive_power_l2" 3076 1 0;
    mc_reg "reactive_power_l3" 3077 1 0;
    mc_reg "peak_current_l1" 3078 1 0;
    mc_reg "peak_current_l2" 3079 1 0;
    mc_reg "peak_current_l3" 3080 1 0;
    mc_reg "current_l1_thd" 3081 1 3;
    mc_reg "current_l2_thd" 3082 1 3;
    mc_reg "current_l3_thd" 3083 1 3 ].

Definition a_registers : list string :=
  ["current_l1"; "current_l2"; "current_l3"; "current_n"].
Definition pv_registers : list string :=
  ["voltage_l1_n"; "voltage_l2_n"; "voltage_l3_n"].
Definition lv_registers : list string :=
  ["voltage_l1_l2"; "voltage_l2_l3"; "voltage_l3_l1"].
Definition p_registers : list string :=
  ["active_power_total"; "reactive_power_total"; "apparent_power_total";
   "active_power_l1"; "active_power_l2"; "active_power_l3";
   "apparent_power_l1"; "apparent_power_l2"; "apparent_power_l3";
   "reactive_power_l1"; "reactive_power_l2"; "reactive_power_l3"].
Definition e_registers : list string :=
  ["active_net"; "apparent_net"; "reactive_net"].

(** [{1: 2, 2: 1, 3: 0, 4: -1, 5: -2, 6: -3, 7: -4}[scale]] *)
Definition decimals_mapping (scale : Z) : result Z :=
  if scale =? 1 then Ok 2
  else if scale =? 2 then Ok 1
  else if scale =? 3 then Ok 0
  else if scale =? 4 then Ok (-1)
  else if scale =? 5 then Ok (-2)
  else if scale =? 6 then Ok (-3)
  else if scale =? 7 then Ok (-4)
  else Raise KeyError.

(** [{3: 3, 4: 2, 5: 1, 6: 0, 7: -1}[scale]] *)
Definition energy_decimals_mapping (scale : Z) : result Z :=
  if scale =? 3 then Ok 3
  else if scale =? 4 then Ok 2
  else if scale =? 5 then Ok 1
  else if scale =? 6 then Ok 0
  else if scale =? 7 then Ok (-1)
  else Raise KeyError.

(** [r['decimals'] = d] *)
Definition set_decimals (d : Z) (r : register) : register :=
  {| r_name := r_name r; r_start := r_start r; r_length := r_length r;
     r_signed := r_signed r; r_decimals := d; r_is_float := r_is_float r |}.

(** [for r in self.REGS: if r['name'] in group: r['decimals'] = mapping[scale]].
    The dicts of the list are updated in place one after the other:
    [seen] are the registers the loop has passed, [todo] those to come. *)
Fixpoint rescale_loop (seen todo : list register) (group : list string)
    (mapping : Z -> result Z) (scale : Z) : M unit :=
  match todo with
  | [] => ret tt
  | r :: rest =>
      if bool_decide (r_name r ∈ group) then
        (d <- lift (mapping scale) ;;
         (fun c => (set_REGS (seen ++ set_decimals d r :: rest) c, Ok tt)) ;;
         rescale_loop (seen ++ [set_decimals d r]) rest group mapping scale)%io
      else rescale_loop (seen ++ [r]) rest group mapping scale
  end.

Definition rescale (group : list string) (mapping : Z -> result Z) (scale : Z)
  : M unit :=
  (regs <- get_REGS ;;
   rescale_loop [] regs group mapping scale)%io.

(** The class attributes, and the unit id [__init__] stores. *)
Definition meter (slaveaddress : Z) : tcp_meter :=
  {| REG_OFFSET := 0; PROTOCOL_CODE := 0; FUNCTION_CODE := 3;
     NULLS := [2 ^ 16 - 1; 2 ^ 15 - 1; 2 ^ 15; - 2 ^ 15];
     device_id := slaveaddress |}.

Section Client.
Context (self : tcp_meter) (sock : socket).

(** [int(x)] of a float that is not an integer over [10 ** 0]: the rounding
    of floats is not modelled, the result is left open. *)
Context (float_int : value -> result Z).

(** [int(self.read(name))]: [int(None)] raises [TypeError]; a reading
    [float(n) / 10 ** 0] is the float of the integer [n], and [int] gives
    [n] back. *)
Definition py_int (x : retval) : result Z :=
  match x with
  | RDict _ => Raise TypeError
  | RVal VNone => Raise TypeError
  | RVal (VStr _) => Raise ValueError
  | RVal (VNum (NInt n)) => Ok n
  | RVal (VQuot (NInt n) 0) => Ok n
  | RVal v => float_int v
  end.

Definition read_scale (name : string) : M Z :=
  (x <- ModbusTCPMeter.read self sock (SelStr name) ;;
   lift (py_int x))%io.

Definition set_scaling : M unit :=
  (scale <- read_scale "amps_scale" ;;
   rescale a_registers decimals_mapping scale ;;
   scale <- read_scale "phase_volts_scale" ;;
   rescale pv_registers decimals_mapping scale ;;
   scale <- read_scale "line_volts_scale" ;;
   rescale lv_registers decimals_mapping scale ;;
   scale <- read_scale "power_scale" ;;
   rescale p_registers decimals_mapping scale ;;
   scale <- read_scale "energy_scale" ;;
   rescale e_registers energy_decimals_mapping scale)%io.

(** [__init__]: the connection is made at once (a failure of
    [socket.create_connection] is not modelled), the catalog is stored on
    the object, and [set_scaling] runs unless [auto_scale] is false. *)
Definition init (auto_scale : bool) : M unit :=
  (ModbusTCPMeter._connect ;;
   (fun c => (set_REGS REGS c, Ok tt)) ;;
   if auto_scale then set_scaling else ret tt)%io.
End Client.

(** The decimals [set_scaling] leaves on a register when the meter reports
    the five scales. *)
Definition scaled_decimals (amps phase_volts line_volts power energy : Z)
    (r : register) : Z :=
  if bool_decide (r_name r ∈ a_registers) then 3 - amps
  else if bool_decide (r_name r ∈ pv_registers) then 3 - phase_volts
  else if bool_decide (r_name r ∈ lv_registers) then 3 - line_volts
  else if bool_decide (r_name r ∈ p_registers) then 3 - power
  else if bool_decide (r_name r ∈ e_registers) then 6 - energy
  else r_decimals r.
End Multicube.

(** A meter that answers the five requests of [set_scaling] at once: the
    scales 3, 3, 3, 4 and 5. *)
Definition scales_socket : socket :=
  scripted_socket (fun k =>
    replicate 9 0 ++
    bytes_of_words (if (k <? 3)%nat then [3] else if (k =? 3)%nat then [4] else [0; 5])).

(** ** What a read prints *)

Definition is_print (e : event) : bool :=
  match e with Print _ => true | _ => false end.

(** The lines [m] prints, in order. *)
Definition printed {A} (m : M A) (c : client) : list event :=
  filter (fun e => is_print e = true) (new_events c (m c).1).

(** The two lines of the warning: the requested names that are not in the
    catalog, and the names of the catalog after a literal [%s]. *)
Definition warning_lines (catalog : list register) (regnames : list string)
  : list event :=
  [Print ("Warning: the following registers are not available on this device: "
          +:+ join ", " (filter (fun regname => regname ∉ map r_name catalog) regnames));
   Print ("The available registers are: %s" +:+ join ", " (map r_name catalog))].

(** ** The ABB catalog and its models *)

Module ABBCatalog.

Definition abb_reg (name : string) (start length : Z) (signed : bool)
    (decimals : Z) : register :=
  {| r_name := name; r_start := start; r_length := length;
     r_signed := signed; r_decimals := decimals; r_is_float := false |}.

(** [ABBMeter._REGS], the register map of the ABB A and B series. *)
Definition _REGS : list register :=
  [
    abb_reg "active_import" 20480 4 true 2;
    abb_reg "active_export" 20484 4 true 2;
    abb_reg "active_net" 20488 4 true 2;
    abb_reg "reactive_import" 20492 4 true 2;
    abb_reg "reactive_export" 20496 4 true 2;
    abb_reg "reactive_net" 20500 4 true 2;
    abb_reg "apparent_import" 20504 4 true 2;
    abb_reg "apparent_export" 20508 4 true 2;
    abb_reg "apparent_net" 20512 4 true 2;
    abb_reg "active_import_co2" 20516 4 true 2;
    abb_reg "active_import_currency" 20532 4 true 2;
    abb_reg "active_import_tariff_1" 20848 4 false 2;
    abb_reg "active_import_tariff_2" 20852 4 false 2;
    abb_reg "active_import_tariff_3" 20856 4 false 2;
    abb_reg "active_import_tariff_4" 20860 4 false 2;
    abb_reg "active_export_tariff_1" 20880 4 false 2;
    abb_reg "active_export_tariff_2" 20884 4 false 2;
    abb_reg "active_export_tariff_3" 20888 4 false 2;
    abb_reg "active_export_tariff_4" 20892 4 false 2;
    abb_reg "reactive_import_tariff_1" 20912 4 false 2;
    abb_reg "reactive_import_tariff_2" 20916 4 false 2;
    abb_reg "reactive_import_tariff_3" 20920 4 false 2;
    abb_reg "reactive_import_tariff_4" 20924 4 false 2;
    abb_reg "reactive_export_tariff_1" 20944 4 false 2;
    abb_reg "reactive_export_tariff_2" 20948 4 false 2;
    abb_reg "reactive_export_tariff_3" 20952 4 false 2;
    abb_reg "reactive_export_tariff_4" 20956 4 false 2;
    abb_reg "active_import_l1" 21600 4 false 2;
    abb_reg "active_import_l2" 21604 4 false 2;
    abb_reg "active_import_l3" 21608 4 false 2;
    abb_reg "active_export_l1" 21612 4 false 2;
    abb_reg "active_export_l2" 21616 4 false 2;
    abb_reg "active_export_l3" 21620 4 false 2;
    abb_reg "active_net_l1" 21624 4 true 2;
    abb_reg "active_net_l2" 21628 4 true 2;
    abb_reg "active_net_l3" 21632 4 true 2;
    abb_reg "reactive_import_l1" 21636 4 false 2;
    abb_reg "reactive_import_l2" 21640 4 false 2;
    abb_reg "reactive_import_l3" 21644 4 false 2;
    abb_reg "reactive_export_l1" 21648 4 false 2;
    abb_reg "reactive_export_l2" 21652 4 false 2;
    abb_reg "reactive_export_l3" 21656 4 false 2;
    abb_reg "reactive_net_l1" 21660 4 true 2;
    abb_reg "reactive_net_l2" 21664 4 true 2;
    abb_reg "reactive_net_l3" 21668 4 true 2;
    abb_reg "apparent_import_l1" 21672 4 false 2;
    abb_reg "apparent_import_l2" 21676 4 false 2;
    abb_reg "apparent_import_l3" 21680 4 false 2;
    abb_reg "apparent_export_l1" 21684 4 false 2;
    abb_reg "apparent_export_l2" 21688 4 false 2;
    abb_reg "apparent_export_l3" 21692 4 false 2;
    abb_reg "apparent_net_l1" 21696 4 true 2;
    abb_reg "apparent_net_l2" 21700 4 true 2;
    abb_reg "apparent_net_l3" 21704 4 true 2;
    abb_reg "resettable_active_import" 21804 4 false 2;
    abb_reg "resettable_active_export" 21808 4 false 2;
    abb_reg "resettable_reactive_import" 21812 4 false 2;
    abb_reg "resettable_reactive_export" 21816 4 false 2;
    abb_reg "voltage_l1_n" 23296 2 false 1;
    abb_reg "voltage_l2_n" 23298 2 false 1;
    abb_reg "voltage_l3_n" 23300 2 false 1;
    abb_reg "voltage_l1_l2" 23302 2 false 1;
    abb_reg "voltage_l3_l2" 23304 2 false 1;
    abb_reg "voltage_l1_l3" 23306 2 false 1;
    abb_reg "current_l1" 23308 2 false 2;
    abb_reg "current_l2" 23310 2 false 2;
    abb_reg "current_l3" 23312 2 false 2;
    abb_reg "current_n" 23314 2 false 2;
    abb_reg "active_power_total" 23316 2 true 2;
    abb_reg "active_power_l1" 23318 2 true 2;
    abb_reg "active_power_l2" 23320 2 true 2;
    abb_reg "active_power_l3" 23322 2 true 2;
    abb_reg "reactive_power_total" 23324 2 true 2;
    abb_reg "reactive_power_l1" 23326 2 true 2;
    abb_reg "reactive_power_l2" 23328 2 true 2;
    abb_reg "reactive_power_l3" 23330 2 true 2;
    abb_reg "apparent_power_total" 23332 2 true 2;
    abb_reg "apparent_power_l1" 23334 2 true 2;
    abb_reg "apparent_power_l2" 23336 2 true 2;
    abb_reg "apparent_power_l3" 23338 2 true 2;
    abb_reg "frequency" 23340 1 false 2;
    abb_reg "phase_angle_power_total" 23341 1 true 1;
    abb_reg "phase_angle_power_l1" 23342 1 true 1;
    abb_reg "phase_angle_power_l2" 23343 1 true 1;
    abb_reg "phase_angle_power_l3" 23344 1 true 1;
    abb_reg "phase_angle_voltage_l1" 23345 1 true 1;
    abb_reg "phase_angle_voltage_l2" 23346 1 true 1;
    abb_reg "phase_angle_voltage_l3" 23347 1 true 1;
    abb_reg "phase_angle_current_l1" 23351 1 true 1;
    abb_reg "phase_angle_current_l2" 23352 1 true 1;
    abb_reg "phase_angle_current_l3" 23353 1 true 1;
    abb_reg "power_factor_total" 23354 1 true 3;
    abb_reg "power_factor_l1" 23355 1 true 3;
    abb_reg "power_factor_l2" 23356 1 true 3;
    abb_reg "power_factor_l3" 23357 1 true 3;
    abb_reg "current_quadrant_total" 23358 1 false 0;
    abb_reg "current_quadrant_l1" 23359 1 false 0;
    abb_reg "current_quadrant_l2" 23360 1 false 0;
    abb_reg "current_quadrant_l3" 23361 1 false 0;
    abb_reg "voltage_harmonics_l1_n_thd" 23808 2 false 1;
    abb_reg "voltage_harmonics_l1_n_2nd" 23810 2 false 1;
    abb_reg "voltage_harmonics_l1_n_3rd" 23812 2 false 1;
    abb_reg "voltage_harmonics_l1_n_4th" 23814 2 false 1;
    abb_reg "voltage_harmonics_l1_n_5th" 23816 2 false 1;
    abb_reg "voltage_harmonics_l1_n_6th" 23818 2 false 1;
    abb_reg "voltage_harmonics_l1_n_7th" 23820 2 false 1;
    abb_reg "voltage_harmonics_l1_n_8th" 23822 2 false 1;
    abb_reg "voltage_harmonics_l1_n_9th" 23824 2 false 1;
    abb_reg "voltage_harmonics_l1_n_10th" 23826 2 false 1;
    abb_reg "voltage_harmonics_l1_n_11th" 23828 2 false 1;
    abb_reg "voltage_harmonics_l1_n_12th" 23830 2 false 1;
    abb_reg "voltage_harmonics_l1_n_13th" 23832 2 false 1;
    abb_reg "voltage_harmonics_l1_n_14th" 23834 2 false 1;
    abb_reg "voltage_harmonics_l1_n_15th" 23836 2 false 1;
    abb_reg "voltage_harmonics_l1_n_16th" 23838 2 false 1;
    abb_reg "voltage_harmonics_l2_n_thd" 23936 2 false 1;
    abb_reg "voltage_harmonics_l2_n_2nd" 23938 2 false 1;
    abb_reg "voltage_harmonics_l2_n_3rd" 23940 2 false 1;
    abb_reg "voltage_harmonics_l2_n_4th" 23942 2 false 1;
    abb_reg "voltage_harmonics_l2_n_5th" 23944 2 false 1;
    abb_reg "voltage_harmonics_l2_n_6th" 23946 2 false 1;
    abb_reg "voltage_harmonics_l2_n_7th" 23948 2 false 1;
    abb_reg "voltage_harmonics_l2_n_8th" 23950 2 false 1;
    abb_reg "voltage_harmonics_l2_n_9th" 23952 2 false 1;
    abb_reg "voltage_harmonics_l2_n_10th" 23954 2 false 1;
    abb_reg "voltage_harmonics_l2_n_11th" 23956 2 false 1;
    abb_reg "voltage_harmonics_l2_n_12th" 23958 2 false 1;
    abb_reg "voltage_harmonics_l2_n_13th" 23960 2 false 1;
    abb_reg "voltage_harmonics_l2_n_14th" 23962 2 false 1;
    abb_reg "voltage_harmonics_l2_n_15th" 23964 2 false 1;
    abb_reg "voltage_harmonics_l2_n_16th" 23966 2 false 1;
    abb_reg "voltage_harmonics_l3_n_thd" 24064 2 false 1;
    abb_reg "voltage_harmonics_l3_n_2nd" 24066 2 false 1;
    abb_reg "voltage_harmonics_l3_n_3rd" 24068 2 false 1;
    abb_reg "voltage_harmonics_l3_n_4th" 24070 2 false 1;
    abb_reg "voltage_harmonics_l3_n_5th" 24072 2 false 1;
    abb_reg "voltage_harmonics_l3_n_6th" 24074 2 false 1;
    abb_reg "voltage_harmonics_l3_n_7th" 24076 2 false 1;
    abb_reg "voltage_harmonics_l3_n_8th" 24078 2 false 1;
    abb_reg "voltage_harmonics_l3_n_9th" 24080 2 false 1;
    abb_reg "voltage_harmonics_l3_n_10th" 24082 2 false 1;
    abb_reg "voltage_harmonics_l3_n_11th" 24084 2 false 1;
    abb_reg "voltage_harmonics_l3_n_12th" 24086 2 false 1;
    abb_reg "voltage_harmonics_l3_n_13th" 24088 2 false 1;
    abb_reg "voltage_harmonics_l3_n_14th" 24090 2 false 1;
    abb_reg "voltage_harmonics_l3_n_15th" 24092 2 false 1;
    abb_reg "voltage_harmonics_l3_n_16th" 24094 2 false 1;
    abb_reg "voltage_harmonics_l1_l2_thd" 24192 2 false 1;
    abb_reg "voltage_harmonics_l1_l2_2nd" 24194 2 false 1;
    abb_reg "voltage_harmonics_l1_l2_3rd" 24196 2 false 1;
    abb_reg "voltage_harmonics_l1_l2_4th" 24198 2 false 1;
    abb_reg "voltage_harmonics_l1_l2_5th" 24200 2 false 1;
    abb_reg "voltage_harmonics_l1_l2_6th" 24202 2 false 1;
    abb_reg "voltage_harmonics_l1_l2_7th" 24204 2 false 1;
    abb_reg "voltage_harmonics_l1_l2_8th" 24206 2 false 1;
    abb_reg "voltage_harmonics_l1_l2_9th" 24208 2 false 1;
    abb_reg "voltage_harmonics_l1_l2_10th" 24210 2 false 1;
    abb_reg "voltage_harmonics_l1_l2_11th" 24212 2 false 1;
    abb_reg "voltage_harmonics_l1_l2_12th" 24214 2 false 1;
    abb_reg "voltage_harmonics_l1_l2_13th" 24216 2 false 1;
    abb_reg "voltage_harmonics_l1_l2_14th" 24218 2 false 1;
    abb_reg "voltage_harmonics_l1_l2_15th" 24220 2 false 1;
    abb_reg "voltage_harmonics_l1_l2_16th" 24222 2 false 1;
    abb_reg "voltage_harmonics_l3_l2_thd" 24320 2 false 1;
    abb_reg "voltage_harmonics_l3_l2_2nd" 24322 2 false 1;
    abb_reg "voltage_harmonics_l3_l2_3rd" 24324 2 false 1;
    abb_reg "voltage_harmonics_l3_l2_4th" 24326 2 false 1;
    abb_reg "voltage_harmonics_l3_l2_5th" 24328 2 false 1;
    abb_reg "voltage_harmonics_l3_l2_6th" 24330 2 false 1;
    abb_reg "voltage_harmonics_l3_l2_7th" 24332 2 false 1;
    abb_reg "voltage_harmonics_l3_l2_8th" 24334 2 false 1;
    abb_reg "voltage_harmonics_l3_l2_9th" 24336 2 false 1;
    abb_reg "voltage_harmonics_l3_l2_10th" 24338 2 false 1;
    abb_reg "voltage_harmonics_l3_l2_11th" 24340 2 false 1;
    abb_reg "voltage_harmonics_l3_l2_12th" 24342 2 false 1;
    abb_reg "voltage_harmonics_l3_l2_13th" 24344 2 false 1;
    abb_reg "voltage_harmonics_l3_l2_14th" 24346 2 false 1;
    abb_reg "voltage_harmonics_l3_l2_15th" 24348 2 false 1;
    abb_reg "voltage_harmonics_l3_l2_16th" 24350 2 false 1;
    abb_reg "voltage_harmonics_l1_l3_thd" 24448 2 false 1;
    abb_reg "voltage_harmonics_l1_l3_2nd" 24450 2 false 1;
    abb_reg "voltage_harmonics_l1_l3_3rd" 24452 2 false 1;
    abb_reg "voltage_harmonics_l1_l3_4th" 24454 2 false 1;
    abb_reg "voltage_harmonics_l1_l3_5th" 24456 2 false 1;
    abb_reg "voltage_harmonics_l1_l3_6th" 24458 2 false 1;
    abb_reg "voltage_harmonics_l1_l3_7th" 24460 2 false 1;
    abb_reg "voltage_harmonics_l1_l3_8th" 24462 2 false 1;
    abb_reg "voltage_harmonics_l1_l3_9th" 24464 2 false 1;
    abb_reg "voltage_harmonics_l1_l3_10th" 24466 2 false 1;
    abb_reg "voltage_harmonics_l1_l3_11th" 24468 2 false 1;
    abb_reg "voltage_harmonics_l1_l3_12th" 24470 2 false 1;
    abb_reg "voltage_harmonics_l1_l3_13th" 24472 2 false 1;
    abb_reg "voltage_harmonics_l1_l3_14th" 24474 2 false 1;
    abb_reg "voltage_harmonics_l1_l3_15th" 24476 2 false 1;
    abb_reg "voltage_harmonics_l1_l3_16th" 24478 2 false 1;
    abb_reg "current_harmonics_l1_thd" 24576 2 false 1;
    abb_reg "current_harmonics_l1_2nd" 24578 2 false 1;
    abb_reg "current_harmonics_l1_3rd" 24580 2 false 1;
    abb_reg "current_harmonics_l1_4th" 24582 2 false 1;
    abb_reg "current_harmonics_l1_5th" 24584 2 false 1;
    abb_reg "current_harmonics_l1_6th" 24586 2 false 1;
    abb_reg "current_harmonics_l1_7th" 24588 2 false 1;
    abb_reg "current_harmonics_l1_8th" 24590 2 false 1;
    abb_reg "current_harmonics_l1_9th" 24592 2 false 1;
    abb_reg "current_harmonics_l1_10th" 24594 2 false 1;
    abb_reg "current_harmonics_l1_11th" 24596 2 false 1;
    abb_reg "current_harmonics_l1_12th" 24598 2 false 1;
    abb_reg "current_harmonics_l1_13th" 24600 2 false 1;
    abb_reg "current_harmonics_l1_14th" 24602 2 false 1;
    abb_reg "current_harmonics_l1_15th" 24604 2 false 1;
    abb_reg "current_harmonics_l1_16th" 24606 2 false 1;
    abb_reg "current_harmonics_l2_thd" 24704 2 false 1;
    abb_reg "current_harmonics_l2_2nd" 24706 2 false 1;
    abb_reg "current_harmonics_l2_3rd" 24708 2 false 1;
    abb_reg "current_harmonics_l2_4th" 24710 2 false 1;
    abb_reg "current_harmonics_l2_5th" 24712 2 false 1;
    abb_reg "current_harmonics_l2_6th" 24714 2 false 1;
    abb_reg "current_harmonics_l2_7th" 24716 2 false 1;
    abb_reg "current_harmonics_l2_8th" 24718 2 false 1;
    abb_reg "current_harmonics_l2_9th" 24720 2 false 1;
    abb_reg "current_harmonics_l2_10th" 24722 2 false 1;
    abb_reg "current_harmonics_l2_11th" 24724 2 false 1;
    abb_reg "current_harmonics_l2_12th" 24726 2 false 1;
    abb_reg "current_harmonics_l2_13th" 24728 2 false 1;
    abb_reg "current_harmonics_l2_14th" 24730 2 false 1;
    abb_reg "current_harmonics_l2_15th" 24732 2 false 1;
    abb_reg "current_harmonics_l2_16th" 24734 2 false 1;
    abb_reg "current_harmonics_l3_thd" 24832 2 false 1;
    abb_reg "current_harmonics_l3_2nd" 24834 2 false 1;
    abb_reg "current_harmonics_l3_3rd" 24836 2 false 1;
    abb_reg "current_harmonics_l3_4th" 24838 2 false 1;
    abb_reg "current_harmonics_l3_5th" 24840 2 false 1;
    abb_reg "current_harmonics_l3_6th" 24842 2 false 1;
    abb_reg "current_harmonics_l3_7th" 24844 2 false 1;
    abb_reg "current_harmonics_l3_8th" 24846 2 false 1;
    abb_reg "current_harmonics_l3_9th" 24848 2 false 1;
    abb_reg "current_harmonics_l3_10th" 24850 2 false 1;
    abb_reg "current_harmonics_l3_11th" 24852 2 false 1;
    abb_reg "current_harmonics_l3_12th" 24854 2 false 1;
    abb_reg "current_harmonics_l3_13th" 24856 2 false 1;
    abb_reg "current_harmonics_l3_14th" 24858 2 false 1;
    abb_reg "current_harmonics_l3_15th" 24860 2 false 1;
    abb_reg "current_harmonics_l3_16th" 24862 2 false 1;
    abb_reg "current_harmonics_n_thd" 24960 2 false 1;
    abb_reg "current_harmonics_n_2nd" 24962 2 false 1;
    abb_reg "current_harmonics_n_3rd" 24964 2 false 1;
    abb_reg "current_harmonics_n_4th" 24966 2 false 1;
    abb_reg "current_harmonics_n_5th" 24968 2 false 1;
    abb_reg "current_harmonics_n_6th" 24970 2 false 1;
    abb_reg "current_harmonics_n_7th" 24972 2 false 1;
    abb_reg "current_harmonics_n_8th" 24974 2 false 1;
    abb_reg "current_harmonics_n_9th" 24976 2 false 1;
    abb_reg "current_harmonics_n_10th" 24978 2 false 1;
    abb_reg "current_harmonics_n_11th" 24980 2 false 1;
    abb_reg "current_harmonics_n_12th" 24982 2 false 1;
    abb_reg "current_harmonics_n_13th" 24984 2 false 1;
    abb_reg "current_harmonics_n_14th" 24986 2 false 1;
    abb_reg "current_harmonics_n_15th" 24988 2 false 1;
    abb_reg "current_harmonics_n_16th" 24990 2 false 1 ].

Definition A43 : list string :=
  [
    "active_import"; "active_export"; "active_net"; "reactive_import";
    "reactive_export"; "reactive_net"; "apparent_import"; "apparent_export";
    "apparent_net"; "active_import_co2"; "active_import_currency";
    "active_import_l1"; "active_import_l2"; "active_import_l3";
    "active_export_l1"; "active_export_l2"; "active_export_l3";
    "active_net_l1"; "active_net_l2"; "active_net_l3"; "reactive_import_l1";
    "reactive_import_l2"; "reactive_import_l3"; "reactive_export_l1";
    "reactive_export_l2"; "reactive_export_l3"; "reactive_net_l1";
    "reactive_net_l2"; "reactive_net_l3"; "apparent_import_l1";
    "apparent_import_l2"; "apparent_import_l3"; "apparent_export_l1";
    "apparent_export_l2"; "apparent_export_l3"; "apparent_net_l1";
    "apparent_net_l2"; "apparent_net_l3"; "voltage_l1_n"; "voltage_l2_n";
    "voltage_l3_n"; "voltage_l1_l2"; "voltage_l3_l2"; "voltage_l1_l3";
    "current_l1"; "current_l2"; "current_l3"; "active_power_total";
    "active_power_l1"; "active_power_l2"; "active_power_l3";
    "reactive_power_total"; "reactive_power_l1"; "reactive_power_l2";
    "reactive_power_l3"; "apparent_power_total"; "apparent_power_l1";
    "apparent_power_l2"; "apparent_power_l3"; "frequency";
    "phase_angle_power_total"; "power_factor_total"; "power_factor_l1";
    "power_factor_l2"; "power_factor_l3"; "current_quadrant_total";
    "current_quadrant_l1"; "current_quadrant_l2"; "current_quadrant_l3" ].

Definition B23 : list string :=
  [
    "active_import"; "active_export"; "active_net"; "reactive_import";
    "reactive_export"; "reactive_net"; "apparent_import"; "apparent_export";
    "apparent_net"; "active_import_co2"; "active_import_currency";
    "active_import_l1"; "active_import_l2"; "active_import_l3";
    "active_export_l1"; "active_export_l2"; "active_export_l3";
    "active_net_l1"; "active_net_l2"; "active_net_l3"; "reactive_import_l1";
    "reactive_import_l2"; "reactive_import_l3"; "reactive_export_l1";
    "reactive_export_l2"; "reactive_export_l3"; "reactive_net_l1";
    "reactive_net_l2"; "reactive_net_l3"; "apparent_import_l1";
    "apparent_import_l2"; "apparent_import_l3"; "apparent_export_l1";
    "apparent_export_l2"; "apparent_export_l3"; "apparent_net_l1";
    "apparent_net_l2"; "apparent_net_l3"; "voltage_l1_n"; "voltage_l2_n";
    "voltage_l3_n"; "voltage_l1_l2"; "voltage_l3_l2"; "voltage_l1_l3";
    "current_l1"; "current_l2"; "current_l3"; "active_power_total";
    "active_power_l1"; "active_power_l2"; "active_power_l3";
    "reactive_power_total"; "reactive_power_l1"; "reactive_power_l2";
    "reactive_power_l3"; "apparent_power_total"; "apparent_power_l1";
    "apparent_power_l2"; "apparent_power_l3"; "frequency";
    "phase_angle_power_total"; "power_factor_total"; "power_factor_l1";
    "power_factor_l2"; "power_factor_l3"; "current_quadrant_total";
    "current_quadrant_l1"; "current_quadrant_l2"; "current_quadrant_l3" ].

Definition B21 : list string :=
  [
    "active_import"; "active_export"; "active_net"; "reactive_import";
    "reactive_export"; "reactive_net"; "apparent_import"; "apparent_export";
    "apparent_net"; "active_import_co2"; "active_import_currency";
    "voltage_l1_n"; "current_l1"; "active_power_total";
    "reactive_power_total"; "apparent_power_total"; "frequency";
    "phase_angle_power_total"; "power_factor_total"; "current_quadrant_total" ].

(** [ABBMeter.REGSETS] *)
Definition REGSETS : gmap string (list string) :=
  <["A43" := A43]> (<["B23" := B23]> (<["B21" := B21]> ∅)).

(** The catalog [ABBMeter.__init__] stores in [self.REGS] for [model]:
    [None] or a string. *)
Definition init_REGS (model : option string) : list register :=
  match model ≫= (fun m => REGSETS !! m) with
  | Some regset => filter (fun register => r_name register ∈ regset) _REGS
  | None => _REGS
  end.
End ABBCatalog.

(** A catalog the serial clients read without surprises: word lengths 1, 2
    or 4, no register reaching into the next, distinct names. *)
Definition catalog_ok (l : list register) : Prop :=
  l <> [] /\
  Forall word_length_ok l /\
  non_overlapping l /\
  NoDup (map r_name l).

(** The same, as a check that can be run. *)
Fixpoint adjacent_b (R : register -> register -> bool) (l : list register) : bool :=
  match l with
  | x :: l' =>
      match l' with
      | y :: _ => R x y && adjacent_b R l'
      | [] => true
      end
  | [] => true
  end.

Definition catalog_ok_b (l : list register) : bool :=
  negb (length l =? 0)%nat &&
  forallb (fun r => (r_length r =? 1) || (r_length r =? 2) || (r_length r =? 4)) l &&
  adjacent_b (fun a b => r_end a <=? r_start b) l &&
  bool_decide (NoDup (map r_name l)).

(** * Properties *)

(** ** Lists with a relation between neighbours *)

Section Adjacent.
Context {A : Type} (R : A -> A -> Prop).

Lemma adjacent_cons x y l : adjacent R (x :: y :: l) <-> R x y /\ adjacent R (y :: l).
Proof. reflexivity. Qed.

Lemma adjacent_tail x l : adjacent R (x :: l) -> adjacent R l.
Proof. destruct l as [|y l]; simpl; tauto. Qed.

Lemma adjacent_app_l l1 l2 : adjacent R (l1 ++ l2) -> adjacent R l1.
Proof.
  induction l1 as [|x l1 IH]; [done|].
  destruct l1 as [|y l1]; [done|].
  intros [Hxy H]. split; [done|]. by apply IH.
Qed.

Lemma adjacent_app_r l1 l2 : adjacent R (l1 ++ l2) -> adjacent R l2.
Proof.
  induction l1 as [|x l1 IH]; [done|].
  intros H. apply IH. by apply (adjacent_tail x).
Qed.

Lemma adjacent_snoc l a r :
  adjacent R l -> last l = Some a -> R a r -> adjacent R (l ++ [r]).
Proof.
  induction l as [|x l IH]; [done|].
  destruct l as [|y l].
  - intros _ [= ->] Har. by split.
  - intros [Hxy H] Hl Har. split; [done|]. by apply IH.
Qed.

Lemma adjacent_concat (ls : list (list A)) :
  adjacent R (concat ls) -> Forall (adjacent R) ls.
Proof.
  induction ls as [|l ls IH]; intros H; constructor.
  - by apply (adjacent_app_l _ (concat ls)).
  - apply IH. by apply (adjacent_app_r l).
Qed.

Lemma adjacent_Forall `{!Transitive R} x l :
  adjacent R (x :: l) -> Forall (R x) l.
Proof.
  revert x. induction l as [|y l IH]; intros x; [constructor|].
  intros [Hxy H]. constructor; [done|].
  eapply Forall_impl; [by apply IH|]. intros z Hz. by etrans.
Qed.
End Adjacent.

Lemma adjacent_impl {A} (R S : A -> A -> Prop) l :
  (forall x y, R x y -> S x y) -> adjacent R l -> adjacent S l.
Proof.
  intros HRS. induction l as [|x l IH]; [done|].
  destruct l as [|y l]; [done|].
  intros [Hxy H]. split; [by apply HRS | by apply IH].
Qed.

(** ** Windows *)

Lemma foldl_min_head x l : Forall (fun y => x <= y) l -> foldl Z.min x l = x.
Proof.
  induction l as [|y l IH]; [done|].
  intros [Hy Hl]%Forall_cons. simpl. rewrite Z.min_l by done. by apply IH.
Qed.

Lemma foldl_max_last x l :
  adjacent Z.le (x :: l) -> foldl Z.max x l = default x (last l).
Proof.
  revert x. induction l as [|y l IH]; intros x; [done|].
  intros [Hxy H]. simpl. rewrite Z.max_r by done. rewrite IH by done.
  rewrite last_cons. by destruct (last l).
Qed.

Lemma foldl_max_ge x l : x <= foldl Z.max x l.
Proof.
  revert x. induction l as [|y l IH]; intros x; simpl; [lia|].
  etrans; [|apply IH]. lia.
Qed.

Lemma sorted_starts f tl :
  sorted_by_start (f :: tl) -> Forall (fun y => r_start f <= y) (map r_start tl).
Proof.
  intros H. apply Forall_map.
  assert (Transitive (fun a b => r_start a <= r_start b))
    by (intros x y z; simpl; lia).
  by apply (adjacent_Forall (fun a b => r_start a <= r_start b)).
Qed.

(** On a list sorted by [start] the window begins at the first register
    and reaches to the largest end. *)
Lemma window_sorted f tl :
  sorted_by_start (f :: tl) ->
  window (f :: tl) =
    Ok (r_start f, foldl Z.max (r_end f) (map r_end tl) - r_start f).
Proof.
  intros H. unfold window. simpl.
  by rewrite foldl_min_head by by apply sorted_starts.
Qed.

Lemma non_overlapping_sorted l : non_overlapping l -> sorted_by_start l.
Proof.
  intros [Hlen Hadj]. induction l as [|x l IH]; [done|].
  destruct l as [|y l]; [done|].
  destruct Hadj as [Hxy Hadj]. apply Forall_cons in Hlen as [Hx Hlen].
  split; [unfold r_end in Hxy; lia|]. by apply IH.
Qed.

Lemma non_overlapping_ends l :
  non_overlapping l -> adjacent Z.le (map r_end l).
Proof.
  intros [Hlen Hadj]. induction l as [|x l IH]; [done|].
  destruct l as [|y l]; [done|].
  destruct Hadj as [Hxy Hadj]. apply Forall_cons in Hlen as [Hx Hlen].
  split; [|by apply IH].
  apply Forall_cons in Hlen as [Hy _]. unfold r_end in *. lia.
Qed.

(** When the registers do not overlap, the largest end is the end of the
    last register. *)
Lemma window_non_overlapping f tl :
  non_overlapping (f :: tl) ->
  window (f :: tl) = Ok (r_start f, r_end (default f (last tl)) - r_start f).
Proof.
  intros H. rewrite window_sorted by by apply non_overlapping_sorted.
  apply non_overlapping_ends in H. simpl in H.
  rewrite foldl_max_last by done.
  do 3 f_equal. clear. induction tl as [|x [|y tl] IH]; done.
Qed.

Lemma non_overlapping_app_l l1 l2 : non_overlapping (l1 ++ l2) -> non_overlapping l1.
Proof.
  intros [Hlen Hadj]. split.
  - by apply Forall_app in Hlen as [? _].
  - by apply adjacent_app_l in Hadj.
Qed.

Lemma non_overlapping_app_r l1 l2 : non_overlapping (l1 ++ l2) -> non_overlapping l2.
Proof.
  intros [Hlen Hadj]. split.
  - by apply Forall_app in Hlen as [_ ?].
  - by apply adjacent_app_r in Hadj.
Qed.

Lemma non_overlapping_concat ls :
  non_overlapping (concat ls) -> Forall non_overlapping ls.
Proof.
  induction ls as [|l ls IH]; intros H; constructor.
  - by apply (non_overlapping_app_l _ (concat ls)).
  - apply IH. by apply (non_overlapping_app_r l).
Qed.

(** ** The gap-tolerant plan *)

Lemma batches_from_concat cap regs s batch :
  concat (batches_from cap regs s batch) = batch ++ regs.
Proof.
  revert s batch. induction regs as [|r regs IH]; intros s batch; simpl.
  - by rewrite !app_nil_r.
  - case_match; simpl; rewrite IH; [by rewrite <- app_assoc | done].
Qed.

Lemma batches_concat cap regs : concat (batches cap regs) = regs.
Proof. destruct regs as [|r0 rest]; [done|]. apply batches_from_concat. Qed.

Lemma batches_from_ok cap regs f tl :
  Forall (fun r => r_end r - r_start f <= cap) tl ->
  Forall (batch_ok cap) (batches_from cap regs (r_start f) (f :: tl)) /\
  adjacent (batch_closed_by cap) (batches_from cap regs (r_start f) (f :: tl)) /\
  exists tl' bs', batches_from cap regs (r_start f) (f :: tl) = (f :: tl') :: bs'.
Proof.
  revert f tl. induction regs as [|r regs IH]; intros f tl Htl; simpl.
  - split_and!; [by repeat constructor | done | by eexists _, _].
  - fold (r_end r). destruct (Z.leb_spec (r_end r - r_start f) cap) as [Hfit|Hout].
    + apply (IH f (tl ++ [r])). apply Forall_app. by repeat constructor.
    + destruct (IH r []) as (Hok & Hadj & tl' & bs' & Heq); [constructor|].
      rewrite Heq in *. split_and!.
      * by constructor.
      * split; [simpl; lia | done].
      * by eexists _, _.
Qed.

(** Every batch of the plan is a legal batch, and each one was closed by
    the register that opens the next. *)
Lemma batches_ok cap r0 rest :
  r_length r0 <= cap ->
  Forall (batch_ok cap) (batches cap (r0 :: rest)) /\
  adjacent (batch_closed_by cap) (batches cap (r0 :: rest)).
Proof.
  intros Hlen. unfold batches. simpl.
  replace (r_start r0 + r_length r0 - r_start r0 <=? cap) with true
    by (symmetry; apply Z.leb_le; lia).
  destruct (batches_from_ok cap rest r0 []) as (? & ? & _); [constructor|done].
Qed.

(** The loop of [_batch_read] reads the batches of the plan in order. *)
Lemma batch_loop_plan cap rm regs s batch results c :
  batch_loop cap rm regs s batch results c
  = read_batches rm (batches_from cap regs s batch) results c.
Proof.
  revert s batch results c.
  induction regs as [|r regs IH]; intros s batch results c; simpl; [done|].
  case_match; [apply IH|].
  simpl. unfold bind. destruct (rm batch c) as [c' [d|e]]; [apply IH | done].
Qed.

Lemma batch_read_plan cap rm r0 rest c :
  batch_read cap rm (r0 :: rest) c
  = read_batches rm (batches cap (r0 :: rest)) ∅ c.
Proof. apply batch_loop_plan. Qed.

(** ** The contiguity-strict plan *)

Lemma split_loop_concat regs p g : concat (split_loop regs p g) = g ++ regs.
Proof.
  revert p g. induction regs as [|r regs IH]; intros p g; simpl.
  - by rewrite !app_nil_r.
  - case_match; simpl; rewrite IH; [done | by rewrite <- app_assoc].
Qed.

Lemma split_loop_ok regs g a :
  last g = Some a ->
  adjacent (fun a b => r_start b - r_end a <= 1) g ->
  Forall range_ok (split_loop regs (r_end a) g) /\
  adjacent range_closed_by (split_loop regs (r_end a) g) /\
  exists g' gs', split_loop regs (r_end a) g = (g ++ g') :: gs'.
Proof.
  revert g a. induction regs as [|r regs IH]; intros g a Hlast Hadj; simpl.
  - split_and!.
    + repeat constructor; [by destruct g | done].
    + done.
    + exists [], []. by rewrite app_nil_r.
  - fold (r_end r). destruct (Z.gtb_spec (r_start r - r_end a) 1) as [Hgap|Hnear].
    + destruct (IH [r] r) as (Hok & Hcl & g' & gs' & Heq); [done..|].
      rewrite Heq in *. split_and!.
      * constructor; [|done]. split; [by destruct g | done].
      * split; [|done]. unfold range_closed_by. rewrite Hlast. simpl. lia.
      * exists [], ((r :: g') :: gs'). by rewrite app_nil_r.
    + destruct (IH (g ++ [r]) r) as (Hok & Hcl & g' & gs' & Heq).
      * by rewrite last_snoc.
      * by apply (adjacent_snoc _ _ a).
      * split_and!; [done..|].
        exists (r :: g'), gs'. by rewrite Heq, <- app_assoc.
Qed.

Lemma split_ranges_cons r0 rest :
  ModbusTCPMeter._split_ranges (r0 :: rest)
  = Ok (split_loop rest (r_end r0) [r0]).
Proof.
  unfold ModbusTCPMeter._split_ranges. simpl.
  by destruct (Z.gtb_spec (r_start r0 - (r_start r0 - 1)) 1); [lia|].
Qed.

(** ** What the serial clients ask the driver for *)

Lemma rtu_read_multiple_log instr b c :
  log (ModbusRTUMeter._read_multiple instr b c).1 = log c ++ window_event b.
Proof.
  unfold ModbusRTUMeter._read_multiple, window_event, window, bind, lift, emit.
  destruct (py_min (map r_start b)) as [first_reg|]; simpl;
    [|by rewrite app_nil_r].
  destruct (py_max (map r_end b)) as [last|]; simpl; [|by rewrite app_nil_r].
  by destruct (read_registers instr first_reg (last - first_reg)).
Qed.

Lemma saia_read_multiple_log instr b c :
  log (SaiaMeter._read_multiple instr b c).1 = log c ++ window_event b.
Proof.
  unfold SaiaMeter._read_multiple, window_event, window, bind, lift, emit.
  destruct (py_min (map r_start b)) as [first_reg|]; simpl;
    [|by rewrite app_nil_r].
  destruct (py_max (map r_end b)) as [last|]; simpl; [|by rewrite app_nil_r].
  by destruct (read_registers instr first_reg (last - first_reg)).
Qed.

(** Reading a plan sends the requests of its batches in order; it stops at
    the first batch that raises, and sends them all when it returns. *)
Lemma read_batches_log rm bs results c :
  (forall b c, log (rm b c).1 = log c ++ window_event b) ->
  exists k,
    log (read_batches rm bs results c).1
      = log c ++ concat (map window_event (take k bs)) /\
    (is_ok (read_batches rm bs results c).2 = true -> k = length bs).
Proof.
  intros Hrm. revert results c.
  induction bs as [|b bs IH]; intros results c; simpl.
  - exists 0%nat. by rewrite app_nil_r.
  - unfold bind. pose proof (Hrm b c) as Hb.
    destruct (rm b c) as [c' [d|e]]; simpl in *.
    + destruct (IH (d ∪ results) c') as (k & Hlog & Hk).
      exists (S k). split.
      * rewrite Hlog, Hb. simpl. by rewrite <- app_assoc.
      * intros Hok. by rewrite Hk.
    + exists 1%nat. split; [|done]. simpl. by rewrite Hb, app_nil_r.
Qed.

Lemma plan_spans_to_largest_end bs :
  Forall (fun b => b <> []) bs ->
  sorted_by_start (concat bs) ->
  Forall spans_to_largest_end bs.
Proof.
  intros Hne Hs. apply adjacent_concat in Hs.
  apply Forall_forall. intros b Hb.
  rewrite Forall_forall in Hne, Hs. specialize (Hne b Hb). specialize (Hs b Hb).
  destruct b as [|f tl]; [done|]. by apply window_sorted.
Qed.

Lemma plan_spans_to_last_end bs :
  Forall (fun b => b <> []) bs ->
  non_overlapping (concat bs) ->
  Forall spans_to_last_end bs.
Proof.
  intros Hne Hs. apply non_overlapping_concat in Hs.
  apply Forall_forall. intros b Hb.
  rewrite Forall_forall in Hne, Hs. specialize (Hne b Hb). specialize (Hs b Hb).
  destruct b as [|f tl]; [done|]. by apply window_non_overlapping.
Qed.

Lemma batch_ok_nonempty cap bs :
  Forall (batch_ok cap) bs -> Forall (fun b => b <> []) bs.
Proof. intros H. eapply Forall_impl; [exact H|]. by intros [|f tl]. Qed.

(** C2. Gap-tolerant batching.  For a non-empty register list sorted
    ascending by start (whose first register is no longer than the cap, as
    every 1-, 2- or 4-word register is):
    - [_batch_read] of [ModbusRTUMeter] reads the batches planned with cap
      125, and that of [SaiaMeter] those planned with cap 10, each batch by
      one [read_registers] request for its window;
    - the batches split the list in order; after its first register a batch
      holds exactly registers with [start + length - windowFirstAddress <=
      cap], and the register that opens the next batch is one for which
      this bound fails;
    - a window begins at the start of its first register and spans to the
      largest end in the batch, gaps included, which is the end of the last
      register when the registers do not overlap;
    - [{start:10,len:2},{start:14,len:2}] with cap 125 gives the single
      window (10, 6). *)
Theorem C2_gap_tolerant_batching (cap : Z) (r0 : register) (rest : list register) :
  r_length r0 <= cap ->
  sorted_by_start (r0 :: rest) ->
  (concat (batches cap (r0 :: rest)) = r0 :: rest /\
   Forall (batch_ok cap) (batches cap (r0 :: rest)) /\
   adjacent (batch_closed_by cap) (batches cap (r0 :: rest)) /\
   Forall spans_to_largest_end (batches cap (r0 :: rest)) /\
   (non_overlapping (r0 :: rest) ->
    Forall spans_to_last_end (batches cap (r0 :: rest)))) /\
  (forall instr c,
     ModbusRTUMeter._batch_read instr (r0 :: rest) c
     = read_batches (ModbusRTUMeter._read_multiple instr)
         (batches 125 (r0 :: rest)) ∅ c) /\
  (forall instr c,
     SaiaMeter._batch_read instr (r0 :: rest) c
     = read_batches (SaiaMeter._read_multiple instr)
         (batches 10 (r0 :: rest)) ∅ c) /\
  (forall instr b c,
     log (ModbusRTUMeter._read_multiple instr b c).1 = log c ++ window_event b /\
     log (SaiaMeter._read_multiple instr b c).1 = log c ++ window_event b) /\
  (forall instr c,
     is_ok (ModbusRTUMeter._batch_read instr (r0 :: rest) c).2 = true ->
     log (ModbusRTUMeter._batch_read instr (r0 :: rest) c).1
     = log c ++ concat (map window_event (batches 125 (r0 :: rest)))) /\
  (forall instr c,
     is_ok (SaiaMeter._batch_read instr (r0 :: rest) c).2 = true ->
     log (SaiaMeter._batch_read instr (r0 :: rest) c).1
     = log c ++ concat (map window_event (batches 10 (r0 :: rest)))) /\
  windows (batches 125 gap_example) = [Ok (10, 6)] /\
  (exists d,
     ModbusRTUMeter._batch_read zero_instrument gap_example
       (new_client gap_example Connected)
     = ({| REGS := gap_example; device := Connected;
           log := [InstrReadRegisters 10 6]; polls := 0; sent := 0 |}, Ok d)).
Proof.
  intros Hlen Hsorted.
  pose proof (batches_concat cap (r0 :: rest)) as Hcat.
  destruct (batches_ok cap r0 rest Hlen) as [Hok Hcl].
  pose proof (batch_ok_nonempty _ _ Hok) as Hne.
  split_and!; try done.
  - apply plan_spans_to_largest_end; [done | by rewrite Hcat].
  - intros Hno. apply plan_spans_to_last_end; [done | by rewrite Hcat].
  - intros. apply batch_read_plan.
  - intros. apply batch_read_plan.
  - intros. split; [apply rtu_read_multiple_log | apply saia_read_multiple_log].
  - intros instr c. unfold ModbusRTUMeter._batch_read.
    rewrite batch_read_plan. intros Hres.
    destruct (read_batches_log (ModbusRTUMeter._read_multiple instr)
                (batches 125 (r0 :: rest)) ∅ c) as (k & Hlog & Hk);
      [apply rtu_read_multiple_log|].
    rewrite Hlog, (Hk Hres). by rewrite firstn_all.
  - intros instr c. unfold SaiaMeter._batch_read.
    rewrite batch_read_plan. intros Hres.
    destruct (read_batches_log (SaiaMeter._read_multiple instr)
                (batches 10 (r0 :: rest)) ∅ c) as (k & Hlog & Hk);
      [apply saia_read_multiple_log|].
    rewrite Hlog, (Hk Hres). by rewrite firstn_all.
  - eexists. vm_compute. reflexivity.
Qed.

Lemma C2_gap_tolerant_batching_witness :
  r_length (reg "a" 10 2) <= 125 /\
  sorted_by_start gap_example /\
  concat (batches 125 gap_example) = gap_example /\
  Forall (batch_ok 125) (batches 125 gap_example) /\
  Forall spans_to_last_end (batches 125 gap_example).
Proof.
  assert (H1 : r_length (reg "a" 10 2) <= 125) by (simpl; lia).
  assert (H2 : sorted_by_start gap_example) by (cbv - [Z.le]; lia).
  assert (H3 : non_overlapping gap_example).
  { split; [repeat constructor; cbv - [Z.le]; lia | cbv - [Z.le]; lia]. }
  destruct (C2_gap_tolerant_batching 125 (reg "a" 10 2) [reg "b" 14 2] H1 H2)
    as ((Hcat & Hok & _ & _ & Hlast) & _).
  split_and!; [done..|]. by apply Hlast.
Defined.

(** ** Sorting by start *)

Lemma insert_by_start_sorted r l :
  sorted_by_start l -> sorted_by_start (insert_by_start r l).
Proof.
  unfold sorted_by_start. induction l as [|x l IH]; [done|].
  intros Hl. simpl. destruct (Z.leb_spec (r_start r) (r_start x)) as [Hle|Hgt].
  - by split.
  - specialize (IH (adjacent_tail _ _ _ Hl)).
    destruct l as [|y l]; simpl in *.
    + split; [lia | done].
    + destruct Hl as [Hxy Hl].
      destruct (Z.leb_spec (r_start r) (r_start y)); (split; [lia | done]).
Qed.

Lemma sort_by_start_sorted l : sorted_by_start (sort_by_start l).
Proof.
  induction l as [|x l IH]; [done|]. by apply insert_by_start_sorted.
Qed.

Lemma insert_by_start_head r l :
  sorted_by_start (r :: l) -> insert_by_start r l = r :: l.
Proof.
  destruct l as [|x l]; [done|]. intros [Hrx _]. simpl.
  by destruct (Z.leb_spec (r_start r) (r_start x)); [|lia].
Qed.

(** Sorting a sorted list changes nothing. *)
Lemma sort_by_start_id l : sorted_by_start l -> sort_by_start l = l.
Proof.
  induction l as [|x l IH]; [done|].
  intros Hl. simpl. rewrite IH by by apply (adjacent_tail _ x).
  by apply insert_by_start_head.
Qed.

Lemma insert_by_start_perm r l : insert_by_start r l ≡ₚ r :: l.
Proof.
  induction l as [|x l IH]; [done|]. simpl.
  case_match; [done|]. rewrite IH. apply Permutation_swap.
Qed.

Lemma sort_by_start_perm l : sort_by_start l ≡ₚ l.
Proof.
  induction l as [|x l IH]; [done|]. simpl.
  by rewrite insert_by_start_perm, IH.
Qed.

(** [_read_multiple] on a list of its own: sort, split, read the ranges. *)
Lemma tcp_read_multiple_fresh self sock l c :
  ModbusTCPMeter._read_multiple self sock (Fresh l) c
  = match ModbusTCPMeter._split_ranges (sort_by_start l) with
    | Ok gs => ModbusTCPMeter.ranges_loop self sock gs ∅ c
    | Raise e => (c, Raise e)
    end.
Proof. reflexivity. Qed.

Lemma range_ok_nonempty gs :
  Forall range_ok gs -> Forall (fun g => g <> []) gs.
Proof. intros H. eapply Forall_impl; [exact H|]. by intros g [? _]. Qed.

(** C3. Contiguity-strict splitting.  For a non-empty register list sorted
    ascending by start, [_split_ranges] yields ranges that split the list
    in order; inside a range every register starts at most one address
    after the end ([start + length]) of the one before, and between the
    last register of a range and the first of the next the gap
    [start - previousEnd] exceeds 1, whatever the size of the range;
    [_read_multiple] sends one request per range, for the window from the
    start of its first register to its largest end.  The registers
    [{10,1},{11,1},{50,1}] give exactly the windows (10, 2) and (50, 1). *)
Theorem C3_contiguity_strict_splitting (r0 : register) (rest : list register) :
  sorted_by_start (r0 :: rest) ->
  (exists gs,
     ModbusTCPMeter._split_ranges (r0 :: rest) = Ok gs /\
     concat gs = r0 :: rest /\
     Forall range_ok gs /\
     adjacent range_closed_by gs /\
     Forall spans_to_largest_end gs /\
     (non_overlapping (r0 :: rest) -> Forall spans_to_last_end gs) /\
     (forall self sock c,
        ModbusTCPMeter._read_multiple self sock (Fresh (r0 :: rest)) c
        = ModbusTCPMeter.ranges_loop self sock gs ∅ c)) /\
  (exists gs,
     ModbusTCPMeter._split_ranges strict_example = Ok gs /\
     windows gs = [Ok (10, 2); Ok (50, 1)]) /\
  (exists c' d,
     ModbusTCPMeter.read MulticubeMeter.meter strict_socket
       (SelList ["a"; "b"; "c"]) (new_client strict_example Connected)
     = (c', Ok (RDict d)) /\
     log c' = [Send [0; 1; 0; 0; 0; 6; 1; 3; 0; 10; 0; 2]; Sleep; Recv;
               Send [0; 1; 0; 0; 0; 6; 1; 3; 0; 50; 0; 1]; Sleep; Recv]).
Proof.
  intros Hsorted. split_and!.
  - exists (split_loop rest (r_end r0) [r0]).
    pose proof (split_loop_concat rest (r_end r0) [r0]) as Hcat.
    destruct (split_loop_ok rest [r0] r0) as (Hok & Hcl & _); [done..|].
    pose proof (range_ok_nonempty _ Hok) as Hne.
    split_and!; try done.
    + apply split_ranges_cons.
    + apply plan_spans_to_largest_end; [done | by rewrite Hcat].
    + intros Hno. apply plan_spans_to_last_end; [done | by rewrite Hcat].
    + intros self sock c. rewrite tcp_read_multiple_fresh.
      by rewrite sort_by_start_id, split_ranges_cons.
  - eexists. split; [reflexivity|]. vm_compute. reflexivity.
  - eexists _, _. split; [vm_compute; reflexivity|]. reflexivity.
Qed.

Lemma C3_contiguity_strict_splitting_witness :
  sorted_by_start strict_example /\
  exists gs,
    ModbusTCPMeter._split_ranges strict_example = Ok gs /\
    concat gs = strict_example /\
    Forall range_ok gs /\
    adjacent range_closed_by gs.
Proof.
  assert (H : sorted_by_start strict_example) by (cbv - [Z.le]; lia).
  split; [done|].
  destruct (C3_contiguity_strict_splitting
              (reg "a" 10 1) [reg "b" 11 1; reg "c" 50 1] H)
    as ((gs & Hgs & Hcat & Hok & Hcl & _) & _).
  by exists gs.
Defined.

(** ** Windows partition the registers *)

Lemma names_app l1 l2 : names (l1 ++ l2) = names l1 ∪ names l2.
Proof. unfold names. rewrite map_app. apply list_to_set_app_L. Qed.

Lemma names_cons r l : names (r :: l) = {[r_name r]} ∪ names l.
Proof. done. Qed.

Lemma elem_of_names x l : x ∈ names l <-> x ∈ map r_name l.
Proof. unfold names. apply elem_of_list_to_set. Qed.


Lemma names_perm l1 l2 : l1 ≡ₚ l2 -> names l1 = names l2.
Proof.
  intros H. unfold names. apply leibniz_equiv.
  apply list_to_set_perm. by apply fmap_Permutation.
Qed.




(** The dict a decoder builds has the names of its registers as keys. *)
Lemma rtu_interpret_loop_dom data first_reg regs results d :
  ModbusRTUMeter.interpret_loop data first_reg regs results = Ok d ->
  dom d = names regs ∪ dom results.
Proof.
  revert results. induction regs as [|r regs IH]; intros results; simpl.
  - intros [= ->]. set_solver.
  - destruct (ModbusRTUMeter._convert_value _ _ _ _) as [v|]; simpl; [|done].
    intros H. rewrite (IH _ H), names_cons, dom_insert_L. set_solver.
Qed.

Lemma tcp_interpret_loop_dom self data first_reg regs results d :
  ModbusTCPMeter.interpret_loop self data first_reg regs results = Ok d ->
  dom d = names regs ∪ dom results.
Proof.
  revert results. induction regs as [|r regs IH]; intros results; simpl.
  - intros [= ->]. set_solver.
  - destruct (ModbusTCPMeter._convert_value _ _ _ _ _) as [v|]; simpl; [|done].
    intros H. rewrite (IH _ H), names_cons, dom_insert_L. set_solver.
Qed.

Lemma saia_interpret_loop_dom data first_reg regs results d :
  SaiaMeter.interpret_loop data first_reg regs results = Ok d ->
  dom d = names regs ∪ dom results.
Proof.
  revert results. induction regs as [|r regs IH]; intros results; simpl.
  - intros [= ->]. set_solver.
  - destruct (SaiaMeter._convert_value _ _ _) as [v|]; simpl; [|done].
    intros H. rewrite (IH _ H), names_cons, dom_insert_L. set_solver.
Qed.

Lemma rtu_interpret_result_dom data regs d :
  ModbusRTUMeter._interpret_result data regs = Ok d -> dom d = names regs.
Proof.
  unfold ModbusRTUMeter._interpret_result.
  destruct (py_min _); simpl; [|done].
  intros ->%rtu_interpret_loop_dom. set_solver.
Qed.

Lemma tcp_interpret_result_dom self data regs d :
  ModbusTCPMeter._interpret_result self data regs = Ok d -> dom d = names regs.
Proof.
  unfold ModbusTCPMeter._interpret_result.
  destruct (py_min _); simpl; [|done].
  intros ->%tcp_interpret_loop_dom. set_solver.
Qed.

Lemma saia_interpret_result_dom data regs d :
  SaiaMeter._interpret_result data regs = Ok d -> dom d = names regs.
Proof.
  unfold SaiaMeter._interpret_result.
  destruct (py_min _); simpl; [|done].
  intros ->%saia_interpret_loop_dom. set_solver.
Qed.

Lemma rtu_read_multiple_dom instr b c c' d :
  ModbusRTUMeter._read_multiple instr b c = (c', Ok d) -> dom d = names b.
Proof.
  unfold ModbusRTUMeter._read_multiple, bind, lift, emit.
  destruct (py_min _); simpl; [|done].
  destruct (py_max _); simpl; [|done].
  destruct (read_registers _ _ _); simpl; [|done].
  intros [= _ H]. by apply rtu_interpret_result_dom in H.
Qed.

Lemma saia_read_multiple_dom instr b c c' d :
  SaiaMeter._read_multiple instr b c = (c', Ok d) -> dom d = names b.
Proof.
  unfold SaiaMeter._read_multiple, bind, lift, emit.
  destruct (py_min _); simpl; [|done].
  destruct (py_max _); simpl; [|done].
  destruct (read_registers _ _ _); simpl; [|done].
  intros [= _ H]. by apply saia_interpret_result_dom in H.
Qed.

(** Merging the dicts of a plan gives the names of all its batches. *)
Lemma read_batches_dom rm bs results c c' d :
  (forall b c c' d, rm b c = (c', Ok d) -> dom d = names b) ->
  read_batches rm bs results c = (c', Ok d) ->
  dom d = names (concat bs) ∪ dom results.
Proof.
  intros Hrm. revert results c.
  induction bs as [|b bs IH]; intros results c; simpl.
  - intros [= _ ->]. set_solver.
  - unfold bind. destruct (rm b c) as [c1 [d1|e]] eqn:Hb; [|done].
    intros H. rewrite (IH _ _ H), names_app, dom_union_L, (Hrm _ _ _ _ Hb).
    set_solver.
Qed.

Lemma tcp_ranges_loop_dom self sock gs results c c' d :
  ModbusTCPMeter.ranges_loop self sock gs results c = (c', Ok d) ->
  dom d = names (concat gs) ∪ dom results.
Proof.
  revert results c. induction gs as [|g gs IH]; intros results c; simpl.
  - intros [= _ ->]. set_solver.
  - unfold bind at 1. unfold lift at 1.
    destruct (py_min _); [|done].
    unfold bind at 1. unfold lift at 1.
    destruct (py_max _); [|done].
    unfold bind at 1.
    destruct (ModbusTCPMeter._modbus_message _ _ _ _ _) as [c1 [m|]]; [|done].
    unfold bind at 1.
    destruct (ModbusTCPMeter._perform_request _ _ _) as [c2 [data|]]; [|done].
    unfold bind at 1. unfold lift at 1.
    destruct (ModbusTCPMeter._interpret_result _ _ _) as [d1|] eqn:Hd; [|done].
    intros H. rewrite (IH _ _ H), names_app, dom_union_L.
    rewrite (tcp_interpret_result_dom _ _ _ _ Hd). set_solver.
Qed.

(** ** What a read does to the catalog *)

Lemma bind_REGS {A B} (m : M A) (k : A -> M B) c :
  (forall a, keeps_REGS (k a)) -> REGS (bind m k c).1 = REGS (m c).1.
Proof.
  intros Hk. unfold bind. destruct (m c) as [c' [a|e]]; [apply Hk | done].
Qed.

Lemma keeps_bind {A B} (m : M A) (k : A -> M B) :
  keeps_REGS m -> (forall a, keeps_REGS (k a)) -> keeps_REGS (bind m k).
Proof. intros Hm Hk c. by rewrite bind_REGS. Qed.

Lemma keeps_ret {A} (a : A) : keeps_REGS (ret a).
Proof. done. Qed.
Lemma keeps_raise {A} e : keeps_REGS (@raise A e).
Proof. done. Qed.
Lemma keeps_lift {A} (r : result A) : keeps_REGS (lift r).
Proof. done. Qed.
Lemma keeps_emit e : keeps_REGS (emit e).
Proof. done. Qed.
Lemma keeps_get_REGS : keeps_REGS get_REGS.
Proof. done. Qed.

Create HintDb keeps discriminated.
#[local] Hint Resolve keeps_ret keeps_raise keeps_lift keeps_emit keeps_get_REGS : keeps.

(** Go through a monadic program, statement by statement. *)
Ltac keeps :=
  repeat first
    [ lazymatch goal with |- forall _, _ => intro end
    | apply keeps_bind
    | solve [eauto with keeps]
    | case_match ].

Lemma keeps_warn_unavailable catalog regnames :
  keeps_REGS (warn_unavailable catalog regnames).
Proof. unfold warn_unavailable. keeps. Qed.
#[local] Hint Resolve keeps_warn_unavailable : keeps.

Lemma keeps_batch_loop cap rm regs s batch results :
  (forall b, keeps_REGS (rm b)) ->
  keeps_REGS (batch_loop cap rm regs s batch results).
Proof.
  intros Hrm. revert s batch results.
  induction regs as [|r regs IH]; intros s batch results; simpl; keeps.
Qed.

Lemma keeps_batch_read cap rm regs :
  (forall b, keeps_REGS (rm b)) -> keeps_REGS (batch_read cap rm regs).
Proof.
  intros Hrm. destruct regs; [apply keeps_raise | by apply keeps_batch_loop].
Qed.

Lemma keeps_rtu_read_multiple instr b :
  keeps_REGS (ModbusRTUMeter._read_multiple instr b).
Proof. unfold ModbusRTUMeter._read_multiple. keeps. Qed.

Lemma keeps_saia_read_multiple instr b :
  keeps_REGS (SaiaMeter._read_multiple instr b).
Proof. unfold SaiaMeter._read_multiple. keeps. Qed.

Lemma keeps_rtu_batch_read instr regs :
  keeps_REGS (ModbusRTUMeter._batch_read instr regs).
Proof. apply keeps_batch_read, keeps_rtu_read_multiple. Qed.

Lemma keeps_saia_batch_read instr regs :
  keeps_REGS (SaiaMeter._batch_read instr regs).
Proof. apply keeps_batch_read, keeps_saia_read_multiple. Qed.

Lemma keeps_rtu_read_single instr r :
  keeps_REGS (ModbusRTUMeter._read_single instr r).
Proof. unfold ModbusRTUMeter._read_single. keeps. Qed.

Lemma keeps_saia_read_single instr r :
  keeps_REGS (SaiaMeter._read_single instr r).
Proof. unfold SaiaMeter._read_single. keeps. Qed.

#[local] Hint Resolve keeps_rtu_batch_read keeps_saia_batch_read
  keeps_rtu_read_single keeps_saia_read_single : keeps.

(** The serial clients never touch the catalog. *)
Lemma keeps_rtu_read instr sel : keeps_REGS (ModbusRTUMeter.read instr sel).
Proof. destruct sel; simpl; keeps. Qed.

Lemma keeps_saia_read instr sel : keeps_REGS (SaiaMeter.read instr sel).
Proof. destruct sel; simpl; keeps. Qed.

Lemma keeps_modbus_message self sock start_reg num_regs :
  keeps_REGS (ModbusTCPMeter._modbus_message self sock start_reg num_regs).
Proof. done. Qed.

Lemma keeps_device_recv sock : keeps_REGS (ModbusTCPMeter.device_recv sock).
Proof. done. Qed.

Lemma keeps_tcp_connect : keeps_REGS ModbusTCPMeter._connect.
Proof. done. Qed.

#[local] Hint Resolve keeps_modbus_message keeps_device_recv keeps_tcp_connect : keeps.

Lemma keeps_recv_loop sock left num_regs expect_bytes data attempt :
  keeps_REGS (ModbusTCPMeter.recv_loop sock left num_regs expect_bytes data attempt).
Proof.
  revert data attempt.
  induction left as [|left IH]; intros data attempt; simpl; keeps.
Qed.
#[local] Hint Resolve keeps_recv_loop : keeps.

Lemma keeps_perform_request sock message :
  keeps_REGS (ModbusTCPMeter._perform_request sock message).
Proof. unfold ModbusTCPMeter._perform_request. keeps. Qed.
#[local] Hint Resolve keeps_perform_request : keeps.

Lemma keeps_tcp_read_single self sock r :
  keeps_REGS (ModbusTCPMeter._read_single self sock r).
Proof. unfold ModbusTCPMeter._read_single. keeps. Qed.

Lemma keeps_tcp_ranges_loop self sock gs results :
  keeps_REGS (ModbusTCPMeter.ranges_loop self sock gs results).
Proof. revert results. induction gs as [|g gs IH]; intros results; simpl; keeps. Qed.

#[local] Hint Resolve keeps_tcp_read_single keeps_tcp_ranges_loop : keeps.

Lemma keeps_async_connect_if_needed : keeps_REGS AsyncModbusTCPMeter.connect_if_needed.
Proof. unfold AsyncModbusTCPMeter.connect_if_needed. keeps. Qed.

Lemma keeps_async_readexactly sock n : keeps_REGS (AsyncModbusTCPMeter.readexactly sock n).
Proof. done. Qed.

#[local] Hint Resolve keeps_async_connect_if_needed keeps_async_readexactly : keeps.

Lemma keeps_async_read_single self sock r :
  keeps_REGS (AsyncModbusTCPMeter._read_single self sock r).
Proof. unfold AsyncModbusTCPMeter._read_single. keeps. Qed.

Lemma keeps_async_ranges_loop self sock gs results :
  keeps_REGS (AsyncModbusTCPMeter.ranges_loop self sock gs results).
Proof. revert results. induction gs as [|g gs IH]; intros results; simpl; keeps. Qed.

#[local] Hint Resolve keeps_async_read_single keeps_async_ranges_loop : keeps.

(** [_read_multiple] sorts the very list it is given: the catalog when it
    is handed the catalog, nothing of the client otherwise. *)
Lemma tcp_read_multiple_REGS self sock registers c :
  REGS (ModbusTCPMeter._read_multiple self sock registers c).1
  = match registers with
    | TheCatalog => sort_by_start (REGS c)
    | Fresh _ => REGS c
    end.
Proof.
  unfold ModbusTCPMeter._read_multiple. rewrite bind_REGS by keeps.
  by destruct registers.
Qed.

Lemma async_read_multiple_REGS self sock registers c :
  REGS (AsyncModbusTCPMeter._read_multiple self sock registers c).1
  = match registers with
    | TheCatalog => sort_by_start (REGS c)
    | Fresh _ => REGS c
    end.
Proof.
  unfold AsyncModbusTCPMeter._read_multiple. rewrite bind_REGS by keeps.
  by destruct registers.
Qed.

Lemma tcp_read_REGS self sock sel c :
  REGS (ModbusTCPMeter.read self sock sel c).1
  = match sel with
    | SelNone => sort_by_start (REGS c)
    | _ => REGS c
    end.
Proof.
  destruct sel; simpl.
  - rewrite bind_REGS by keeps. apply tcp_read_multiple_REGS.
  - revert c. change (keeps_REGS (ModbusTCPMeter.read self sock (SelStr s))).
    simpl. keeps.
  - rewrite bind_REGS; [done|]. intros catalog c'.
    rewrite bind_REGS by keeps. apply tcp_read_multiple_REGS.
  - done.
Qed.

Lemma async_read_REGS self sock sel c :
  REGS (AsyncModbusTCPMeter.read self sock sel c).1
  = match sel with
    | SelNone => sort_by_start (REGS c)
    | _ => REGS c
    end.
Proof.
  destruct sel; simpl.
  - rewrite bind_REGS by keeps. apply async_read_multiple_REGS.
  - revert c. change (keeps_REGS (AsyncModbusTCPMeter.read self sock (SelStr s))).
    simpl. keeps.
  - rewrite bind_REGS; [done|]. intros catalog c'.
    rewrite bind_REGS by keeps. apply async_read_multiple_REGS.
  - done.
Qed.

(** C10. Catalog frame effect.  A [read] with a string or a list selector
    leaves the list [self.REGS] as it was, in every client (a list selector
    sorts a list of its own).  [ModbusTCPMeter.read(None)] and
    [AsyncModbusTCPMeter.read(None)] hand [self.REGS] itself to
    [_read_multiple], which sorts it in place: afterwards the catalog holds
    the same registers sorted ascending by start, it stays in that order
    through every later read, and a declaration order that was not
    ascending is gone (the serial clients' [read(None)] does not do this). *)
Theorem C10_catalog_frame_effect :
  (forall instr self sock c (s : string) (l : list string),
     REGS (ModbusRTUMeter.read instr (SelStr s) c).1 = REGS c /\
     REGS (ModbusRTUMeter.read instr (SelList l) c).1 = REGS c /\
     REGS (SaiaMeter.read instr (SelStr s) c).1 = REGS c /\
     REGS (SaiaMeter.read instr (SelList l) c).1 = REGS c /\
     REGS (ModbusTCPMeter.read self sock (SelStr s) c).1 = REGS c /\
     REGS (ModbusTCPMeter.read self sock (SelList l) c).1 = REGS c /\
     REGS (AsyncModbusTCPMeter.read self sock (SelStr s) c).1 = REGS c /\
     REGS (AsyncModbusTCPMeter.read self sock (SelList l) c).1 = REGS c) /\
  (forall self sock c,
     REGS (ModbusTCPMeter.read self sock SelNone c).1 = sort_by_start (REGS c) /\
     REGS (AsyncModbusTCPMeter.read self sock SelNone c).1 = sort_by_start (REGS c) /\
     sorted_by_start (sort_by_start (REGS c)) /\
     sort_by_start (REGS c) ≡ₚ REGS c) /\
  (forall self sock c sel,
     REGS (ModbusTCPMeter.read self sock sel
             (ModbusTCPMeter.read self sock SelNone c).1).1
     = sort_by_start (REGS c) /\
     REGS (AsyncModbusTCPMeter.read self sock sel
             (AsyncModbusTCPMeter.read self sock SelNone c).1).1
     = sort_by_start (REGS c)) /\
  (forall instr c,
     REGS (ModbusRTUMeter.read instr SelNone c).1 = REGS c /\
     REGS (SaiaMeter.read instr SelNone c).1 = REGS c) /\
  (forall self sock,
     REGS (ModbusTCPMeter.read self sock SelNone
             (new_client unsorted_catalog Connected)).1
     = [reg "a" 10 1; reg "b" 20 1] /\
     REGS (ModbusTCPMeter.read self sock SelNone
             (new_client unsorted_catalog Connected)).1
     <> unsorted_catalog).
Proof.
  split_and!.
  - intros instr self sock c s l. split_and!.
    + apply keeps_rtu_read.
    + apply keeps_rtu_read.
    + apply keeps_saia_read.
    + apply keeps_saia_read.
    + by rewrite tcp_read_REGS.
    + by rewrite tcp_read_REGS.
    + by rewrite async_read_REGS.
    + by rewrite async_read_REGS.
  - intros self sock c. split_and!.
    + by rewrite tcp_read_REGS.
    + by rewrite async_read_REGS.
    + apply sort_by_start_sorted.
    + apply sort_by_start_perm.
  - intros self sock c sel. split.
    + rewrite !tcp_read_REGS.
      destruct sel; try done.
      apply sort_by_start_id, sort_by_start_sorted.
    + rewrite !async_read_REGS.
      destruct sel; try done.
      apply sort_by_start_id, sort_by_start_sorted.
  - intros instr c. split; [apply keeps_rtu_read | apply keeps_saia_read].
  - intros self sock. rewrite tcp_read_REGS. by split.
Qed.

(** ** Selectors that resolve to nothing *)

Lemma filter_none {A} (P : A -> Prop) `{!forall x, Decision (P x)} (l : list A) :
  Forall (fun x => ~ P x) l -> filter P l = [].
Proof.
  induction 1 as [|x l Hx _ IH]; [done|].
  by rewrite filter_cons_False.
Qed.

Lemma resolves_to_nothing_filter catalog regnames :
  resolves_to_nothing catalog regnames ->
  filter (fun register => r_name register ∈ regnames) catalog = [].
Proof. intros H. by apply (filter_none (fun r => r_name r ∈ regnames)). Qed.

Lemma names_no_register_filter catalog regname :
  names_no_register catalog regname ->
  filter (fun register => r_name register = regname) catalog = [].
Proof. intros H. by apply (filter_none (fun r => r_name r = regname)). Qed.

(** The serial clients reject a selector of another type at once. *)
Lemma serial_read_other instr c :
  ModbusRTUMeter.read instr SelOther c = (c, Raise TypeError) /\
  SaiaMeter.read instr SelOther c = (c, Raise TypeError).
Proof. done. Qed.

(** C6. Invalid selector.  [ModbusTCPMeter.read] (and its async variant)
    given a selector that is neither [None], a string nor a list takes none
    of its three [if] branches and falls off the end: it returns [None]
    and raises nothing, without touching the client or the socket. *)
Theorem C6_tcp_invalid_selector_returns_none (self : tcp_meter) (sock : socket) (c : client) :
  ModbusTCPMeter.read self sock SelOther c = (c, Ok (RVal VNone)) /\
  AsyncModbusTCPMeter.read self sock SelOther c = (c, Ok (RVal VNone)).
Proof. done. Qed.

(** The serial clients answer a list that resolves to nothing with an
    empty dict, after at most the two warning lines. *)
Lemma serial_read_list_empty instr l c :
  resolves_to_nothing (REGS c) l ->
  (ModbusRTUMeter.read instr (SelList l) c).2 = Ok (RDict ∅) /\
  no_transport (ModbusRTUMeter.read instr (SelList l)) c /\
  (SaiaMeter.read instr (SelList l) c).2 = Ok (RDict ∅) /\
  no_transport (SaiaMeter.read instr (SelList l)) c.
Proof.
  intros H. apply resolves_to_nothing_filter in H.
  unfold no_transport, new_events, ModbusRTUMeter.read, SaiaMeter.read.
  unfold bind, get_REGS. simpl. rewrite H. simpl.
  destruct l as [|x l]; simpl.
  - rewrite drop_all. by split_and!.
  - rewrite <- (app_assoc (log c)), drop_app_length.
    split_and!; by repeat constructor.
Qed.

(** C7. Empty resolution.  [ModbusTCPMeter.read] (and its async variant)
    given a list of names none of which is in the catalog passes the empty
    list to [_read_multiple], where [_split_ranges] evaluates
    [registers[0]]: the call ends in [IndexError], with no request sent and
    the client untouched, instead of returning an empty dict. *)
Theorem C7_tcp_empty_resolution_raises (self : tcp_meter) (sock : socket)
    (l : list string) (c : client) :
  resolves_to_nothing (REGS c) l ->
  ModbusTCPMeter.read self sock (SelList l) c = (c, Raise IndexError) /\
  AsyncModbusTCPMeter.read self sock (SelList l) c = (c, Raise IndexError).
Proof.
  intros H. apply resolves_to_nothing_filter in H.
  unfold ModbusTCPMeter.read, AsyncModbusTCPMeter.read.
  unfold bind at 1 3. unfold get_REGS. rewrite H. done.
Qed.

Lemma C7_tcp_empty_resolution_raises_witness :
  resolves_to_nothing strict_example ["x"] /\
  ModbusTCPMeter.read SMAMeter.meter strict_socket (SelList ["x"])
    (new_client strict_example NoAttribute)
  = (new_client strict_example NoAttribute, Raise IndexError).
Proof.
  assert (H : resolves_to_nothing (REGS (new_client strict_example NoAttribute)) ["x"]).
  { repeat constructor; by intros [?|?%elem_of_nil]%elem_of_cons. }
  split; [done|].
  apply (C7_tcp_empty_resolution_raises SMAMeter.meter strict_socket ["x"]
           (new_client strict_example NoAttribute) H).
Defined.

(** ** A single name that is not in the catalog *)

Lemma rtu_convert_value_not_str values signed decimals is_float v s :
  ModbusRTUMeter._convert_value values signed decimals is_float = Ok v ->
  v <> VStr s.
Proof.
  unfold ModbusRTUMeter._convert_value, ModbusRTUMeter.convert_integer,
    float_over_pow10.
  repeat case_match; simpl;
    repeat (match goal with
            | |- context [rbind ?m _] => destruct m; simpl
            end);
    repeat case_match; by intros [= <-].
Qed.

(** Whatever [_read_single] decodes, it is not a string. *)
Lemma rtu_read_single_not_str instr r c c' v s :
  ModbusRTUMeter._read_single instr r c = (c', Ok v) -> v <> VStr s.
Proof.
  unfold ModbusRTUMeter._read_single, bind, lift, emit, ret, int_over_pow10.
  repeat case_match; simpl; try by intros [= _ <-].
  all: repeat (match goal with
               | |- context [match ?m with Ok _ => _ | Raise _ => _ end] =>
                   destruct m eqn:?; simpl
               end); try by intros [= _ <-].
  all: intros [= _ Hconv]; by eapply rtu_convert_value_not_str.
Qed.

(** C8 (amended). Single name not found.  For a string selector that
    names no register of the catalog, without any call to the transport
    and with the client untouched: [ModbusRTUMeter.read] and
    [AsyncModbusTCPMeter.read] do not fail but return the string
    "Register not found on device." as the value of the call;
    [SaiaMeter.read] raises [ValueError]; [ModbusTCPMeter.read] raises
    [IndexError].  The returned string is neither [None] nor a number, and
    no successful [_read_single] of the serial client yields it. *)
Theorem C8_single_name_not_found (regname : string) (c : client) :
  names_no_register (REGS c) regname ->
  (forall instr,
     ModbusRTUMeter.read instr (SelStr regname) c
     = (c, Ok (RVal (VStr not_found_message))) /\
     SaiaMeter.read instr (SelStr regname) c = (c, Raise ValueError)) /\
  (forall self sock,
     AsyncModbusTCPMeter.read self sock (SelStr regname) c
     = (c, Ok (RVal (VStr not_found_message))) /\
     ModbusTCPMeter.read self sock (SelStr regname) c = (c, Raise IndexError)) /\
  VStr not_found_message <> VNone /\
  (forall n, VStr not_found_message <> VNum n) /\
  (forall n d, VStr not_found_message <> VQuot n d) /\
  (forall instr r c1 c2 v,
     ModbusRTUMeter._read_single instr r c1 = (c2, Ok v) ->
     v <> VStr not_found_message).
Proof.
  intros H. apply names_no_register_filter in H.
  split_and!; try done.
  - intros instr. unfold ModbusRTUMeter.read, SaiaMeter.read.
    unfold bind, get_REGS. by rewrite H.
  - intros self sock. unfold ModbusTCPMeter.read, AsyncModbusTCPMeter.read.
    unfold bind, get_REGS. by rewrite H.
  - intros instr r c1 c2 v. apply rtu_read_single_not_str.
Qed.

Lemma C8_single_name_not_found_witness :
  names_no_register gap_example "missing" /\
  ModbusRTUMeter.read zero_instrument (SelStr "missing")
    (new_client gap_example Connected)
  = (new_client gap_example Connected, Ok (RVal (VStr not_found_message))).
Proof.
  assert (H : names_no_register (REGS (new_client gap_example Connected)) "missing")
    by by repeat constructor.
  split; [done|].
  destruct (C8_single_name_not_found "missing" (new_client gap_example Connected) H)
    as (Hserial & _).
  apply (Hserial zero_instrument).
Defined.

(** The claim as stated fails on the serial client: a name that is not in
    the catalog does not make [ModbusRTUMeter.read] fail. *)
Lemma C8_counterexample :
  names_no_register gap_example "missing" /\
  ~ fails (ModbusRTUMeter.read zero_instrument (SelStr "missing"))
      (new_client gap_example Connected).
Proof.
  split; [by repeat constructor|].
  by intros [e He].
Qed.

(** ** Packing and unpacking *)

Lemma fold_be_bytes_2 w rest acc :
  is_word w ->
  fold_left (fun acc b => acc * 256 + b) (be_bytes 2 w ++ rest) acc
  = fold_left (fun acc b => acc * 256 + b) rest (acc * 65536 + w).
Proof.
  intros Hw. unfold is_word in Hw. simpl. f_equal.
  Z.to_euclidean_division_equations. lia.
Qed.

Lemma bytes_of_words_cons w ws :
  bytes_of_words (w :: ws) = be_bytes 2 w ++ bytes_of_words ws.
Proof. done. Qed.

Lemma fold_bytes_of_words ws acc :
  Forall is_word ws ->
  fold_left (fun acc b => acc * 256 + b) (bytes_of_words ws) acc
  = fold_left (fun acc w => acc * 65536 + w) ws acc.
Proof.
  intros H. revert acc. induction H as [|w ws Hw _ IH]; intros acc; [done|].
  rewrite bytes_of_words_cons, (fold_be_bytes_2 w _ acc Hw). apply IH.
Qed.

(** The bytes of the words hold their packed value. *)
Lemma be_unsigned_bytes_of_words ws :
  Forall is_word ws -> be_unsigned (bytes_of_words ws) = words_value ws.
Proof. apply fold_bytes_of_words. Qed.

Lemma length_bytes_of_words ws : length (bytes_of_words ws) = (2 * length ws)%nat.
Proof.
  induction ws as [|w ws IH]; [done|].
  rewrite bytes_of_words_cons, length_app, IH. simpl. lia.
Qed.

Lemma bytes_of_words_bytes ws : Forall is_byte (bytes_of_words ws).
Proof.
  induction ws as [|w ws IH]; [constructor|].
  rewrite bytes_of_words_cons. simpl. repeat apply Forall_cons_2; [| |done];
    unfold is_byte; Z.to_euclidean_division_equations; lia.
Qed.

(** [struct.pack] of in-range words with the codes [H...H]. *)
Lemma struct_pack_words ws :
  Forall is_word ws ->
  struct_pack (replicate (length ws) FH) ws = Ok (bytes_of_words ws).
Proof.
  intros H. unfold struct_pack. rewrite length_replicate, Nat.eqb_refl. simpl.
  assert (Hacc : forallb (fun cv => code_accepts cv.1 cv.2)
                   (zip (replicate (length ws) FH) ws) = true).
  { induction H as [|w ws Hw _ IH]; [done|]. simpl. rewrite IH.
    unfold is_word in Hw. rewrite andb_true_r.
    apply andb_true_iff. split; [apply Z.leb_le | apply Z.ltb_lt]; simpl; lia. }
  rewrite Hacc. f_equal. clear Hacc.
  induction H as [|w ws Hw _ IH]; [done|].
  rewrite bytes_of_words_cons, <- IH. unfold is_word in Hw.
  change (pack_items (replicate (length (w :: ws)) FH) (w :: ws))
    with (be_bytes 2 (w mod 2 ^ 16) ++ pack_items (replicate (length ws) FH) ws).
  by rewrite Z.mod_small by lia.
Qed.

Lemma to_bytes_ok bs : Forall is_byte bs -> to_bytes bs = Ok bs.
Proof.
  intros H. unfold to_bytes.
  assert (Hall : forallb (fun b => (0 <=? b) && (b <? 256)) bs = true).
  { induction H as [|b bs Hb _ IH]; [done|]. simpl. rewrite IH.
    unfold is_byte in Hb. rewrite andb_true_r.
    apply andb_true_iff. split; [apply Z.leb_le | apply Z.ltb_lt]; lia. }
  by rewrite Hall.
Qed.

(** [struct.unpack] with one code on a buffer of that code's size. *)
Lemma struct_unpack_one c bs :
  length bs = code_size c ->
  struct_unpack [c] bs = Ok [unpack_item c bs].
Proof.
  intros H. unfold struct_unpack. simpl. rewrite Nat.add_0_r, H, Nat.eqb_refl.
  by rewrite take_ge by lia.
Qed.

Lemma struct_unpack_wrong_size fmt bs :
  length bs <> calcsize fmt -> struct_unpack fmt bs = Raise StructError.
Proof.
  intros H. unfold struct_unpack. by apply Nat.eqb_neq in H as ->.
Qed.

Lemma num_in_int z l : num_in (NInt z) l = bool_decide (z ∈ l).
Proof.
  unfold num_in. induction l as [|x l IH].
  - symmetry. by apply bool_decide_eq_false, not_elem_of_nil.
  - simpl existsb. rewrite IH. destruct (Z.eqb_spec z x) as [->|Hne]; simpl.
    + symmetry. apply bool_decide_eq_true. by left.
    + apply bool_decide_ext. rewrite elem_of_cons. naive_solver.
Qed.

Lemma be_signed_bytes_of_words ws :
  Forall is_word ws -> be_signed (bytes_of_words ws) = raw_integer ws true.
Proof.
  intros H. unfold be_signed, raw_integer.
  rewrite be_unsigned_bytes_of_words, length_bytes_of_words by done.
  replace (8 * Z.of_nat (2 * length ws)) with (16 * Z.of_nat (length ws)) by lia.
  simpl andb.
  destruct (Z.ltb_spec (words_value ws) (2 ^ (16 * Z.of_nat (length ws) - 1)));
    destruct (Z.leb_spec (2 ^ (16 * Z.of_nat (length ws) - 1)) (words_value ws));
    done || lia.
Qed.

Lemma be_unsigned_raw_integer ws :
  Forall is_word ws -> be_unsigned (bytes_of_words ws) = raw_integer ws false.
Proof. intros H. by rewrite be_unsigned_bytes_of_words. Qed.

(** ** The integer rule of the two codecs *)

(** The serial codec on one, two or four words: the packed integer, signed
    or not, absent when it is a sentinel of [ABBMeter.NULLS] and divided by
    [10^decimals] otherwise. *)
Lemma rtu_convert_value_integer_result ws signed decimals :
  Forall is_word ws ->
  length ws = 1%nat \/ length ws = 2%nat \/ length ws = 4%nat ->
  ModbusRTUMeter._convert_value ws signed decimals false
  = scaled_result ABBMeter.NULLS (raw_integer ws signed) decimals.
Proof.
  intros Hws Hlen.
  pose proof (struct_pack_words ws Hws) as Hpack.
  pose proof (length_bytes_of_words ws) as Hbytes.
  pose proof (be_signed_bytes_of_words ws Hws) as Hs.
  pose proof (be_unsigned_raw_integer ws Hws) as Hu.
  unfold ModbusRTUMeter._convert_value, ModbusRTUMeter.convert_integer. simpl.
  destruct Hlen as [Hl|[Hl|Hl]]; rewrite Hl in *; simpl in Hpack |- *;
    rewrite Hpack; simpl;
    (rewrite struct_unpack_one by (destruct signed; simpl; lia)); simpl;
    destruct signed; simpl; rewrite ?Hs, ?Hu, num_in_int;
    unfold scaled_result; by destruct (bool_decide _).
Qed.

Lemma float_over_pow10_ok v decimals :
  decimals_ok decimals -> float_over_pow10 v decimals = Ok (VQuot v decimals).
Proof.
  intros Hd. unfold float_over_pow10, decimals_ok in *.
  destruct (Z.leb_spec 309 decimals); [lia|].
  destruct (Z.leb_spec decimals (-324)); [lia | done].
Qed.

Lemma float_over_pow10_overflow v decimals :
  309 <= decimals -> float_over_pow10 v decimals = Raise OverflowError.
Proof.
  intros Hd. unfold float_over_pow10.
  by destruct (Z.leb_spec 309 decimals); [|lia].
Qed.

Lemma float_over_pow10_zero v decimals :
  decimals <= -324 -> float_over_pow10 v decimals = Raise ZeroDivisionError.
Proof.
  intros Hd. unfold float_over_pow10.
  destruct (Z.leb_spec 309 decimals); [lia|].
  by destruct (Z.leb_spec decimals (-324)); [|lia].
Qed.

Lemma int_over_pow10_ok v decimals :
  -324 < decimals -> int_over_pow10 v decimals = Ok (VQuot (NInt v) decimals).
Proof.
  intros Hd. unfold int_over_pow10.
  by destruct (Z.leb_spec decimals (-324)); [lia|].
Qed.

Lemma scaled_result_ok nulls raw decimals :
  decimals_ok decimals ->
  scaled_result nulls raw decimals = Ok (scaled nulls raw decimals).
Proof.
  intros Hd. unfold scaled_result, scaled.
  destruct (bool_decide _); [done | by apply float_over_pow10_ok].
Qed.

Lemma rtu_convert_value_integer ws signed decimals :
  decimals_ok decimals ->
  Forall is_word ws ->
  length ws = 1%nat \/ length ws = 2%nat \/ length ws = 4%nat ->
  ModbusRTUMeter._convert_value ws signed decimals false
  = Ok (scaled ABBMeter.NULLS (raw_integer ws signed) decimals).
Proof.
  intros Hd Hws Hlen.
  by rewrite rtu_convert_value_integer_result, scaled_result_ok.
Qed.

(** The TCP codec on the bytes of one or two words: the same rule with
    the sentinels of the meter's class. *)
Lemma tcp_convert_value_integer_result self ws signed decimals :
  Forall is_word ws ->
  length ws = 1%nat \/ length ws = 2%nat ->
  ModbusTCPMeter._convert_value self (bytes_of_words ws) signed decimals false
  = scaled_result (NULLS self) (raw_integer ws signed) decimals.
Proof.
  intros Hws Hlen.
  pose proof (length_bytes_of_words ws) as Hbytes.
  pose proof (be_signed_bytes_of_words ws Hws) as Hs.
  pose proof (be_unsigned_raw_integer ws Hws) as Hu.
  unfold ModbusTCPMeter._convert_value.
  rewrite to_bytes_ok by apply bytes_of_words_bytes. simpl.
  destruct Hlen as [Hl|Hl]; rewrite Hl in *; rewrite Hbytes; simpl;
    (rewrite struct_unpack_one by (destruct signed; simpl; lia)); simpl;
    destruct signed; simpl; rewrite ?Hs, ?Hu, num_in_int;
    unfold scaled_result; by destruct (bool_decide _).
Qed.

Lemma tcp_convert_value_integer self ws signed decimals :
  decimals_ok decimals ->
  Forall is_word ws ->
  length ws = 1%nat \/ length ws = 2%nat ->
  ModbusTCPMeter._convert_value self (bytes_of_words ws) signed decimals false
  = Ok (scaled (NULLS self) (raw_integer ws signed) decimals).
Proof.
  intros Hd Hws Hlen.
  by rewrite tcp_convert_value_integer_result, scaled_result_ok.
Qed.

(** The ideal value of a scaled integer is [raw / 10^decimals]; for a
    negative [decimals] that is [raw * 10^|decimals|]. *)
Lemma value_Q_scaled raw decimals :
  value_Q (VQuot (NInt raw) decimals)
  = Some (inject_Z raw / Qpower 10 decimals)%Q.
Proof. done. Qed.

(** The TCP codec has no format for eight bytes: it builds the empty
    format [>] and [struct.unpack] rejects the buffer. *)
Lemma tcp_convert_value_eight_bytes self bs signed decimals is_float :
  Forall is_byte bs -> length bs = 8%nat ->
  ModbusTCPMeter._convert_value self bs signed decimals is_float
  = Raise StructError.
Proof.
  intros Hbs Hlen. unfold ModbusTCPMeter._convert_value.
  rewrite to_bytes_ok by done. simpl. rewrite Hlen.
  rewrite struct_unpack_wrong_size; [done|].
  rewrite Hlen. by destruct is_float.
Qed.

(** C1. Non-float decode, at the input where the code departs from it.
    For four in-range words, the TCP codec given their eight payload bytes
    raises [struct.error] instead of decoding the 64-bit integer, whatever
    the meter class, and so does [_interpret_result] on a window holding a
    four-word register; the serial codec decodes the same words as the
    claim says, for every [decimals] its division accepts. *)
Theorem C1_tcp_four_word_integer_raises (self : tcp_meter) (ws : list Z)
    (signed : bool) (decimals : Z) :
  Forall is_word ws ->
  length ws = 4%nat ->
  ModbusTCPMeter._convert_value self (bytes_of_words ws) signed decimals false
  = Raise StructError /\
  ModbusTCPMeter._interpret_result self (bytes_of_words ws) [active_import]
  = Raise StructError /\
  (decimals_ok decimals ->
   ModbusRTUMeter._convert_value ws signed decimals false
   = Ok (scaled ABBMeter.NULLS (raw_integer ws signed) decimals)).
Proof.
  intros Hws Hlen.
  assert (Hbytes : length (bytes_of_words ws) = 8%nat)
    by (rewrite length_bytes_of_words; lia).
  pose proof (bytes_of_words_bytes ws) as Hb.
  split_and!.
  - by apply tcp_convert_value_eight_bytes.
  - unfold ModbusTCPMeter._interpret_result. simpl.
    replace (py_slice (bytes_of_words ws) ((20480 - 20480) * 2)
               ((20480 - 20480) * 2 + 4 * 2))
      with (bytes_of_words ws).
    + by rewrite tcp_convert_value_eight_bytes.
    + unfold py_slice. rewrite Hbytes.
      change (Z.to_nat (slice_bound (Z.of_nat 8) ((20480 - 20480) * 2 + 4 * 2)
                        - slice_bound (Z.of_nat 8) ((20480 - 20480) * 2)))
        with 8%nat.
      change (Z.to_nat (slice_bound (Z.of_nat 8) ((20480 - 20480) * 2)))
        with 0%nat.
      by rewrite drop_0, take_ge by lia.
  - intros Hd. apply rtu_convert_value_integer; auto.
Qed.

Lemma C1_tcp_four_word_integer_raises_witness :
  Forall is_word [0; 0; 0; 12345] /\
  length [0; 0; 0; 12345] = 4%nat /\
  ModbusTCPMeter._convert_value MulticubeMeter.meter
    [0; 0; 0; 0; 0; 0; 48; 57] true 2 false
  = Raise StructError /\
  ModbusRTUMeter._convert_value [0; 0; 0; 12345] true 2 false
  = Ok (VQuot (NInt 12345) 2).
Proof.
  assert (H1 : Forall is_word [0; 0; 0; 12345])
    by (repeat constructor; unfold is_word; lia).
  assert (H2 : length [0; 0; 0; 12345] = 4%nat) by reflexivity.
  destruct (C1_tcp_four_word_integer_raises MulticubeMeter.meter
              [0; 0; 0; 12345] true 2 H1 H2) as (Htcp & _ & Hrtu).
  split_and!; [done | done | exact Htcp |].
  apply Hrtu. unfold decimals_ok. lia.
Defined.

(** ** The float rule *)

Lemma rtu_convert_value_float32 ws signed decimals :
  Forall is_word ws -> length ws = 2%nat ->
  ModbusRTUMeter._convert_value ws signed decimals true
  = Ok (VNum (NFloat (F32 (words_value ws)))).
Proof.
  intros Hws Hl.
  pose proof (struct_pack_words ws Hws) as Hpack.
  pose proof (length_bytes_of_words ws) as Hbytes.
  unfold ModbusRTUMeter._convert_value. rewrite Hl in *. simpl in Hpack |- *.
  rewrite Hpack. simpl. rewrite struct_unpack_one by done. simpl.
  by rewrite be_unsigned_bytes_of_words.
Qed.

Lemma rtu_convert_value_float64 ws signed decimals :
  Forall is_word ws -> length ws = 4%nat ->
  ModbusRTUMeter._convert_value ws signed decimals true
  = Ok (VNum (NFloat (F64 (words_value ws)))).
Proof.
  intros Hws Hl.
  pose proof (struct_pack_words ws Hws) as Hpack.
  pose proof (length_bytes_of_words ws) as Hbytes.
  unfold ModbusRTUMeter._convert_value. rewrite Hl in *. simpl in Hpack |- *.
  rewrite Hpack. simpl. rewrite struct_unpack_one by done. simpl.
  by rewrite be_unsigned_bytes_of_words.
Qed.

(** The TCP codec sends a float through the same sentinel test and
    division as an integer. *)
Lemma tcp_convert_value_float32 self ws signed decimals :
  Forall is_word ws -> length ws = 2%nat ->
  ModbusTCPMeter._convert_value self (bytes_of_words ws) signed decimals true
  = if num_in (NFloat (F32 (words_value ws))) (NULLS self) then Ok VNone
    else float_over_pow10 (NFloat (F32 (words_value ws))) decimals.
Proof.
  intros Hws Hl.
  pose proof (length_bytes_of_words ws) as Hbytes. rewrite Hl in Hbytes.
  unfold ModbusTCPMeter._convert_value.
  rewrite to_bytes_ok by apply bytes_of_words_bytes. simpl.
  rewrite struct_unpack_one by done. simpl.
  by rewrite be_unsigned_bytes_of_words by done.
Qed.

(** The float rule fails on the TCP codec: the single-precision pattern
    of 65535.0 (words 0x477F, 0xFF00) decodes to [None] on a Multicube
    meter, whose sentinels include 65535. *)
Lemma tcp_float_codec_not_unscaled :
  ~ decodes_floats_unscaled (tcp_float_codec MulticubeMeter.meter).
Proof.
  intros H.
  destruct (H [18303; 65280] false 0) as [H2 _].
  - repeat constructor; unfold is_word; lia.
  - specialize (H2 eq_refl). vm_compute in H2. discriminate H2.
Qed.

(** C5. Float decode, at the inputs where the code departs from it.  For
    a register flagged [is_float] with in-range words read big-endian, the
    serial codec returns the IEEE-754 single for two words and the double
    for four, with no scaling and no sentinel test: it satisfies the rule.
    The TCP codec only picks the format [>f] and falls through to the
    integer path: a single that equals a sentinel of the meter is reported
    absent, any other is divided by [10 ** decimals] (or the division
    raises), and the eight bytes of a double raise [struct.error].  So the
    rule does not hold of the TCP codec of a Multicube meter. *)
Theorem C5_tcp_float_takes_integer_path (ws : list Z) (signed : bool)
    (decimals : Z) :
  Forall is_word ws ->
  (length ws = 2%nat ->
   ModbusRTUMeter._convert_value ws signed decimals true
   = Ok (VNum (NFloat (F32 (words_value ws))))) /\
  (length ws = 4%nat ->
   ModbusRTUMeter._convert_value ws signed decimals true
   = Ok (VNum (NFloat (F64 (words_value ws))))) /\
  (forall self,
     length ws = 2%nat ->
     ModbusTCPMeter._convert_value self (bytes_of_words ws) signed decimals true
     = if num_in (NFloat (F32 (words_value ws))) (NULLS self) then Ok VNone
       else float_over_pow10 (NFloat (F32 (words_value ws))) decimals) /\
  (forall self,
     length ws = 4%nat ->
     ModbusTCPMeter._convert_value self (bytes_of_words ws) signed decimals true
     = Raise StructError) /\
  decodes_floats_unscaled rtu_float_codec /\
  ~ decodes_floats_unscaled (tcp_float_codec MulticubeMeter.meter).
Proof.
  intros Hws. split_and!.
  - by apply rtu_convert_value_float32.
  - by apply rtu_convert_value_float64.
  - intros self. by apply tcp_convert_value_float32.
  - intros self Hl. apply tcp_convert_value_eight_bytes.
    + apply bytes_of_words_bytes.
    + rewrite length_bytes_of_words. lia.
  - intros ws' signed' decimals' Hws'. split; intros Hl.
    + by apply rtu_convert_value_float32.
    + by apply rtu_convert_value_float64.
  - apply tcp_float_codec_not_unscaled.
Qed.

Lemma C5_tcp_float_takes_integer_path_witness :
  Forall is_word [18303; 65280] /\
  ModbusRTUMeter._convert_value [18303; 65280] false 0 true
  = Ok (VNum (NFloat (F32 1199570688))) /\
  ModbusTCPMeter._convert_value MulticubeMeter.meter [71; 127; 255; 0] false 0 true
  = Ok VNone.
Proof.
  assert (H : Forall is_word [18303; 65280])
    by (repeat constructor; unfold is_word; lia).
  destruct (C5_tcp_float_takes_integer_path [18303; 65280] false 0 H)
    as (Hrtu & _ & Htcp & _ & _).
  split_and!; [done | by apply Hrtu | by apply (Htcp MulticubeMeter.meter)].
Defined.

(** ** The receive loop of [_perform_request] *)

(** The loop, one turn unfolded. *)
Lemma recv_loop_eq sock left num_regs expect_bytes data attempt :
  ModbusTCPMeter.recv_loop sock left num_regs expect_bytes data attempt
  = if negb (int_is (Z.of_nat (length data)) expect_bytes) then
      (emit Sleep ;;
       chunk <- ModbusTCPMeter.device_recv sock ;;
       if attempt >=? 10 then ret (replicate (Z.to_nat (2 * num_regs)) 0)
       else
         match left with
         | O => ret (replicate (Z.to_nat (2 * num_regs)) 0)
         | S left' =>
             ModbusTCPMeter.recv_loop sock left' num_regs expect_bytes
               (data ++ chunk) (attempt + 1)
         end)%io
    else ret (drop 9 data).
Proof. by destruct left. Qed.

Lemma perform_request_connected sock message num_regs c :
  device c = Connected ->
  last_word message = Ok num_regs ->
  ModbusTCPMeter._perform_request sock message c
  = ModbusTCPMeter.recv_loop sock 9 num_regs (9 + 2 * num_regs) [] 1
      (add_event (Send message) c).
Proof.
  intros Hdev Hlast. unfold ModbusTCPMeter._perform_request.
  unfold bind at 1. rewrite Hdev.
  unfold bind at 1. unfold ret at 1.
  unfold bind at 1. unfold emit at 1.
  unfold bind at 1. unfold lift at 1. by rewrite Hlast.
Qed.

(** One turn of the loop when the buffer is not yet of the expected
    length. *)
Lemma recv_loop_step sock left num_regs expect_bytes data attempt c chunk :
  int_is (Z.of_nat (length data)) expect_bytes = false ->
  recv sock (polls c) = Ok chunk ->
  ModbusTCPMeter.recv_loop sock left num_regs expect_bytes data attempt c
  = if attempt >=? 10
    then (after_polls 1 c, Ok (replicate (Z.to_nat (2 * num_regs)) 0))
    else match left with
         | O => (after_polls 1 c, Ok (replicate (Z.to_nat (2 * num_regs)) 0))
         | S left' =>
             ModbusTCPMeter.recv_loop sock left' num_regs expect_bytes
               (data ++ chunk) (attempt + 1) (after_polls 1 c)
         end.
Proof.
  intros Hnot Hchunk. rewrite recv_loop_eq, Hnot.
  unfold bind, emit, ModbusTCPMeter.device_recv, bind, emit. simpl.
  rewrite Hchunk. destruct (attempt >=? 10); [done|]. by destruct left.
Qed.

Lemma recv_loop_done sock left num_regs expect_bytes data attempt c :
  int_is (Z.of_nat (length data)) expect_bytes = true ->
  ModbusTCPMeter.recv_loop sock left num_regs expect_bytes data attempt c
  = (c, Ok (drop 9 data)).
Proof. intros Hdone. by rewrite recv_loop_eq, Hdone. Qed.

Lemma received_S sock from k chunk :
  recv sock from = Ok chunk ->
  received sock from (S k) = chunk ++ received sock (S from) k.
Proof. intros H. simpl. by rewrite H. Qed.

Lemma after_polls_polls k c : polls (after_polls k c) = (polls c + k)%nat.
Proof.
  revert c. induction k as [|k IH]; intros c; simpl; [lia|].
  rewrite IH. simpl. lia.
Qed.

Lemma after_polls_S k c : after_polls (S k) c = after_polls k (after_polls 1 c).
Proof. done. Qed.

(** The loop hands back the payload when the buffer reaches the expected
    length within the polls that are left before [attempt] reaches 10. *)
Lemma recv_loop_payload sock k : forall left num_regs expect_bytes data attempt c,
  (forall j, is_ok (recv sock j) = true) ->
  attempt + Z.of_nat k <= 10 ->
  10 <= attempt + Z.of_nat left ->
  (forall j, (j < k)%nat ->
     int_is (Z.of_nat (length (data ++ received sock (polls c) j))) expect_bytes
     = false) ->
  int_is (Z.of_nat (length (data ++ received sock (polls c) k))) expect_bytes
  = true ->
  ModbusTCPMeter.recv_loop sock left num_regs expect_bytes data attempt c
  = (after_polls k c, Ok (drop 9 (data ++ received sock (polls c) k))).
Proof.
  induction k as [|k IH];
    intros left num_regs expect_bytes data attempt c Hok Hatt Hleft Hnot Hdone.
  - simpl in *. rewrite app_nil_r in *. by apply recv_loop_done.
  - specialize (Hok (polls c)) as Hc.
    destruct (recv sock (polls c)) as [chunk|] eqn:Hchunk; [|done].
    rewrite (recv_loop_step _ _ _ _ _ _ _ chunk); [| |done].
    + destruct (Z.geb_spec attempt 10); [lia|].
      destruct left as [|left']; [lia|].
      rewrite (received_S _ _ _ chunk), app_assoc in Hdone by done.
      rewrite (received_S _ _ _ chunk), app_assoc, after_polls_S by done.
      assert (Hp : polls (after_polls 1 c) = S (polls c)) by done.
      rewrite <- Hp in *.
      apply IH; [done | lia | lia | | done].
      intros j Hj. specialize (Hnot (S j)).
      rewrite (received_S _ _ _ chunk), app_assoc in Hnot by done.
      rewrite Hp. apply Hnot. lia.
    + specialize (Hnot 0%nat). simpl in Hnot. rewrite app_nil_r in Hnot.
      apply Hnot. lia.
Qed.

(** The loop gives up with zeros once [attempt] has reached 10, without
    looking at what the last [recv] brought. *)
Lemma recv_loop_zeros sock m : forall left num_regs expect_bytes data attempt c,
  (forall j, is_ok (recv sock j) = true) ->
  attempt + Z.of_nat m = 10 ->
  (m <= left)%nat ->
  (forall j, (j <= m)%nat ->
     int_is (Z.of_nat (length (data ++ received sock (polls c) j))) expect_bytes
     = false) ->
  ModbusTCPMeter.recv_loop sock left num_regs expect_bytes data attempt c
  = (after_polls (S m) c, Ok (replicate (Z.to_nat (2 * num_regs)) 0)).
Proof.
  induction m as [|m IH];
    intros left num_regs expect_bytes data attempt c Hok Hatt Hleft Hnot.
  - specialize (Hok (polls c)) as Hc.
    destruct (recv sock (polls c)) as [chunk|] eqn:Hchunk; [|done].
    rewrite (recv_loop_step _ _ _ _ _ _ _ chunk); [| |done].
    + by destruct (Z.geb_spec attempt 10); [|lia].
    + specialize (Hnot 0%nat). simpl in Hnot. rewrite app_nil_r in Hnot.
      apply Hnot. lia.
  - specialize (Hok (polls c)) as Hc.
    destruct (recv sock (polls c)) as [chunk|] eqn:Hchunk; [|done].
    rewrite (recv_loop_step _ _ _ _ _ _ _ chunk); [| |done].
    + destruct (Z.geb_spec attempt 10); [lia|].
      destruct left as [|left']; [lia|].
      rewrite (after_polls_S (S m)).
      apply IH; [done | lia | lia |].
      intros j Hj. specialize (Hnot (S j)).
      rewrite (received_S _ _ _ chunk), app_assoc in Hnot by done.
      apply Hnot. lia.
    + specialize (Hnot 0%nat). simpl in Hnot. rewrite app_nil_r in Hnot.
      apply Hnot. lia.
Qed.

(** The bound [left] of the model never cuts the loop short: from
    [attempt = 1] any bound of nine or more gives the same run. *)
Lemma recv_loop_left sock left : forall left' num_regs expect_bytes data attempt c,
  10 <= attempt + Z.of_nat left ->
  10 <= attempt + Z.of_nat left' ->
  ModbusTCPMeter.recv_loop sock left num_regs expect_bytes data attempt c
  = ModbusTCPMeter.recv_loop sock left' num_regs expect_bytes data attempt c.
Proof.
  induction left as [|left IH];
    intros left' num_regs expect_bytes data attempt c Hl Hl';
    rewrite (recv_loop_eq sock left'); [rewrite (recv_loop_eq sock 0) | rewrite (recv_loop_eq sock (S left))];
    (destruct (negb _); [|done]);
    unfold bind; destruct (emit Sleep c) as [c1 [[]|]]; try done;
    destruct (ModbusTCPMeter.device_recv sock c1) as [c2 [chunk|]]; try done;
    destruct (Z.geb_spec attempt 10); try done; try lia.
  destruct left' as [|left']; [lia|]. apply IH; lia.
Qed.

(** With a peer whose [recv] never raises, the loop returns after at most
    as many polls as are left before [attempt] reaches 10: it never
    raises. *)
Lemma recv_loop_total sock left : forall num_regs expect_bytes data attempt c,
  (forall j, is_ok (recv sock j) = true) ->
  exists k payload,
    ModbusTCPMeter.recv_loop sock left num_regs expect_bytes data attempt c
    = (after_polls k c, Ok payload) /\
    (k <= S left)%nat.
Proof.
  induction left as [|left IH]; intros num_regs expect_bytes data attempt c Hok.
  - destruct (int_is (Z.of_nat (length data)) expect_bytes) eqn:Hd.
    + exists 0%nat, (drop 9 data). split; [by apply recv_loop_done | lia].
    + specialize (Hok (polls c)) as Hc.
      destruct (recv sock (polls c)) as [chunk|] eqn:Hchunk; [|done].
      rewrite (recv_loop_step _ _ _ _ _ _ _ chunk) by done.
      exists 1%nat, (replicate (Z.to_nat (2 * num_regs)) 0).
      split; [by destruct (attempt >=? 10) | lia].
  - destruct (int_is (Z.of_nat (length data)) expect_bytes) eqn:Hd.
    + exists 0%nat, (drop 9 data). split; [by apply recv_loop_done | lia].
    + specialize (Hok (polls c)) as Hc.
      destruct (recv sock (polls c)) as [chunk|] eqn:Hchunk; [|done].
      rewrite (recv_loop_step _ _ _ _ _ _ _ chunk) by done.
      destruct (attempt >=? 10).
      * exists 1%nat, (replicate (Z.to_nat (2 * num_regs)) 0). split; [done | lia].
      * destruct (IH num_regs expect_bytes (data ++ chunk) (attempt + 1)
                    (after_polls 1 c) Hok) as (k & payload & Heq & Hk).
        exists (S k), payload. split; [by rewrite after_polls_S | lia].
Qed.

(** A connected client whose peer answers within the first nine polls
    gets the payload: the bytes after the nine header bytes. *)
Lemma perform_request_payload sock message num_regs c k :
  device c = Connected ->
  last_word message = Ok num_regs ->
  (forall j, is_ok (recv sock j) = true) ->
  (k <= 9)%nat ->
  (forall j, (j < k)%nat ->
     int_is (Z.of_nat (length (received sock (polls c) j))) (9 + 2 * num_regs)
     = false) ->
  int_is (Z.of_nat (length (received sock (polls c) k))) (9 + 2 * num_regs) = true ->
  ModbusTCPMeter._perform_request sock message c
  = (after_polls k (add_event (Send message) c),
     Ok (drop 9 (received sock (polls c) k))).
Proof.
  intros Hdev Hlast Hok Hk Hnot Hdone.
  rewrite (perform_request_connected _ _ num_regs) by done.
  by apply (recv_loop_payload sock k 9 num_regs (9 + 2 * num_regs) [] 1
              (add_event (Send message) c)); [| lia | lia | |].
Qed.

(** Two equal lengths above 256 are never the same object: for a window
    of 124 registers or more the loop condition never turns false. *)
Lemma int_is_large a b : 256 < b -> int_is a b = false.
Proof.
  intros Hb. unfold int_is.
  destruct (Z.eqb_spec a b) as [->|]; [|done]. simpl.
  destruct (Z.leb_spec b 256); [lia|]. by rewrite andb_false_r.
Qed.

(** C4. The receive loop, at the input where the code departs from the
    claim.  On a connected client whose peer never raises, when the buffer
    has not reached exactly [9 + 2 * registerCount] bytes before any of the
    first ten polls, [_perform_request] returns [2 * registerCount] zeros
    after the tenth poll whatever that poll brought: a response that
    becomes complete with the tenth [recv] is thrown away. *)
Theorem C4_tenth_poll_is_discarded (sock : socket) (message : list Z)
    (num_regs : Z) (c : client) :
  device c = Connected ->
  last_word message = Ok num_regs ->
  (forall j, is_ok (recv sock j) = true) ->
  (forall j, (j < 10)%nat ->
     int_is (Z.of_nat (length (received sock (polls c) j))) (9 + 2 * num_regs)
     = false) ->
  ModbusTCPMeter._perform_request sock message c
  = (after_polls 10 (add_event (Send message) c),
     Ok (replicate (Z.to_nat (2 * num_regs)) 0)).
Proof.
  intros Hdev Hlast Hok Hnot.
  rewrite (perform_request_connected _ _ num_regs) by done.
  apply (recv_loop_zeros sock 9 9 num_regs (9 + 2 * num_regs) [] 1
           (add_event (Send message) c)); [done | lia | lia |].
  intros j Hj. apply Hnot. lia.
Qed.

Lemma C4_tenth_poll_is_discarded_witness :
  last_word one_register_request = Ok 1 /\
  received slow_socket 0 10 = [0; 1; 2; 3; 4; 5; 6; 7; 8; 18; 52] /\
  Z.of_nat (length (received slow_socket 0 10)) = 9 + 2 * 1 /\
  ModbusTCPMeter._perform_request slow_socket one_register_request
    (new_client [] Connected)
  = (after_polls 10 (add_event (Send one_register_request) (new_client [] Connected)),
     Ok [0; 0]).
Proof.
  assert (H1 : device (new_client [] Connected) = Connected) by reflexivity.
  assert (H2 : last_word one_register_request = Ok 1) by reflexivity.
  assert (H3 : forall j, is_ok (recv slow_socket j) = true) by reflexivity.
  assert (H4 : forall j, (j < 10)%nat ->
     int_is (Z.of_nat (length (received slow_socket (polls (new_client [] Connected)) j)))
       (9 + 2 * 1) = false).
  { intros j Hj. do 10 (destruct j as [|j]; [reflexivity|]). lia. }
  split_and!; [done | reflexivity | reflexivity |].
  apply (C4_tenth_poll_is_discarded slow_socket one_register_request 1
           (new_client [] Connected) H1 H2 H3 H4).
Defined.

(** The same request is served when the answer is complete one poll
    earlier. *)
Example perform_request_ninth_poll :
  ModbusTCPMeter._perform_request
    (scripted_socket (fun k => if (k <? 8)%nat then [Z.of_nat k] else [8; 18; 52]))
    one_register_request (new_client [] Connected)
  = (after_polls 9 (add_event (Send one_register_request) (new_client [] Connected)),
     Ok [18; 52]).
Proof. vm_compute. reflexivity. Qed.

(** For 124 registers the answer is never accepted, even when the first
    [recv] brings all 257 bytes. *)
Lemma perform_request_large_window sock message num_regs c :
  device c = Connected ->
  last_word message = Ok num_regs ->
  (forall j, is_ok (recv sock j) = true) ->
  124 <= num_regs ->
  ModbusTCPMeter._perform_request sock message c
  = (after_polls 10 (add_event (Send message) c),
     Ok (replicate (Z.to_nat (2 * num_regs)) 0)).
Proof.
  intros Hdev Hlast Hok Hn.
  rewrite (perform_request_connected _ _ num_regs) by done.
  apply (recv_loop_zeros sock 9 9 num_regs (9 + 2 * num_regs) [] 1
           (add_event (Send message) c)); [done | lia | lia |].
  intros j Hj. apply int_is_large. lia.
Qed.

(** ** A well-formed read returns *)

Lemma foldl_min_le_head x l : foldl Z.min x l <= x.
Proof.
  revert x. induction l as [|z l IH]; intros x; simpl; [lia|].
  etrans; [apply IH|]. lia.
Qed.

Lemma foldl_min_le x l y : y ∈ x :: l -> foldl Z.min x l <= y.
Proof.
  intros [->|Hy]%elem_of_cons; [apply foldl_min_le_head|].
  revert x. induction l as [|z l IH]; intros x; [by apply elem_of_nil in Hy|].
  simpl. apply elem_of_cons in Hy as [->|Hy]; [|by apply IH].
  etrans; [apply foldl_min_le_head|]. lia.
Qed.

Lemma foldl_max_le x l y : y ∈ x :: l -> y <= foldl Z.max x l.
Proof.
  intros [->|Hy]%elem_of_cons; [apply foldl_max_ge|].
  revert x. induction l as [|z l IH]; intros x; [by apply elem_of_nil in Hy|].
  simpl. apply elem_of_cons in Hy as [->|Hy]; [|by apply IH].
  etrans; [|apply foldl_max_ge]. lia.
Qed.

Lemma py_min_le l m y : py_min l = Ok m -> y ∈ l -> m <= y.
Proof. destruct l; [done|]. intros [= <-]. apply foldl_min_le. Qed.

Lemma py_max_ge l m y : py_max l = Ok m -> y ∈ l -> y <= m.
Proof. destruct l; [done|]. intros [= <-]. apply foldl_max_le. Qed.

(** A slice that lies inside the list has the length asked for. *)
Lemma py_slice_inside {A} (P : A -> Prop) (data : list A) start len :
  0 <= start -> 0 <= len -> start + len <= Z.of_nat (length data) ->
  Forall P data ->
  length (py_slice data start (start + len)) = Z.to_nat len /\
  Forall P (py_slice data start (start + len)).
Proof.
  intros Hs Hl Hin HP. unfold py_slice, slice_bound.
  destruct (Z.ltb_spec start 0); [lia|].
  destruct (Z.ltb_spec (start + len) 0); [lia|].
  rewrite !Z.min_l by lia. split.
  - rewrite length_take, length_drop. lia.
  - by apply Forall_take, Forall_drop.
Qed.





Lemma elem_of_concat_elem {A} (x : A) l ls : x ∈ l -> l ∈ ls -> x ∈ concat ls.
Proof.
  intros Hx Hl. apply list_elem_of_In, in_concat.
  exists l. by rewrite <- !list_elem_of_In.
Qed.


(** ** The partition invariant *)

Lemma split_ranges_concat l gs :
  ModbusTCPMeter._split_ranges l = Ok gs -> concat gs = l.
Proof.
  destruct l as [|r0 rest]; [done|].
  rewrite split_ranges_cons. intros [= <-]. apply split_loop_concat.
Qed.




(** * Further properties of the code *)

(** ** The decode rules, codec by codec *)

Lemma words_value_range_from ws acc :
  Forall is_word ws -> 0 <= acc ->
  0 <= fold_left (fun acc w => acc * 65536 + w) ws acc
  < (acc + 1) * 65536 ^ Z.of_nat (length ws).
Proof.
  intros H. revert acc. induction H as [|w ws Hw _ IH]; intros acc Hacc.
  - simpl. lia.
  - unfold is_word in Hw. simpl fold_left.
    specialize (IH (acc * 65536 + w) ltac:(lia)).
    replace (Z.of_nat (length (w :: ws))) with (Z.succ (Z.of_nat (length ws)))
      by (simpl; lia).
    rewrite Z.pow_succ_r by lia.
    assert (0 < 65536 ^ Z.of_nat (length ws)) by (apply Z.pow_pos_nonneg; lia).
    nia.
Qed.

Lemma words_value_range ws :
  Forall is_word ws -> 0 <= words_value ws < 2 ^ (16 * Z.of_nat (length ws)).
Proof.
  intros H. pose proof (words_value_range_from ws 0 H ltac:(lia)) as Hr.
  rewrite Z.pow_mul_r by lia. change (2 ^ 16) with 65536.
  unfold words_value. lia.
Qed.

(** The raw integer lies in the range of its width. *)
Lemma raw_integer_range ws signed :
  Forall is_word ws -> ws <> [] ->
  in_int_range (16 * Z.of_nat (length ws)) signed (raw_integer ws signed).
Proof.
  intros H Hne. pose proof (words_value_range ws H) as Hr.
  assert (Hpos : 0 < Z.of_nat (length ws)) by (destruct ws; [done | simpl; lia]).
  assert (Hpow : 2 ^ (16 * Z.of_nat (length ws))
                 = 2 * 2 ^ (16 * Z.of_nat (length ws) - 1)).
  { rewrite <- Z.pow_succ_r by lia. f_equal. lia. }
  unfold in_int_range, raw_integer. destruct signed; simpl; [|done].
  destruct (Z.leb_spec (2 ^ (16 * Z.of_nat (length ws) - 1)) (words_value ws)); lia.
Qed.

(** X1. The serial codec on an integer register.  For one, two or four
    in-range words (also when a one-word register is flagged [is_float],
    which the float block does not handle), [_convert_value] packs the
    words big-endian into an integer of 16, 32 or 64 bits, signed or not,
    which lies in the range of its width.  When that integer is one of
    [ABBMeter.NULLS] the result is [None], whatever the decimals.
    Otherwise the result is the quotient by [10^decimals] when
    [-324 < decimals < 309]; for larger decimals the division raises
    [OverflowError] (the power of ten does not convert to a float), for
    smaller ones [ZeroDivisionError] (the power of ten is [0.0]). *)
Theorem X1_rtu_integer_decode (ws : list Z) (signed : bool) (decimals : Z) :
  Forall is_word ws ->
  length ws = 1%nat \/ length ws = 2%nat \/ length ws = 4%nat ->
  (raw_integer ws signed ∈ ABBMeter.NULLS ->
   ModbusRTUMeter._convert_value ws signed decimals false = Ok VNone) /\
  (decimals_ok decimals ->
   ModbusRTUMeter._convert_value ws signed decimals false
   = Ok (scaled ABBMeter.NULLS (raw_integer ws signed) decimals) /\
   (length ws = 1%nat ->
    ModbusRTUMeter._convert_value ws signed decimals true
    = Ok (scaled ABBMeter.NULLS (raw_integer ws signed) decimals)) /\
   (raw_integer ws signed ∉ ABBMeter.NULLS ->
    ModbusRTUMeter._convert_value ws signed decimals false
    = Ok (VQuot (NInt (raw_integer ws signed)) decimals) /\
    value_Q (VQuot (NInt (raw_integer ws signed)) decimals)
    = Some (inject_Z (raw_integer ws signed) / Qpower 10 decimals)%Q)) /\
  (raw_integer ws signed ∉ ABBMeter.NULLS ->
   309 <= decimals ->
   ModbusRTUMeter._convert_value ws signed decimals false
   = Raise OverflowError) /\
  (raw_integer ws signed ∉ ABBMeter.NULLS ->
   decimals <= -324 ->
   ModbusRTUMeter._convert_value ws signed decimals false
   = Raise ZeroDivisionError) /\
  in_int_range (16 * Z.of_nat (length ws)) signed (raw_integer ws signed).
Proof.
  intros Hws Hlen.
  pose proof (rtu_convert_value_integer_result ws signed decimals Hws Hlen)
    as Hres.
  split_and!.
  - intros Hin. rewrite Hres. unfold scaled_result.
    by rewrite bool_decide_eq_true_2.
  - intros Hd.
    pose proof (rtu_convert_value_integer ws signed decimals Hd Hws Hlen)
      as Hdec.
    split; [done|]. split.
    + intros Hl. rewrite <- Hdec. unfold ModbusRTUMeter._convert_value.
      by rewrite Hl.
    + intros Hout. rewrite Hdec. unfold scaled.
      by rewrite bool_decide_eq_false_2.
  - intros Hout Hd. rewrite Hres. unfold scaled_result.
    rewrite bool_decide_eq_false_2 by done.
    by apply float_over_pow10_overflow.
  - intros Hout Hd. rewrite Hres. unfold scaled_result.
    rewrite bool_decide_eq_false_2 by done.
    by apply float_over_pow10_zero.
  - apply raw_integer_range; [done|]. by destruct ws, Hlen as [?|[?|?]].
Qed.

Lemma X1_rtu_integer_decode_witness :
  Forall is_word [65535; 65534] /\
  decimals_ok 1 /\
  ModbusRTUMeter._convert_value [65535; 65534] true 1 false
  = Ok (VQuot (NInt (-2)) 1) /\
  ModbusRTUMeter._convert_value [32767; 65535] true 400 false = Ok VNone /\
  ModbusRTUMeter._convert_value [65535; 65534] true 309 false
  = Raise OverflowError /\
  ModbusRTUMeter._convert_value [65535; 65534] true (-324) false
  = Raise ZeroDivisionError.
Proof.
  assert (H1 : Forall is_word [65535; 65534])
    by (repeat constructor; unfold is_word; lia).
  assert (H2 : Forall is_word [32767; 65535])
    by (repeat constructor; unfold is_word; lia).
  assert (Hd : decimals_ok 1) by (unfold decimals_ok; lia).
  assert (Hout : raw_integer [65535; 65534] true ∉ ABBMeter.NULLS)
    by (intros Hx%list_elem_of_In; vm_compute in Hx; intuition discriminate).
  assert (Hin : raw_integer [32767; 65535] true ∈ ABBMeter.NULLS)
    by (apply list_elem_of_In; vm_compute; tauto).
  destruct (X1_rtu_integer_decode [65535; 65534] true 1 H1) as (_ & Ha & _);
    [by right; left|].
  destruct (Ha Hd) as (Ha' & _).
  destruct (X1_rtu_integer_decode [32767; 65535] true 400 H2) as (Hb & _);
    [by right; left|].
  destruct (X1_rtu_integer_decode [65535; 65534] true 309 H1)
    as (_ & _ & Hc & _); [by right; left|].
  destruct (X1_rtu_integer_decode [65535; 65534] true (-324) H1)
    as (_ & _ & _ & He & _); [by right; left|].
  split_and!; [done | done | exact Ha' | exact (Hb Hin) | | ].
  - apply (Hc Hout). lia.
  - apply (He Hout). lia.
Defined.

(** X2. The TCP codec on an integer register.  Given the two or four
    payload bytes of one or two in-range words, [_convert_value] forms the
    16- or 32-bit integer, signed or not.  When it is one of the meter's
    [NULLS] the result is [None], whatever the decimals.  Otherwise the
    result is its quotient by [10^decimals] when [-324 < decimals < 309];
    for larger decimals the division raises [OverflowError], for smaller
    ones [ZeroDivisionError]. *)
Theorem X2_tcp_integer_decode (self : tcp_meter) (ws : list Z) (signed : bool)
    (decimals : Z) :
  Forall is_word ws ->
  length ws = 1%nat \/ length ws = 2%nat ->
  (raw_integer ws signed ∈ NULLS self ->
   ModbusTCPMeter._convert_value self (bytes_of_words ws) signed decimals false
   = Ok VNone) /\
  (decimals_ok decimals ->
   ModbusTCPMeter._convert_value self (bytes_of_words ws) signed decimals false
   = Ok (scaled (NULLS self) (raw_integer ws signed) decimals) /\
   (raw_integer ws signed ∉ NULLS self ->
    ModbusTCPMeter._convert_value self (bytes_of_words ws) signed decimals
      false
    = Ok (VQuot (NInt (raw_integer ws signed)) decimals))) /\
  (raw_integer ws signed ∉ NULLS self ->
   309 <= decimals ->
   ModbusTCPMeter._convert_value self (bytes_of_words ws) signed decimals false
   = Raise OverflowError) /\
  (raw_integer ws signed ∉ NULLS self ->
   decimals <= -324 ->
   ModbusTCPMeter._convert_value self (bytes_of_words ws) signed decimals false
   = Raise ZeroDivisionError) /\
  in_int_range (16 * Z.of_nat (length ws)) signed (raw_integer ws signed).
Proof.
  intros Hws Hlen.
  pose proof (tcp_convert_value_integer_result self ws signed decimals Hws Hlen)
    as Hres.
  split_and!.
  - intros Hin. rewrite Hres. unfold scaled_result.
    by rewrite bool_decide_eq_true_2.
  - intros Hd.
    pose proof (tcp_convert_value_integer self ws signed decimals Hd Hws Hlen)
      as Hdec.
    split; [done|].
    intros Hout. rewrite Hdec. unfold scaled.
    by rewrite bool_decide_eq_false_2.
  - intros Hout Hd. rewrite Hres. unfold scaled_result.
    rewrite bool_decide_eq_false_2 by done.
    by apply float_over_pow10_overflow.
  - intros Hout Hd. rewrite Hres. unfold scaled_result.
    rewrite bool_decide_eq_false_2 by done.
    by apply float_over_pow10_zero.
  - apply raw_integer_range; [done|]. by destruct ws, Hlen as [?|?].
Qed.

Lemma X2_tcp_integer_decode_witness :
  Forall is_word [65436] /\
  decimals_ok (-1) /\
  ModbusTCPMeter._convert_value SMAMeter.meter [255; 156] true (-1) false
  = Ok (VQuot (NInt (-100)) (-1)) /\
  ModbusTCPMeter._convert_value SMAMeter.meter [255; 156] false 309 false
  = Raise OverflowError /\
  ModbusTCPMeter._convert_value SMAMeter.meter [255; 156] false (-324) false
  = Raise ZeroDivisionError /\
  ModbusTCPMeter._convert_value SMAMeter.meter [128; 0] false 309 false
  = Ok VNone.
Proof.
  assert (H : Forall is_word [65436])
    by (repeat constructor; unfold is_word; lia).
  assert (H' : Forall is_word [32768])
    by (repeat constructor; unfold is_word; lia).
  assert (Hd : decimals_ok (-1)) by (unfold decimals_ok; lia).
  assert (Hout : raw_integer [65436] false ∉ NULLS SMAMeter.meter)
    by (intros Hx%list_elem_of_In; vm_compute in Hx; intuition discriminate).
  assert (Hin : raw_integer [32768] false ∈ NULLS SMAMeter.meter)
    by (apply list_elem_of_In; vm_compute; tauto).
  destruct (X2_tcp_integer_decode SMAMeter.meter [65436] true (-1) H)
    as (_ & Ha & _); [by left|].
  destruct (Ha Hd) as (Ha' & _).
  destruct (X2_tcp_integer_decode SMAMeter.meter [65436] false 309 H)
    as (_ & _ & Hc & _); [by left|].
  destruct (X2_tcp_integer_decode SMAMeter.meter [65436] false (-324) H)
    as (_ & _ & _ & He & _); [by left|].
  destruct (X2_tcp_integer_decode SMAMeter.meter [32768] false 309 H')
    as (Hb & _); [by left|].
  split_and!; [done | done | exact Ha' | | | exact (Hb Hin)].
  - apply (Hc Hout). lia.
  - apply (He Hout). lia.
Defined.

(** X3. A float over TCP needs exactly four bytes.  With [is_float] the
    TCP codec always unpacks with the format [>f]: on a buffer of any other
    length (the two bytes of a one-word register, the eight bytes of a
    double) it raises [struct.error]. *)
Theorem X3_tcp_float_needs_four_bytes (self : tcp_meter) (bs : list Z)
    (signed : bool) (decimals : Z) :
  Forall is_byte bs ->
  length bs <> 4%nat ->
  ModbusTCPMeter._convert_value self bs signed decimals true = Raise StructError.
Proof.
  intros Hbs Hlen. unfold ModbusTCPMeter._convert_value.
  rewrite to_bytes_ok by done. simpl.
  by rewrite struct_unpack_wrong_size.
Qed.

Lemma X3_tcp_float_needs_four_bytes_witness :
  Forall is_byte [64; 9; 33; 251; 84; 68; 45; 24] /\
  ModbusTCPMeter._convert_value MulticubeMeter.meter
    [64; 9; 33; 251; 84; 68; 45; 24] false 0 true
  = Raise StructError.
Proof.
  assert (H : Forall is_byte [64; 9; 33; 251; 84; 68; 45; 24])
    by (repeat constructor; unfold is_byte; lia).
  split; [done|].
  by apply (X3_tcp_float_needs_four_bytes MulticubeMeter.meter
              [64; 9; 33; 251; 84; 68; 45; 24] false 0 H).
Defined.

(** ** The request frame *)

Lemma leb_word_true w : is_word w -> (0 <=? w) && (w <? 2 ^ 16) = true.
Proof.
  unfold is_word. intros H. apply andb_true_iff.
  split; [apply Z.leb_le | apply Z.ltb_lt]; lia.
Qed.

Lemma leb_byte_true b : is_byte b -> (0 <=? b) && (b <? 2 ^ 8) = true.
Proof.
  unfold is_byte. intros H. apply andb_true_iff.
  split; [apply Z.leb_le | apply Z.ltb_lt]; lia.
Qed.

Lemma leb_word_false w : ~ is_word w -> (0 <=? w) && (w <? 2 ^ 16) = false.
Proof.
  unfold is_word. intros H. apply andb_false_iff.
  destruct (Z.leb_spec 0 w); [right; apply Z.ltb_ge; lia | by left].
Qed.

Lemma be_unsigned_be_bytes_2 w : is_word w -> be_unsigned (be_bytes 2 w) = w.
Proof.
  intros Hw. pose proof (fold_be_bytes_2 w [] 0 Hw) as H.
  rewrite app_nil_r in H. exact H.
Qed.

(** A well-formed frame, field by field. *)
Lemma modbus_message_ok self sock start_reg num_regs c :
  frame_header_ok self (randint sock (sent c)) ->
  is_word (start_reg - REG_OFFSET self) -> is_word num_regs ->
  ModbusTCPMeter._modbus_message self sock start_reg num_regs c
  = (incr_sent c,
     Ok (bytes_of_words [randint sock (sent c); PROTOCOL_CODE self; 6]
         ++ [device_id self; FUNCTION_CODE self]
         ++ bytes_of_words [start_reg - REG_OFFSET self; num_regs])).
Proof.
  intros (Htid & Hpc & Hdev & Hfc) Hstart Hnum.
  unfold ModbusTCPMeter._modbus_message, struct_pack. f_equal. simpl.
  change (8 * Z.of_nat 2) with 16. change (8 * Z.of_nat 1) with 8.
  rewrite !leb_word_true, !leb_byte_true by (done || (unfold is_word; lia)).
  simpl. unfold is_word, is_byte in *.
  change (2 ^ 16) with 65536. change (2 ^ 8) with 256.
  rewrite (Z.mod_small (randint sock (sent c)) 65536),
    (Z.mod_small (PROTOCOL_CODE self) 65536),
    (Z.mod_small (device_id self) 256), (Z.mod_small (FUNCTION_CODE self) 256),
    (Z.mod_small (start_reg - REG_OFFSET self) 65536),
    (Z.mod_small num_regs 65536) by lia.
  rewrite (Z.mod_small (device_id self) 256),
    (Z.mod_small (FUNCTION_CODE self) 256) by lia.
  done.
Qed.

(** [_perform_request] reads the register count back from the last two
    bytes of the frame. *)
Lemma last_word_frame (b0 b1 b2 b3 b4 b5 b6 b7 : Z) start num_regs :
  is_word num_regs ->
  last_word ([b0; b1; b2; b3; b4; b5; b6; b7] ++ bytes_of_words [start; num_regs])
  = Ok num_regs.
Proof.
  intros Hnum. unfold last_word, py_slice. simpl.
  unfold struct_unpack. simpl. f_equal. unfold be_unsigned. simpl.
  unfold is_word in Hnum. Z.to_euclidean_division_equations. lia.
Qed.

Lemma modbus_message_last_word self sock start_reg num_regs c c' message :
  frame_header_ok self (randint sock (sent c)) ->
  is_word (start_reg - REG_OFFSET self) -> is_word num_regs ->
  ModbusTCPMeter._modbus_message self sock start_reg num_regs c = (c', Ok message) ->
  c' = incr_sent c /\ last_word message = Ok num_regs.
Proof.
  intros Hh Hs Hn. rewrite modbus_message_ok by done.
  intros [= <- <-]. split; [done|]. by apply last_word_frame.
Qed.

(** X4. The request frame.  With a transaction id, protocol code, unit id
    and function code that fit their fields: when the start address minus
    [REG_OFFSET] and the register count are 16-bit values,
    [_modbus_message] builds the twelve bytes
    [tid | protocol | 6 | unit | function | start - REG_OFFSET | count],
    big-endian, and the count [_perform_request] reads back from the last
    two bytes is the one the frame was built for; otherwise (a start below
    [REG_OFFSET], a count above 65535) it raises [struct.error]. *)
Theorem X4_request_frame (self : tcp_meter) (sock : socket)
    (start_reg num_regs : Z) (c : client) :
  frame_header_ok self (randint sock (sent c)) ->
  (is_word (start_reg - REG_OFFSET self) -> is_word num_regs ->
   exists message,
     ModbusTCPMeter._modbus_message self sock start_reg num_regs c
     = (incr_sent c, Ok message) /\
     message = bytes_of_words [randint sock (sent c); PROTOCOL_CODE self; 6]
               ++ [device_id self; FUNCTION_CODE self]
               ++ bytes_of_words [start_reg - REG_OFFSET self; num_regs] /\
     length message = 12%nat /\
     last_word message = Ok num_regs) /\
  (~ is_word (start_reg - REG_OFFSET self) \/ ~ is_word num_regs ->
   ModbusTCPMeter._modbus_message self sock start_reg num_regs c
   = (incr_sent c, Raise StructError)).
Proof.
  intros Hh. split.
  - intros Hs Hn. eexists. split_and!.
    + by apply modbus_message_ok.
    + done.
    + done.
    + by apply last_word_frame.
  - intros Hbad. destruct Hh as (Htid & Hpc & Hdev & Hfc).
    unfold ModbusTCPMeter._modbus_message, struct_pack. f_equal. simpl.
    change (8 * Z.of_nat 2) with 16. change (8 * Z.of_nat 1) with 8.
    rewrite !(leb_word_true (randint sock (sent c))),
      !(leb_word_true (PROTOCOL_CODE self)),
      !(leb_byte_true (device_id self)),
      !(leb_byte_true (FUNCTION_CODE self)) by done.
    simpl. destruct Hbad as [Hbad|Hbad]; rewrite (leb_word_false _ Hbad);
      [done | by rewrite andb_false_r].
Qed.

Lemma X4_request_frame_witness :
  frame_header_ok SMAMeter.meter 4660 /\
  ModbusTCPMeter._modbus_message SMAMeter.meter
    {| recv := fun _ => Ok []; randint := fun _ => 4660 |} 40188 24
    (tcp_client_init [])
  = (incr_sent (tcp_client_init []),
     Ok [18; 52; 0; 0; 0; 6; 126; 3; 156; 251; 0; 24]) /\
  ModbusTCPMeter._modbus_message SMAMeter.meter
    {| recv := fun _ => Ok []; randint := fun _ => 4660 |} 0 1
    (tcp_client_init [])
  = (incr_sent (tcp_client_init []), Raise StructError).
Proof.
  assert (H : frame_header_ok SMAMeter.meter
                (randint {| recv := fun _ => Ok []; randint := fun _ => 4660 |}
                   (sent (tcp_client_init [])))).
  { unfold frame_header_ok, is_word, is_byte. simpl. lia. }
  destruct (X4_request_frame SMAMeter.meter
              {| recv := fun _ => Ok []; randint := fun _ => 4660 |} 40188 24
              (tcp_client_init []) H) as [Hok _].
  destruct Hok as (message & Hrun & -> & _);
    [unfold is_word; simpl; lia | unfold is_word; lia |].
  destruct (X4_request_frame SMAMeter.meter
              {| recv := fun _ => Ok []; randint := fun _ => 4660 |} 0 1
              (tcp_client_init []) H) as [_ Hbad].
  split_and!; [exact H | exact Hrun | apply Hbad].
  left. unfold is_word. simpl. lia.
Defined.

(** ** What [_perform_request] hands to the decoder *)

Lemma int_is_eq a b : int_is a b = true -> a = b.
Proof.
  unfold int_is. intros H. apply andb_true_iff in H as [H _].
  apply andb_true_iff in H as [H _]. by apply Z.eqb_eq.
Qed.

Lemma recv_loop_outcome sock left : forall num_regs data attempt c,
  (forall j, is_ok (recv sock j) = true) ->
  exists k payload,
    ModbusTCPMeter.recv_loop sock left num_regs (9 + 2 * num_regs) data attempt c
    = (after_polls k c, Ok payload) /\
    (k <= S left)%nat /\
    (payload = replicate (Z.to_nat (2 * num_regs)) 0 \/
     (payload = drop 9 (data ++ received sock (polls c) k) /\
      Z.of_nat (length (data ++ received sock (polls c) k)) = 9 + 2 * num_regs)).
Proof.
  induction left as [|left IH]; intros num_regs data attempt c Hok.
  - destruct (int_is (Z.of_nat (length data)) (9 + 2 * num_regs)) eqn:Hd.
    + exists 0%nat, (drop 9 data).
      change (received sock (polls c) 0) with (@nil Z). rewrite app_nil_r.
      split_and!; [by apply recv_loop_done | lia | right].
      split; [done | by apply int_is_eq].
    + specialize (Hok (polls c)) as Hc.
      destruct (recv sock (polls c)) as [chunk|] eqn:Hchunk; [|done].
      rewrite (recv_loop_step _ _ _ _ _ _ _ chunk) by done.
      exists 1%nat, (replicate (Z.to_nat (2 * num_regs)) 0).
      split_and!; [by destruct (attempt >=? 10) | lia | by left].
  - destruct (int_is (Z.of_nat (length data)) (9 + 2 * num_regs)) eqn:Hd.
    + exists 0%nat, (drop 9 data).
      change (received sock (polls c) 0) with (@nil Z). rewrite app_nil_r.
      split_and!; [by apply recv_loop_done | lia | right].
      split; [done | by apply int_is_eq].
    + specialize (Hok (polls c)) as Hc.
      destruct (recv sock (polls c)) as [chunk|] eqn:Hchunk; [|done].
      rewrite (recv_loop_step _ _ _ _ _ _ _ chunk) by done.
      destruct (attempt >=? 10).
      * exists 1%nat, (replicate (Z.to_nat (2 * num_regs)) 0).
        split_and!; [done | lia | by left].
      * destruct (IH num_regs (data ++ chunk) (attempt + 1)
                    (after_polls 1 c) Hok) as (k & payload & Heq & Hk & Hp).
        exists (S k), payload. rewrite after_polls_S.
        split_and!; [done | lia |].
        destruct Hp as [Hp|[Hp Hl]]; [by left | right].
        change (polls (after_polls 1 c)) with (S (polls c)) in Hp, Hl.
        rewrite (received_S _ _ _ chunk), app_assoc by done. by split.
Qed.

(** X5. What [_perform_request] returns.  On a connected client whose
    peer's [recv] never raises, [_perform_request] sends the frame, polls at
    most ten times and returns without raising; what it returns always has
    [2 * registerCount] items: either that many zeros, or the bytes after
    the nine header bytes of a buffer of exactly [9 + 2 * registerCount]
    bytes. *)
Theorem X5_perform_request_outcome (sock : socket) (message : list Z)
    (num_regs : Z) (c : client) :
  device c = Connected ->
  last_word message = Ok num_regs ->
  (forall j, is_ok (recv sock j) = true) ->
  exists k payload,
    ModbusTCPMeter._perform_request sock message c
    = (after_polls k (add_event (Send message) c), Ok payload) /\
    (k <= 10)%nat /\
    length payload = Z.to_nat (2 * num_regs) /\
    (payload = replicate (Z.to_nat (2 * num_regs)) 0 \/
     (payload = drop 9 (received sock (polls c) k) /\
      Z.of_nat (length (received sock (polls c) k)) = 9 + 2 * num_regs)).
Proof.
  intros Hdev Hlast Hok.
  rewrite (perform_request_connected _ _ num_regs) by done.
  destruct (recv_loop_outcome sock 9 num_regs [] 1
              (add_event (Send message) c) Hok) as (k & payload & Heq & Hk & Hp).
  exists k, payload. split_and!; [done | lia | | done].
  destruct Hp as [->|[-> Hl]]; [by rewrite length_replicate|].
  cbn [app] in *. rewrite length_drop. lia.
Qed.

Lemma X5_perform_request_outcome_witness :
  last_word one_register_request = Ok 1 /\
  exists k payload,
    ModbusTCPMeter._perform_request slow_socket one_register_request
      (new_client [] Connected)
    = (after_polls k (add_event (Send one_register_request)
                        (new_client [] Connected)), Ok payload) /\
    (k <= 10)%nat /\
    length payload = 2%nat.
Proof.
  assert (H1 : device (new_client [] Connected) = Connected) by reflexivity.
  assert (H2 : last_word one_register_request = Ok 1) by reflexivity.
  assert (H3 : forall j, is_ok (recv slow_socket j) = true) by reflexivity.
  split; [done|].
  destruct (X5_perform_request_outcome slow_socket one_register_request 1
              (new_client [] Connected) H1 H2 H3)
    as (k & payload & Hrun & Hk & Hlen & _).
  by exists k, payload.
Defined.

(** X6. A prompt answer is returned.  On a connected client whose peer's
    [recv] never raises, when the bytes received reach exactly
    [9 + 2 * registerCount] for the first time after [k <= 9] polls (and
    that length is one CPython compares by identity, see [int_is]),
    [_perform_request] stops polling there and returns the bytes after the
    nine header bytes. *)
Theorem X6_perform_request_prompt_answer (sock : socket) (message : list Z)
    (num_regs : Z) (c : client) (k : nat) :
  device c = Connected ->
  last_word message = Ok num_regs ->
  (forall j, is_ok (recv sock j) = true) ->
  (k <= 9)%nat ->
  (forall j, (j < k)%nat ->
     int_is (Z.of_nat (length (received sock (polls c) j))) (9 + 2 * num_regs)
     = false) ->
  int_is (Z.of_nat (length (received sock (polls c) k))) (9 + 2 * num_regs) = true ->
  ModbusTCPMeter._perform_request sock message c
  = (after_polls k (add_event (Send message) c),
     Ok (drop 9 (received sock (polls c) k))) /\
  length (drop 9 (received sock (polls c) k)) = Z.to_nat (2 * num_regs).
Proof.
  intros Hdev Hlast Hok Hk Hnot Hdone. split.
  - by apply (perform_request_payload sock message num_regs c k).
  - apply int_is_eq in Hdone. rewrite length_drop. lia.
Qed.

Lemma X6_perform_request_prompt_answer_witness :
  last_word one_register_request = Ok 1 /\
  ModbusTCPMeter._perform_request
    (scripted_socket (fun k => if (k =? 0)%nat then [0; 1; 0; 0; 0; 5; 1; 3; 2]
                               else [18; 52]))
    one_register_request (new_client [] Connected)
  = (after_polls 2 (add_event (Send one_register_request) (new_client [] Connected)),
     Ok [18; 52]).
Proof.
  set (sock := scripted_socket (fun k => if (k =? 0)%nat
                                then [0; 1; 0; 0; 0; 5; 1; 3; 2] else [18; 52])).
  assert (H1 : device (new_client [] Connected) = Connected) by reflexivity.
  assert (H2 : last_word one_register_request = Ok 1) by reflexivity.
  assert (H3 : forall j, is_ok (recv sock j) = true) by reflexivity.
  assert (H4 : (2 <= 9)%nat) by lia.
  assert (H5 : forall j, (j < 2)%nat ->
     int_is (Z.of_nat (length (received sock (polls (new_client [] Connected)) j)))
       (9 + 2 * 1) = false).
  { intros j Hj. do 2 (destruct j as [|j]; [reflexivity|]). lia. }
  assert (H6 : int_is (Z.of_nat (length (received sock
                 (polls (new_client [] Connected)) 2))) (9 + 2 * 1) = true)
    by reflexivity.
  split; [done|].
  apply (X6_perform_request_prompt_answer sock one_register_request 1
           (new_client [] Connected) 2 H1 H2 H3 H4 H5 H6).
Defined.

(** X7. Windows of 124 registers or more are never answered.  The loop
    condition [len(data) is not expect_bytes] compares identity; for 124
    registers or more the expected length exceeds 256, where CPython gives
    two equal lengths distinct objects.  On a connected client whose peer's
    [recv] never raises, [_perform_request] then polls ten times and
    returns zeros whatever was received. *)
Theorem X7_perform_request_large_window (sock : socket) (message : list Z)
    (num_regs : Z) (c : client) :
  device c = Connected ->
  last_word message = Ok num_regs ->
  (forall j, is_ok (recv sock j) = true) ->
  124 <= num_regs ->
  ModbusTCPMeter._perform_request sock message c
  = (after_polls 10 (add_event (Send message) c),
     Ok (replicate (Z.to_nat (2 * num_regs)) 0)).
Proof.
  intros Hdev Hlast Hok Hn.
  rewrite (perform_request_connected _ _ num_regs) by done.
  apply (recv_loop_zeros sock 9 9 num_regs (9 + 2 * num_regs) [] 1
           (add_event (Send message) c)); [done | lia | lia |].
  intros j Hj. apply int_is_large. lia.
Qed.

Lemma X7_perform_request_large_window_witness :
  last_word large_request = Ok 124 /\
  Z.of_nat (length (received eager_socket 0 1)) = 9 + 2 * 124 /\
  ModbusTCPMeter._perform_request eager_socket large_request
    (new_client [] Connected)
  = (after_polls 10 (add_event (Send large_request) (new_client [] Connected)),
     Ok (replicate 248 0)).
Proof.
  assert (H1 : device (new_client [] Connected) = Connected) by reflexivity.
  assert (H2 : last_word large_request = Ok 124) by reflexivity.
  assert (H3 : forall j, is_ok (recv eager_socket j) = true) by reflexivity.
  assert (H4 : 124 <= 124) by lia.
  split_and!; [done | reflexivity |].
  apply (X7_perform_request_large_window eager_socket large_request 124
           (new_client [] Connected) H1 H2 H3 H4).
Defined.

(** ** A TCP client without a [device] attribute *)

Lemma perform_request_no_device sock message c :
  device c = NoAttribute ->
  ModbusTCPMeter._perform_request sock message c = (c, Raise AttributeError).
Proof.
  intros Hdev. unfold ModbusTCPMeter._perform_request.
  unfold bind at 1. rewrite Hdev. done.
Qed.

(** The first request of a read: it fails while packing the frame or at
    the missing attribute. *)
Ltac first_request_no_device :=
  unfold bind at 1; unfold ModbusTCPMeter._modbus_message;
  destruct (struct_pack _ _) as [?message|?e]; [|by eexists _, _];
  unfold bind at 1; rewrite perform_request_no_device by done;
  by eexists _, _.

Lemma ranges_loop_no_device self sock g gs results c :
  device c = NoAttribute ->
  exists c' e,
    ModbusTCPMeter.ranges_loop self sock (g :: gs) results c = (c', Raise e) /\
    log c' = log c /\ device c' = NoAttribute.
Proof.
  intros Hdev. simpl. unfold bind at 1. unfold lift at 1.
  destruct (py_min _); [|by eexists _, _].
  unfold bind at 1. unfold lift at 1.
  destruct (py_max _); [|by eexists _, _].
  first_request_no_device.
Qed.

Lemma read_multiple_no_device self sock registers c :
  device c = NoAttribute ->
  exists c' e,
    ModbusTCPMeter._read_multiple self sock registers c = (c', Raise e) /\
    log c' = log c /\ device c' = NoAttribute.
Proof.
  intros Hdev. unfold ModbusTCPMeter._read_multiple.
  unfold bind at 1.
  destruct (ModbusTCPMeter.sort_in_place registers c) as [c1 r] eqn:Hsort.
  assert (Hc1 : log c1 = log c /\ device c1 = NoAttribute /\ exists l, r = Ok l).
  { destruct registers; simpl in Hsort; injection Hsort as <- <-; eauto. }
  destruct Hc1 as (Hlog & Hdev1 & l & ->).
  unfold bind at 1. unfold lift at 1.
  destruct (ModbusTCPMeter._split_ranges l) as [[|g gs]|e] eqn:Hsplit.
  - destruct l; [done|]. rewrite split_ranges_cons in Hsplit.
    destruct (split_loop_ok l [r] r) as (_ & _ & g' & gs' & Heq); [done..|].
    congruence.
  - destruct (ranges_loop_no_device self sock g gs ∅ c1 Hdev1)
      as (c' & e & -> & Hl & Hd).
    exists c', e. split_and!; [done | congruence | done].
  - by eexists _, _.
Qed.

(** X8. A TCP client whose constructor did not connect cannot read.
    [ModbusTCPMeter.__init__] never sets [self.device] (only
    [MulticubeMeter.__init__] does), so on such a client, an [SMAMeter] for
    one, [_perform_request] raises [AttributeError] at [if self.device is
    None] before anything is sent, and [read] with [None], a name or a list
    of names always ends in an exception, with no call to the socket. *)
Theorem X8_tcp_client_without_device (self : tcp_meter) (sock : socket)
    (c : client) (sel : selector) :
  device c = NoAttribute ->
  sel <> SelOther ->
  (forall message,
     ModbusTCPMeter._perform_request sock message c = (c, Raise AttributeError)) /\
  (exists c' e,
     ModbusTCPMeter.read self sock sel c = (c', Raise e) /\
     log c' = log c /\
     device c' = NoAttribute).
Proof.
  intros Hdev Hsel. split.
  - intros message. by apply perform_request_no_device.
  - destruct sel as [|s|l|]; [| | |done]; simpl.
    + unfold bind.
      destruct (read_multiple_no_device self sock TheCatalog c Hdev)
        as (c' & e & -> & Hl & Hd).
      by exists c', e.
    + unfold bind at 1, get_REGS.
      destruct (filter _ (REGS c)) as [|r rs]; [by eexists _, _|].
      unfold bind at 1, ModbusTCPMeter._read_single.
      first_request_no_device.
    + unfold bind at 1, get_REGS. unfold bind.
      destruct (read_multiple_no_device self sock
                  (Fresh (filter (fun register => r_name register ∈ l) (REGS c)))
                  c Hdev) as (c' & e & -> & Hl & Hd).
      by exists c', e.
Qed.

Lemma X8_tcp_client_without_device_witness :
  device (tcp_client_init strict_example) = NoAttribute /\
  SelStr "a" <> SelOther /\
  ModbusTCPMeter.read SMAMeter.meter strict_socket (SelStr "a")
    (tcp_client_init strict_example)
  = (incr_sent (tcp_client_init strict_example), Raise AttributeError).
Proof.
  assert (H1 : device (tcp_client_init strict_example) = NoAttribute)
    by reflexivity.
  assert (H2 : SelStr "a" <> SelOther) by discriminate.
  destruct (X8_tcp_client_without_device SMAMeter.meter strict_socket
              (tcp_client_init strict_example) (SelStr "a") H1 H2)
    as (_ & c' & e & Hrun & _).
  split_and!; [done | done |]. vm_compute. reflexivity.
Defined.

(** ** The power factor fix-up *)

Lemma tcp_interpret_loop_power_factor self data first_reg regs results d :
  (forall v, results !! "power_factor_total" = Some v -> value_is_zero v = false) ->
  ModbusTCPMeter.interpret_loop self data first_reg regs results = Ok d ->
  forall v, d !! "power_factor_total" = Some v -> value_is_zero v = false.
Proof.
  revert results. induction regs as [|r regs IH]; intros results Hres; simpl.
  - by intros [= <-].
  - destruct (ModbusTCPMeter._convert_value _ _ _ _ _) as [v0|]; simpl; [|done].
    apply IH. intros v.
    destruct (String.eqb_spec (r_name r) "power_factor_total") as [->|Hne].
    + rewrite lookup_insert_eq. intros [= <-]. simpl.
      by destruct (value_is_zero v0) eqn:Hz.
    + rewrite lookup_insert_ne by done. apply Hres.
Qed.

(** X9. The power factor is never reported as zero over TCP.  In every
    dict [ModbusTCPMeter._interpret_result] returns, the value under
    "power_factor_total" is not equal to 0: a reading of zero is replaced
    by 1.  So a zero raw word of that register on an SMA meter decodes to
    1, not to 0.0. *)
Theorem X9_power_factor_never_zero (self : tcp_meter) (data : list Z)
    (regs : list register) (d : gmap string value) (v : value) :
  ModbusTCPMeter._interpret_result self data regs = Ok d ->
  d !! "power_factor_total" = Some v ->
  value_is_zero v = false /\
  ModbusTCPMeter._interpret_result SMAMeter.meter [0; 0] [sma_power_factor_total]
  = Ok {[ "power_factor_total" := VNum (NInt 1) ]}.
Proof.
  intros Hrun Hv. split; [|vm_compute; reflexivity].
  unfold ModbusTCPMeter._interpret_result in Hrun.
  destruct (py_min _) as [first_reg|]; simpl in Hrun; [|done].
  by eapply (tcp_interpret_loop_power_factor self data first_reg regs ∅).
Qed.

Lemma X9_power_factor_never_zero_witness :
  ModbusTCPMeter._interpret_result SMAMeter.meter [0; 0] [sma_power_factor_total]
  = Ok {[ "power_factor_total" := VNum (NInt 1) ]} /\
  value_is_zero (VNum (NInt 1)) = false.
Proof.
  assert (H1 : ModbusTCPMeter._interpret_result SMAMeter.meter [0; 0]
                 [sma_power_factor_total]
               = Ok {[ "power_factor_total" := VNum (NInt 1) ]})
    by (vm_compute; reflexivity).
  assert (H2 : ({[ "power_factor_total" := VNum (NInt 1) ]} : gmap string value)
               !! "power_factor_total" = Some (VNum (NInt 1)))
    by (vm_compute; reflexivity).
  split; [done|].
  apply (X9_power_factor_never_zero SMAMeter.meter [0; 0]
           [sma_power_factor_total] _ _ H1 H2).
Defined.

(** ** The size of a gap-tolerant window *)

Lemma foldl_max_bound x l m :
  x <= m -> Forall (fun y => y <= m) l -> foldl Z.max x l <= m.
Proof.
  intros Hx H. revert x Hx. induction H as [|y l Hy _ IH]; intros x Hx; simpl.
  - done.
  - apply IH. lia.
Qed.

Lemma batch_window_within cap f tl :
  0 <= r_length f <= cap ->
  Forall (fun r => r_end r - r_start f <= cap) tl ->
  sorted_by_start (f :: tl) ->
  window_within cap (f :: tl).
Proof.
  intros Hf Htl Hs.
  exists (r_start f), (foldl Z.max (r_end f) (map r_end tl) - r_start f).
  split; [by apply window_sorted|].
  pose proof (foldl_max_ge (r_end f) (map r_end tl)) as Hge.
  assert (Hle : foldl Z.max (r_end f) (map r_end tl) <= r_start f + cap).
  { apply foldl_max_bound; [unfold r_end; lia|].
    apply Forall_map. eapply Forall_impl; [exact Htl|]. simpl. intros; lia. }
  unfold r_end in *. lia.
Qed.

(** Every batch of the plan for a sorted list of registers no longer than
    the cap asks for at most [cap] addresses. *)
Lemma batches_within cap r0 rest :
  sorted_by_start (r0 :: rest) ->
  Forall (fun r => 0 <= r_length r <= cap) (r0 :: rest) ->
  Forall (window_within cap) (batches cap (r0 :: rest)).
Proof.
  intros Hs Hlen.
  assert (Hr0 : r_length r0 <= cap)
    by (apply Forall_cons in Hlen as [? _]; lia).
  destruct (batches_ok cap r0 rest Hr0) as [Hok _].
  pose proof (batches_concat cap (r0 :: rest)) as Hcat.
  assert (Hsorted : Forall sorted_by_start (batches cap (r0 :: rest)))
    by (apply adjacent_concat; by rewrite Hcat).
  apply Forall_forall. intros b Hb.
  rewrite Forall_forall in Hok, Hsorted.
  specialize (Hok b Hb). specialize (Hsorted b Hb).
  destruct b as [|f tl]; [done|].
  apply batch_window_within; [|done..].
  apply (proj1 (Forall_forall _ _) Hlen).
  rewrite <- Hcat. apply (elem_of_concat_elem f (f :: tl)); [by left | done].
Qed.

(** X10. The cap bounds every request of a sorted read.  For a non-empty
    list sorted ascending by start whose registers are no longer than the
    cap, every window planned by [_batch_read] holds at most [cap]
    addresses, and every request [ModbusRTUMeter._batch_read] sends to the
    driver asks for at most 125 registers ([SaiaMeter._batch_read]: 10).
    The order matters: [read(None)] hands over the catalog as declared, and
    for the unsorted list [{start:1000,len:1},{start:0,len:1}] the single
    window is (0, 1001). *)
Theorem X10_batch_requests_within_cap (r0 : register) (rest : list register) :
  sorted_by_start (r0 :: rest) ->
  (forall cap,
     Forall (fun r => 0 <= r_length r <= cap) (r0 :: rest) ->
     Forall (window_within cap) (batches cap (r0 :: rest))) /\
  (forall instr c,
     Forall (fun r => 0 <= r_length r <= 125) (r0 :: rest) ->
     Forall (request_within 125)
       (new_events c (ModbusRTUMeter._batch_read instr (r0 :: rest) c).1)) /\
  (forall instr c,
     Forall (fun r => 0 <= r_length r <= 10) (r0 :: rest) ->
     Forall (request_within 10)
       (new_events c (SaiaMeter._batch_read instr (r0 :: rest) c).1)) /\
  windows (batches 125 [reg "b" 1000 1; reg "a" 0 1]) = [Ok (0, 1001)].
Proof.
  intros Hs.
  assert (Hev : forall cap bs k,
            Forall (window_within cap) bs ->
            Forall (request_within cap) (concat (map window_event (take k bs)))).
  { intros cap bs k Hbs. apply Forall_concat, Forall_map.
    apply Forall_take. eapply Forall_impl; [exact Hbs|].
    intros b (first_reg & num_regs & Hw & Hn). unfold window_event.
    rewrite Hw. repeat constructor. by exists first_reg, num_regs. }
  split_and!.
  - intros cap. by apply batches_within.
  - intros instr c Hlen. unfold ModbusRTUMeter._batch_read.
    rewrite batch_read_plan.
    destruct (read_batches_log (ModbusRTUMeter._read_multiple instr)
                (batches 125 (r0 :: rest)) ∅ c) as (k & Hlog & _);
      [apply rtu_read_multiple_log|].
    unfold new_events. rewrite Hlog, drop_app_length.
    apply Hev. by apply batches_within.
  - intros instr c Hlen. unfold SaiaMeter._batch_read.
    rewrite batch_read_plan.
    destruct (read_batches_log (SaiaMeter._read_multiple instr)
                (batches 10 (r0 :: rest)) ∅ c) as (k & Hlog & _);
      [apply saia_read_multiple_log|].
    unfold new_events. rewrite Hlog, drop_app_length.
    apply Hev. by apply batches_within.
  - vm_compute. reflexivity.
Qed.

Lemma X10_batch_requests_within_cap_witness :
  sorted_by_start gap_example /\
  Forall (window_within 125) (batches 125 gap_example) /\
  Forall (request_within 125)
    (new_events (new_client gap_example Connected)
       (ModbusRTUMeter._batch_read zero_instrument gap_example
          (new_client gap_example Connected)).1).
Proof.
  assert (H : sorted_by_start gap_example) by (cbv - [Z.le]; lia).
  assert (Hl : Forall (fun r => 0 <= r_length r <= 125) gap_example)
    by (repeat constructor; simpl; lia).
  destruct (X10_batch_requests_within_cap (reg "a" 10 2) [reg "b" 14 2] H)
    as (Hplan & Hrtu & _).
  split_and!; [done | by apply Hplan | by apply Hrtu].
Defined.

(** ** Reading a window over TCP *)

Lemma foldl_min_lower m x l :
  m <= x -> Forall (fun y => m <= y) l -> m <= foldl Z.min x l.
Proof.
  intros Hx H. revert x Hx. induction H as [|y l Hy _ IH]; intros x Hx; simpl.
  - done.
  - apply IH. lia.
Qed.

(** The window of readable registers fits the frame and covers each of
    them. *)
Lemma tcp_window_ok self g :
  g <> [] -> Forall (tcp_readable self) g ->
  exists first_reg num_regs,
    py_min (map r_start g) = Ok first_reg /\
    py_max (map r_end g) = Ok (first_reg + num_regs) /\
    window g = Ok (first_reg, num_regs) /\
    is_word (first_reg - REG_OFFSET self) /\
    is_word num_regs /\
    Forall (fun r => first_reg <= r_start r /\ r_end r - first_reg <= num_regs) g.
Proof.
  intros Hne Hg. destruct g as [|f tl]; [done|].
  set (first_reg := foldl Z.min (r_start f) (map r_start tl)).
  set (last := foldl Z.max (r_end f) (map r_end tl)).
  assert (Hmin : forall r, r ∈ f :: tl -> first_reg <= r_start r).
  { intros r Hr. apply foldl_min_le.
    change (r_start f :: map r_start tl) with (map r_start (f :: tl)).
    apply list_elem_of_fmap. by exists r. }
  assert (Hmax : forall r, r ∈ f :: tl -> r_end r <= last).
  { intros r Hr. apply foldl_max_le.
    change (r_end f :: map r_end tl) with (map r_end (f :: tl)).
    apply list_elem_of_fmap. by exists r. }
  assert (Hlow : REG_OFFSET self <= first_reg).
  { apply foldl_min_lower.
    - apply Forall_cons in Hg as [(_ & _ & ? & _) _]. lia.
    - apply Forall_map. apply Forall_cons in Hg as [_ Hg].
      eapply Forall_impl; [exact Hg|]. by intros r (_ & _ & ? & _). }
  assert (Hhigh : last - REG_OFFSET self < 65536).
  { assert (last <= REG_OFFSET self + 65535); [|lia].
    apply foldl_max_bound.
    - apply Forall_cons in Hg as [(_ & _ & _ & ? & _) _]. lia.
    - apply Forall_map. apply Forall_cons in Hg as [_ Hg].
      eapply Forall_impl; [exact Hg|]. intros r (_ & _ & _ & ? & _).
      simpl. lia. }
  assert (Hf : first_reg <= r_start f /\ r_end f <= last /\ 0 < r_length f).
  { split_and!; [apply Hmin; by left | apply Hmax; by left |].
    apply Forall_cons in Hg as [([?|?] & _) _]; lia. }
  exists first_reg, (last - first_reg). unfold window. simpl.
  fold first_reg. fold last.
  replace (first_reg + (last - first_reg)) with last by lia.
  unfold is_word, r_end in *. split_and!; try done; try lia.
  apply Forall_forall. intros r Hr.
  specialize (Hmin r Hr). specialize (Hmax r Hr). unfold r_end in *. lia.
Qed.

Lemma tcp_convert_value_bytes self bs signed decimals :
  decimals_ok decimals ->
  Forall is_byte bs ->
  length bs = 2%nat \/ length bs = 4%nat ->
  exists v, ModbusTCPMeter._convert_value self bs signed decimals false = Ok v.
Proof.
  intros Hd Hbs Hlen. unfold ModbusTCPMeter._convert_value.
  rewrite to_bytes_ok by done. simpl.
  destruct Hlen as [Hl|Hl]; rewrite Hl; simpl;
    (rewrite struct_unpack_one by (destruct signed; simpl; lia)); simpl;
    destruct (num_in _ _); rewrite ?float_over_pow10_ok by done; by eexists.
Qed.

(** The decoder accepts every buffer of the window's size. *)
Lemma tcp_interpret_result_ok self data g first_reg num_regs :
  Forall is_byte data ->
  Z.of_nat (length data) = 2 * num_regs ->
  py_min (map r_start g) = Ok first_reg ->
  Forall (tcp_readable self) g ->
  Forall (fun r => first_reg <= r_start r /\ r_end r - first_reg <= num_regs) g ->
  exists d,
    ModbusTCPMeter._interpret_result self data g = Ok d /\ dom d = names g.
Proof.
  intros Hdata Hlen Hmin Hg Hin.
  unfold ModbusTCPMeter._interpret_result. rewrite Hmin. simpl.
  assert (Hloop : forall results,
            exists d, ModbusTCPMeter.interpret_loop self data first_reg g results
                      = Ok d).
  { clear Hmin. induction g as [|r g IH]; intros results; [by eexists|].
    apply Forall_cons in Hg as [(Hl & Hfl & _ & _ & Hd) Hg].
    apply Forall_cons in Hin as [[Hlo Hhi] Hin].
    simpl. rewrite Hfl. unfold r_end in Hhi.
    destruct (py_slice_inside is_byte data ((r_start r - first_reg) * 2)
                (r_length r * 2)) as [Hsl Hb];
      [lia | destruct Hl; lia | lia | done |].
    destruct (tcp_convert_value_bytes self _ (r_signed r) (r_decimals r) Hd Hb)
      as [v Hv].
    { rewrite Hsl. destruct Hl as [Hl|Hl]; rewrite Hl; auto. }
    rewrite Hv. simpl. by apply IH. }
  destruct (Hloop ∅) as [d Hd]. exists d. split; [done|].
  apply tcp_interpret_loop_dom in Hd. set_solver.
Qed.

Lemma tcp_convert_value_zeros self n signed decimals :
  0 ∉ NULLS self ->
  decimals_ok decimals ->
  n = 2%nat \/ n = 4%nat ->
  ModbusTCPMeter._convert_value self (replicate n 0) signed decimals false
  = Ok (VQuot (NInt 0) decimals).
Proof.
  intros Hnull Hd Hn. unfold ModbusTCPMeter._convert_value.
  assert (Hin : num_in (NInt 0) (NULLS self) = false).
  { rewrite num_in_int. by apply bool_decide_eq_false. }
  destruct Hn as [-> | ->]; destruct signed; simpl;
    unfold struct_unpack; simpl;
    (change (num_in _ (NULLS self)) with (num_in (NInt 0) (NULLS self)) ||
     idtac); rewrite ?Hin; by apply float_over_pow10_ok.
Qed.

Lemma py_slice_zeros m start len :
  0 <= start -> 0 <= len -> start + len <= Z.of_nat m ->
  py_slice (replicate m 0) start (start + len) = replicate (Z.to_nat len) 0.
Proof.
  intros Hs Hl Hin.
  destruct (py_slice_inside (eq 0) (replicate m 0) start len) as [Hlen Hz];
    [done | done | by rewrite length_replicate | |].
  { apply Forall_forall. by intros x ->%elem_of_replicate_inv. }
  symmetry. by apply replicate_as_Forall.
Qed.

(** Decoding a buffer of zeros: every register of the window reads as
    zero. *)
Lemma tcp_interpret_loop_zeros self num_regs first_reg g : forall results,
  0 ∉ NULLS self ->
  0 <= num_regs ->
  Forall (tcp_readable self) g ->
  Forall (fun r => first_reg <= r_start r /\ r_end r - first_reg <= num_regs) g ->
  exists d,
    ModbusTCPMeter.interpret_loop self (replicate (Z.to_nat (2 * num_regs)) 0)
      first_reg g results = Ok d /\
    forall name v, d !! name = Some v ->
      (exists r, r ∈ g /\ r_name r = name /\ v = zero_reading r) \/
      results !! name = Some v.
Proof.
  induction g as [|r g IH]; intros results Hnull Hnum Hg Hin.
  - exists results. split; [done|]. auto.
  - apply Forall_cons in Hg as [(Hl & Hfl & _ & _ & Hdec) Hg].
    apply Forall_cons in Hin as [[Hlo Hhi] Hin].
    simpl. rewrite Hfl. unfold r_end in Hhi.
    rewrite py_slice_zeros by (destruct Hl; lia).
    rewrite tcp_convert_value_zeros;
      [| done | done | destruct Hl as [Hl|Hl]; [left|right]; lia].
    simpl.
    destruct (IH (<[r_name r := zero_reading r]> results) Hnull Hnum Hg Hin)
      as (d & Hd & Hval).
    exists d. split.
    + rewrite <- Hd. unfold zero_reading. simpl.
      by destruct (String.eqb (r_name r) "power_factor_total").
    + intros name v Hv. destruct (Hval name v Hv) as [(r' & Hr' & ? & ?)|Hres].
      * left. exists r'. split; [by right | done].
      * destruct (decide (r_name r = name)) as [Heq|Hne].
        -- rewrite <- Heq, lookup_insert_eq in Hres. injection Hres as <-.
           left. exists r. split; [by left | done].
        -- rewrite lookup_insert_ne in Hres by done. by right.
Qed.
Lemma received_silent sock k : forall from,
  silent sock -> received sock from k = [].
Proof.
  induction k as [|k IH]; intros from Hs; [done|].
  simpl. rewrite Hs. simpl. by apply IH.
Qed.

Lemma after_polls_fields k : forall c,
  device (after_polls k c) = device c /\
  sent (after_polls k c) = sent c /\
  REGS (after_polls k c) = REGS c.
Proof.
  induction k as [|k IH]; intros c; [done|].
  simpl. by destruct (IH (incr_polls (add_event Recv (add_event Sleep c))))
    as (-> & -> & ->).
Qed.

(** One request to a silent peer: ten polls, then zeros. *)
Lemma tcp_request_silent self sock first_reg num_regs c :
  device c = Connected ->
  frames_ok self sock -> silent sock ->
  is_word (first_reg - REG_OFFSET self) -> is_word num_regs ->
  exists message,
    ModbusTCPMeter._modbus_message self sock first_reg num_regs c
    = (incr_sent c, Ok message) /\
    ModbusTCPMeter._perform_request sock message (incr_sent c)
    = (after_polls 10 (add_event (Send message) (incr_sent c)),
       Ok (replicate (Z.to_nat (2 * num_regs)) 0)).
Proof.
  intros Hdev Hfr Hs Hfirst Hnum.
  pose proof (modbus_message_ok self sock first_reg num_regs c (Hfr _)
                Hfirst Hnum) as Hm.
  set (message := bytes_of_words [randint sock (sent c); PROTOCOL_CODE self; 6]
         ++ [device_id self; FUNCTION_CODE self]
         ++ bytes_of_words [first_reg - REG_OFFSET self; num_regs]) in *.
  assert (Hlast : last_word message = Ok num_regs)
    by (by apply last_word_frame).
  exists message. split; [done|].
  rewrite (perform_request_connected _ _ num_regs) by done.
  apply (recv_loop_zeros sock 9 9 num_regs (9 + 2 * num_regs) [] 1).
  - intros j. by rewrite Hs.
  - done.
  - done.
  - intros j _. rewrite received_silent by done. cbn [app length].
    change (Z.of_nat 0) with 0. unfold int_is, is_word in *.
    destruct (Z.eqb_spec 0 (9 + 2 * num_regs)); [lia | done].
Qed.

(** The ranges of a read from a silent peer. *)
Lemma tcp_ranges_loop_silent self sock gs : forall results c,
  device c = Connected ->
  frames_ok self sock -> silent sock -> 0 ∉ NULLS self ->
  Forall (fun g => g <> []) gs ->
  Forall (Forall (tcp_readable self)) gs ->
  exists c' d,
    ModbusTCPMeter.ranges_loop self sock gs results c = (c', Ok d) /\
    polls c' = (polls c + 10 * length gs)%nat /\
    sent c' = (sent c + length gs)%nat /\
    forall name v, d !! name = Some v ->
      (exists r, r ∈ concat gs /\ r_name r = name /\ v = zero_reading r) \/
      results !! name = Some v.
Proof.
  induction gs as [|g gs IH]; intros results c Hdev Hfr Hs Hnull Hne Hread.
  - exists c, results. split_and!; [done | simpl; lia | simpl; lia | auto].
  - apply Forall_cons in Hne as [Hg Hne].
    apply Forall_cons in Hread as [Hrg Hread].
    destruct (tcp_window_ok self g Hg Hrg)
      as (first_reg & num_regs & Hmin & Hmax & _ & Hfirst & Hnum & Hin).
    destruct (tcp_request_silent self sock first_reg num_regs c)
      as (message & Hmsg & Hreq); try done.
    destruct (tcp_interpret_loop_zeros self num_regs first_reg g ∅)
      as (d1 & Hd1 & Hval1); try done.
    { unfold is_word in Hnum. lia. }
    set (c1 := after_polls 10 (add_event (Send message) (incr_sent c))) in *.
    assert (Hc1 : device c1 = Connected /\ sent c1 = S (sent c)).
    { destruct (after_polls_fields 10 (add_event (Send message) (incr_sent c)))
        as (Hd & Hse & _).
      split; [exact (eq_trans Hd Hdev) | exact Hse]. }
    destruct Hc1 as [Hc1 Hsent1].
    destruct (IH (d1 ∪ results) c1 Hc1 Hfr Hs Hnull Hne Hread)
      as (c' & d & Hrun & Hpolls & Hsent & Hval).
    exists c', d. split_and!.
    + simpl. unfold bind at 1. unfold lift at 1. rewrite Hmin.
      unfold bind at 1. unfold lift at 1. rewrite Hmax.
      replace (first_reg + num_regs - first_reg) with num_regs by lia.
      unfold bind at 1. rewrite Hmsg.
      unfold bind at 1. rewrite Hreq. fold c1.
      unfold bind at 1. unfold lift at 1.
      unfold ModbusTCPMeter._interpret_result. rewrite Hmin. simpl.
      rewrite Hd1. exact Hrun.
    + rewrite Hpolls. unfold c1. rewrite after_polls_polls. simpl. lia.
    + rewrite Hsent, Hsent1. simpl. lia.
    + intros name v Hv. destruct (Hval name v Hv) as [(r & Hr & ? & ?)|Hres].
      * left. exists r. split; [|done]. simpl. apply elem_of_app. by right.
      * apply lookup_union_Some_raw in Hres as [Hres|[_ Hres]]; [|by right].
        destruct (Hval1 name v Hres) as [(r & Hr & ? & ?)|Hres']; [|done].
        left. exists r. split; [|done]. simpl. apply elem_of_app. by left.
Qed.

Lemma split_ranges_total r0 rest :
  exists gs,
    ModbusTCPMeter._split_ranges (r0 :: rest) = Ok gs /\
    Forall (fun g => g <> []) gs /\ concat gs = r0 :: rest.
Proof.
  exists (split_loop rest (r_end r0) [r0]). split_and!.
  - apply split_ranges_cons.
  - apply range_ok_nonempty.
    by destruct (split_loop_ok rest [r0] r0) as (? & _).
  - apply split_ranges_concat, split_ranges_cons.
Qed.

Lemma Forall_concat_inv {A} (P : A -> Prop) (ls : list (list A)) :
  Forall P (concat ls) -> Forall (Forall P) ls.
Proof.
  induction ls as [|l ls IH]; simpl; [done|].
  intros [? ?]%Forall_app. constructor; auto.
Qed.

Lemma tcp_plan_spec l :
  l <> [] ->
  ModbusTCPMeter._split_ranges (sort_by_start l) = Ok (tcp_plan l) /\
  Forall (fun g => g <> []) (tcp_plan l) /\
  concat (tcp_plan l) ≡ₚ l.
Proof.
  intros Hl. unfold tcp_plan.
  destruct (sort_by_start l) as [|r0 rest] eqn:Hs.
  { pose proof (sort_by_start_perm l) as Hp. rewrite Hs in Hp.
    by apply Permutation_nil_l in Hp. }
  destruct (split_ranges_total r0 rest) as (gs & -> & Hne & Hcat).
  split_and!; [done | done |]. by rewrite Hcat, <- Hs, sort_by_start_perm.
Qed.
(** The start of a read of a non-empty selection: the list is sorted and
    split, and the ranges are requested on a client that differs from the
    caller's at most in the order of its catalog. *)
Lemma tcp_read_ranges self sock sel c :
  selected sel (REGS c) <> [] ->
  exists c0,
    device c0 = device c /\ polls c0 = polls c /\ sent c0 = sent c /\
    ModbusTCPMeter.read self sock sel c
    = match ModbusTCPMeter.ranges_loop self sock
              (tcp_plan (selected sel (REGS c))) ∅ c0 with
      | (c', Ok d) => (c', Ok (RDict d))
      | (c', Raise e) => (c', Raise e)
      end.
Proof.
  intros Hne. destruct (tcp_plan_spec _ Hne) as (Hsplit & _).
  destruct sel as [| s | regnames |]; try done; simpl in *.
  - exists (set_REGS (sort_by_start (REGS c)) c). split_and!; try done.
    unfold bind at 1. unfold ModbusTCPMeter._read_multiple.
    unfold bind at 1. simpl. unfold bind at 1. unfold lift at 1.
    rewrite Hsplit.
    by destruct (ModbusTCPMeter.ranges_loop _ _ _ _ _) as [c' [d|e]].
  - exists c. split_and!; try done.
    unfold bind at 1. unfold get_REGS at 1. unfold bind at 1.
    rewrite tcp_read_multiple_fresh, Hsplit.
    by destruct (ModbusTCPMeter.ranges_loop _ _ _ _ _) as [c' [d|e]].
Qed.

(** X11. A peer from which nothing arrives.  On a connected TCP client
    whose every [recv] returns the empty bytes, [read(None)] and
    [read(list)] of integer registers of one or two words, with decimals
    the division accepts ([-324 < decimals < 309]), raise nothing: after ten
    polls for each range they return a dict with every selected name, and
    every value in it is the reading of a register whose bytes are all
    zero, [0 / 10^decimals] ([1] for [power_factor_total]).  A meter that
    has hung up reads like a meter at rest. *)
Theorem X11_tcp_read_silent_peer (self : tcp_meter) (sock : socket)
    (sel : selector) (c : client) :
  let registers := selected sel (REGS c) in
  device c = Connected ->
  frames_ok self sock -> silent sock -> 0 ∉ NULLS self ->
  registers <> [] ->
  Forall (tcp_readable self) registers ->
  exists c' d,
    ModbusTCPMeter.read self sock sel c = (c', Ok (RDict d)) /\
    dom d = names registers /\
    (forall name v, d !! name = Some v ->
       exists r, r ∈ registers /\ r_name r = name /\ v = zero_reading r) /\
    polls c' = (polls c + 10 * length (tcp_plan registers))%nat /\
    sent c' = (sent c + length (tcp_plan registers))%nat.
Proof.
  intros registers Hdev Hfr Hs Hnull Hne Hread.
  destruct (tcp_plan_spec _ Hne) as (_ & Hgs & Hperm).
  destruct (tcp_read_ranges self sock sel c Hne)
    as (c0 & Hdev0 & Hpolls0 & Hsent0 & Hrun).
  fold registers in Hrun, Hgs, Hperm.
  destruct (tcp_ranges_loop_silent self sock (tcp_plan registers) ∅ c0)
    as (c' & d & Hloop & Hpolls & Hsent & Hval); try done.
  { by rewrite Hdev0. }
  { apply Forall_concat_inv. by rewrite Hperm. }
  exists c', d. rewrite Hrun, Hloop. split_and!.
  - done.
  - rewrite (tcp_ranges_loop_dom _ _ _ _ _ _ _ Hloop), dom_empty_L.
    rewrite (names_perm _ _ Hperm). set_solver.
  - intros name v Hv. destruct (Hval name v Hv) as [(r & Hr & ? & ?)|Hres];
      [|by rewrite lookup_empty in Hres].
    exists r. split; [|done]. by rewrite <- Hperm.
  - by rewrite Hpolls, Hpolls0.
  - by rewrite Hsent, Hsent0.
Qed.

Lemma X11_tcp_read_silent_peer_witness :
  exists c' d,
    ModbusTCPMeter.read SMAMeter.meter silent_socket SelNone
      (new_client SMAMeter_REGS Connected) = (c', Ok (RDict d)) /\
    dom d = names SMAMeter_REGS /\
    (forall name v, d !! name = Some v ->
       exists r, r ∈ SMAMeter_REGS /\ r_name r = name /\ v = zero_reading r) /\
    polls c' = (0 + 10 * length (tcp_plan SMAMeter_REGS))%nat /\
    sent c' = (0 + length (tcp_plan SMAMeter_REGS))%nat.
Proof.
  apply (X11_tcp_read_silent_peer SMAMeter.meter silent_socket SelNone
           (new_client SMAMeter_REGS Connected)).
  - reflexivity.
  - intros k. vm_compute. intuition discriminate.
  - intros k. reflexivity.
  - cbn [NULLS SMAMeter.meter]. intros H.
    repeat (apply elem_of_cons in H as [H|H]; [vm_compute in H; discriminate|]).
    by apply elem_of_nil in H.
  - discriminate.
  - repeat constructor; vm_compute; auto; discriminate.
Defined.

(** ** Decoding a window *)

Lemma py_slice_take_drop {A} (data : list A) start len :
  0 <= start -> 0 <= len -> start + len <= Z.of_nat (length data) ->
  py_slice data start (start + len)
  = take (Z.to_nat len) (drop (Z.to_nat start) data).
Proof.
  intros Hs Hl Hin. unfold py_slice, slice_bound.
  destruct (Z.ltb_spec start 0); [lia|].
  destruct (Z.ltb_spec (start + len) 0); [lia|].
  rewrite !Z.min_l by lia. f_equal. lia.
Qed.

Lemma rtu_convert_value_reading ws r :
  decimals_ok (r_decimals r) ->
  Forall is_word ws ->
  length ws = 1%nat \/ length ws = 2%nat \/ length ws = 4%nat ->
  ModbusRTUMeter._convert_value ws (r_signed r) (r_decimals r) (r_is_float r)
  = Ok (rtu_reading ws r).
Proof.
  intros Hdec Hws Hlen. unfold rtu_reading. destruct (r_is_float r) eqn:Hf.
  - destruct Hlen as [Hl|[Hl|Hl]]; rewrite Hl; simpl.
    + rewrite <- (rtu_convert_value_integer ws) by auto.
      unfold ModbusRTUMeter._convert_value. by rewrite Hl.
    + by apply rtu_convert_value_float32.
    + by apply rtu_convert_value_float64.
  - simpl. by apply rtu_convert_value_integer.
Qed.

Lemma words_at_ok data first_reg r :
  Forall is_word data ->
  first_reg <= r_start r -> 0 <= r_length r ->
  r_end r - first_reg <= Z.of_nat (length data) ->
  Forall is_word (words_at data first_reg r) /\
  length (words_at data first_reg r) = Z.to_nat (r_length r).
Proof.
  intros Hdata Hlo Hl Hhi. unfold words_at, r_end in *. split.
  - by apply Forall_take, Forall_drop.
  - rewrite length_take, length_drop. lia.
Qed.

Lemma rtu_interpret_loop_reading data first_reg regs : forall results,
  Forall is_word data ->
  Forall (fun r => rtu_readable r /\ first_reg <= r_start r /\
                   r_end r - first_reg <= Z.of_nat (length data)) regs ->
  NoDup (map r_name regs) ->
  exists d,
    ModbusRTUMeter.interpret_loop data first_reg regs results = Ok d /\
    (forall r, r ∈ regs ->
       d !! r_name r = Some (rtu_reading (words_at data first_reg r) r)) /\
    (forall name, name ∉ map r_name regs -> d !! name = results !! name).
Proof.
  induction regs as [|r regs IH]; intros results Hdata Hregs Hnd.
  - exists results. split_and!; [done | by intros r ?%elem_of_nil | done].
  - apply Forall_cons in Hregs as [([Hlen Hdec] & Hlo & Hhi) Hregs].
    apply NoDup_cons in Hnd as [Hr Hnd].
    assert (Hl : 0 <= r_length r) by (destruct Hlen as [?|[?|?]]; lia).
    destruct (words_at_ok data first_reg r Hdata Hlo Hl Hhi) as [Hws Hwl].
    destruct (IH (<[r_name r := rtu_reading (words_at data first_reg r) r]> results)
                Hdata Hregs Hnd) as (d & Hd & Hin & Hout).
    exists d. split_and!.
    + simpl. unfold r_end in Hhi. rewrite py_slice_take_drop by lia.
      fold (words_at data first_reg r).
      rewrite rtu_convert_value_reading; [done | done | done |].
      rewrite Hwl. destruct Hlen as [Hx|[Hx|Hx]]; rewrite Hx; auto.
    + intros r' [->|Hr']%elem_of_cons; [|by apply Hin].
      rewrite Hout by done. by rewrite lookup_insert_eq.
    + intros name Hname. apply not_elem_of_cons in Hname as [Hne Hname].
      rewrite Hout by done. by rewrite lookup_insert_ne.
Qed.

(** X13. Decoding a window of the serial clients.  When the driver hands
    back the words of a window, the registers of the batch have one, two or
    four words and decimals the division accepts ([-324 < decimals < 309]),
    and no two of them share a name, [_interpret_result] gives every
    register of the batch the reading of its own words, those at offset
    [start - first_reg]: the float with that bit pattern for a float
    register of two or four words, otherwise the integer scaled by
    [10^decimals], or [None] for a sentinel of [ABBMeter.NULLS]. *)
Theorem X13_rtu_window_decode (data : list Z) (regs : list register)
    (first_reg : Z) :
  Forall is_word data ->
  py_min (map r_start regs) = Ok first_reg ->
  Forall rtu_readable regs ->
  Forall (fun r => r_end r - first_reg <= Z.of_nat (length data)) regs ->
  NoDup (map r_name regs) ->
  exists d,
    ModbusRTUMeter._interpret_result data regs = Ok d /\
    dom d = names regs /\
    forall r, r ∈ regs ->
      d !! r_name r = Some (rtu_reading (words_at data first_reg r) r).
Proof.
  intros Hdata Hmin Hlen Hin Hnd.
  destruct (rtu_interpret_loop_reading data first_reg regs ∅ Hdata)
    as (d & Hd & Hval & _); [|done|].
  { apply Forall_forall. intros r Hr. split_and!.
    - by apply (proj1 (Forall_forall _ _) Hlen).
    - apply (py_min_le _ _ _ Hmin), list_elem_of_fmap. by exists r.
    - by apply (proj1 (Forall_forall _ _) Hin). }
  exists d. unfold ModbusRTUMeter._interpret_result. rewrite Hmin. simpl.
  split_and!; [done | | done].
  apply rtu_interpret_loop_dom in Hd. set_solver.
Qed.

Lemma X13_rtu_window_decode_witness :
  exists d,
    ModbusRTUMeter._interpret_result [0; 7; 65535; 65535; 16256; 0]
      [reg "a" 10 2; reg "b" 12 2;
       {| r_name := "f"; r_start := 14; r_length := 2; r_signed := false;
          r_decimals := 0; r_is_float := true |}] = Ok d /\
    dom d = names [reg "a" 10 2; reg "b" 12 2;
       {| r_name := "f"; r_start := 14; r_length := 2; r_signed := false;
          r_decimals := 0; r_is_float := true |}] /\
    forall r, r ∈ [reg "a" 10 2; reg "b" 12 2;
       {| r_name := "f"; r_start := 14; r_length := 2; r_signed := false;
          r_decimals := 0; r_is_float := true |}] ->
      d !! r_name r
      = Some (rtu_reading (words_at [0; 7; 65535; 65535; 16256; 0] 10 r) r).
Proof.
  apply (X13_rtu_window_decode [0; 7; 65535; 65535; 16256; 0] _ 10).
  - repeat (apply Forall_cons_2; [unfold is_word; lia|]). apply Forall_nil_2.
  - reflexivity.
  - repeat (apply Forall_cons_2;
              [unfold rtu_readable, word_length_ok, decimals_ok; simpl;
               split; [auto | lia]|]).
    apply Forall_nil_2.
  - repeat (apply Forall_cons_2; [vm_compute; discriminate|]). apply Forall_nil_2.
  - simpl. repeat constructor; rewrite ?elem_of_cons, ?elem_of_nil; naive_solver.
Defined.
Lemma drop_bytes_of_words n : forall ws,
  drop (2 * n) (bytes_of_words ws) = bytes_of_words (drop n ws).
Proof.
  induction n as [|n IH]; intros ws; [done|].
  destruct ws as [|w ws]; [done|].
  replace (2 * S n)%nat with (S (S (2 * n))) by lia.
  rewrite bytes_of_words_cons. simpl. apply IH.
Qed.

Lemma take_bytes_of_words n : forall ws,
  take (2 * n) (bytes_of_words ws) = bytes_of_words (take n ws).
Proof.
  induction n as [|n IH]; intros ws; [done|].
  destruct ws as [|w ws]; [done|].
  replace (2 * S n)%nat with (S (S (2 * n))) by lia.
  rewrite !bytes_of_words_cons. simpl. by rewrite IH.
Qed.

Lemma py_slice_bytes_of_words ws start len :
  0 <= start -> 0 <= len -> start + len <= Z.of_nat (length ws) ->
  py_slice (bytes_of_words ws) (start * 2) (start * 2 + len * 2)
  = bytes_of_words (take (Z.to_nat len) (drop (Z.to_nat start) ws)).
Proof.
  intros Hs Hl Hin.
  rewrite py_slice_take_drop by (rewrite ?length_bytes_of_words; lia).
  replace (Z.to_nat (start * 2)) with (2 * Z.to_nat start)%nat by lia.
  replace (Z.to_nat (len * 2)) with (2 * Z.to_nat len)%nat by lia.
  by rewrite drop_bytes_of_words, take_bytes_of_words.
Qed.

Lemma tcp_interpret_loop_reading self ws first_reg regs : forall results,
  Forall is_word ws ->
  Forall (fun r => ((r_length r = 1 \/ r_length r = 2) /\
                    r_is_float r = false /\ decimals_ok (r_decimals r)) /\
                   first_reg <= r_start r /\
                   r_end r - first_reg <= Z.of_nat (length ws)) regs ->
  NoDup (map r_name regs) ->
  exists d,
    ModbusTCPMeter.interpret_loop self (bytes_of_words ws) first_reg regs results
    = Ok d /\
    (forall r, r ∈ regs ->
       d !! r_name r = Some (tcp_reading self (words_at ws first_reg r) r)) /\
    (forall name, name ∉ map r_name regs -> d !! name = results !! name).
Proof.
  induction regs as [|r regs IH]; intros results Hdata Hregs Hnd.
  - exists results. split_and!; [done | by intros r ?%elem_of_nil | done].
  - apply Forall_cons in Hregs as [((Hlen & Hfl & Hdec) & Hlo & Hhi) Hregs].
    apply NoDup_cons in Hnd as [Hr Hnd].
    assert (Hl : 0 <= r_length r) by (destruct Hlen as [?|?]; lia).
    destruct (words_at_ok ws first_reg r Hdata Hlo Hl Hhi) as [Hws Hwl].
    destruct (IH (<[r_name r := tcp_reading self (words_at ws first_reg r) r]> results)
                Hdata Hregs Hnd) as (d & Hd & Hin & Hout).
    exists d. split_and!.
    + simpl. unfold r_end in Hhi. rewrite Hfl.
      rewrite py_slice_bytes_of_words by lia.
      fold (words_at ws first_reg r).
      rewrite tcp_convert_value_integer; [done | done | done |].
      rewrite Hwl. destruct Hlen as [Hx|Hx]; rewrite Hx; auto.
    + intros r' [->|Hr']%elem_of_cons; [|by apply Hin].
      rewrite Hout by done. by rewrite lookup_insert_eq.
    + intros name Hname. apply not_elem_of_cons in Hname as [Hne Hname].
      rewrite Hout by done. by rewrite lookup_insert_ne.
Qed.

(** X14. Decoding a window of the TCP clients.  When the payload is the
    bytes of the words of a window, the registers of the range are integer
    registers of one or two words with decimals the division accepts
    ([-324 < decimals < 309]), and no two of them share a name,
    [_interpret_result] gives every register the reading of its own words,
    those at word offset [start - first_reg] (byte offset twice that): the
    16- or 32-bit integer scaled by [10^decimals], or [None] for a sentinel
    of the meter's [NULLS]; a [power_factor_total] that reads zero is
    replaced by 1. *)
Theorem X14_tcp_window_decode (self : tcp_meter) (ws : list Z)
    (regs : list register) (first_reg : Z) :
  Forall is_word ws ->
  py_min (map r_start regs) = Ok first_reg ->
  Forall (fun r => (r_length r = 1 \/ r_length r = 2) /\ r_is_float r = false /\
                   decimals_ok (r_decimals r)) regs ->
  Forall (fun r => r_end r - first_reg <= Z.of_nat (length ws)) regs ->
  NoDup (map r_name regs) ->
  exists d,
    ModbusTCPMeter._interpret_result self (bytes_of_words ws) regs = Ok d /\
    dom d = names regs /\
    forall r, r ∈ regs ->
      d !! r_name r = Some (tcp_reading self (words_at ws first_reg r) r).
Proof.
  intros Hdata Hmin Hlen Hin Hnd.
  destruct (tcp_interpret_loop_reading self ws first_reg regs ∅ Hdata)
    as (d & Hd & Hval & _); [|done|].
  { apply Forall_forall. intros r Hr. split; [|split].
    - by apply (proj1 (Forall_forall _ _) Hlen).
    - apply (py_min_le _ _ _ Hmin), list_elem_of_fmap. by exists r.
    - by apply (proj1 (Forall_forall _ _) Hin). }
  exists d. unfold ModbusTCPMeter._interpret_result. rewrite Hmin. simpl.
  split_and!; [done | | done].
  apply tcp_interpret_loop_dom in Hd. set_solver.
Qed.

Lemma X14_tcp_window_decode_witness :
  exists d,
    ModbusTCPMeter._interpret_result SMAMeter.meter
      (bytes_of_words [0; 65535; 1; 34464])
      [sma_power_factor_total; sma_reg "active_export" 40210 2 false 3] = Ok d /\
    dom d = names [sma_power_factor_total;
                   sma_reg "active_export" 40210 2 false 3] /\
    forall r, r ∈ [sma_power_factor_total;
                   sma_reg "active_export" 40210 2 false 3] ->
      d !! r_name r
      = Some (tcp_reading SMAMeter.meter
                (words_at [0; 65535; 1; 34464] 40208 r) r).
Proof.
  apply (X14_tcp_window_decode SMAMeter.meter [0; 65535; 1; 34464] _ 40208).
  - repeat (apply Forall_cons_2; [unfold is_word; lia|]). apply Forall_nil_2.
  - reflexivity.
  - repeat (apply Forall_cons_2;
              [unfold decimals_ok; simpl; split_and!; auto; lia|]).
    apply Forall_nil_2.
  - repeat (apply Forall_cons_2; [vm_compute; discriminate|]). apply Forall_nil_2.
  - simpl. repeat constructor; rewrite ?elem_of_cons, ?elem_of_nil; naive_solver.
Defined.

(** ** Reading a meter through the serial driver *)

Lemma memory_words_ok mem address n :
  (forall a, is_word (mem a)) ->
  Forall is_word (memory_words mem address n) /\
  length (memory_words mem address n) = Z.to_nat n.
Proof.
  intros Hmem. unfold memory_words. split.
  - apply Forall_map, Forall_forall. intros i _. apply Hmem.
  - by rewrite length_map, length_seq.
Qed.

(** The words of a register, cut out of the words of a window that covers
    it. *)
Lemma words_at_memory mem first_reg n r :
  first_reg <= r_start r -> 0 <= r_length r ->
  r_end r - first_reg <= n ->
  words_at (memory_words mem first_reg n) first_reg r = words_of mem r.
Proof.
  intros Hlo Hl Hhi. unfold words_at, words_of, memory_words, r_end in *.
  rewrite <- !fmap_drop, <- !fmap_take, drop_seq, take_seq.
  replace (Z.to_nat (r_length r) `min` (Z.to_nat n - Z.to_nat (r_start r - first_reg)))%nat
    with (Z.to_nat (r_length r)) by lia.
  apply list_eq. intros i. rewrite !list_lookup_fmap.
  destruct (decide (i < Z.to_nat (r_length r))%nat) as [Hi|Hi].
  - rewrite !lookup_seq_lt by done. simpl. f_equal. f_equal. lia.
  - by rewrite !lookup_seq_ge by lia.
Qed.

(** One batch read from the meter: every register of the batch gets the
    reading of its own words. *)
Lemma rtu_read_multiple_memory instr mem b c :
  reads_memory instr mem ->
  b <> [] -> Forall rtu_readable b -> NoDup (map r_name b) ->
  exists c' d,
    ModbusRTUMeter._read_multiple instr b c = (c', Ok d) /\
    dom d = names b /\
    forall r, r ∈ b -> d !! r_name r = Some (rtu_reading (words_of mem r) r).
Proof.
  intros [Hmem Hread] Hne Hlen Hnd.
  unfold ModbusRTUMeter._read_multiple.
  destruct (py_min (map r_start b)) as [first_reg|] eqn:Hmin;
    [|by destruct b].
  destruct (py_max (map r_end b)) as [last|] eqn:Hmax; [|by destruct b].
  destruct (memory_words_ok mem first_reg (last - first_reg) Hmem)
    as [Hws Hlws].
  assert (Hin : forall r, r ∈ b ->
            rtu_readable r /\ first_reg <= r_start r /\ r_end r <= last).
  { intros r Hr. split_and!.
    - by apply (proj1 (Forall_forall _ _) Hlen).
    - apply (py_min_le _ _ _ Hmin), list_elem_of_fmap. by exists r.
    - apply (py_max_ge _ _ _ Hmax), list_elem_of_fmap. by exists r. }
  destruct (rtu_interpret_loop_reading (memory_words mem first_reg (last - first_reg))
              first_reg b ∅ Hws) as (d & Hd & Hval & _); [|done|].
  { apply Forall_forall. intros r Hr. destruct (Hin r Hr) as (? & ? & ?).
    split_and!; [done | done |]. rewrite Hlws.
    assert (0 < r_length r)
      by (destruct (proj1 (proj1 (Hin r Hr))) as [?|[?|?]]; lia).
    unfold r_end in *. lia. }
  exists (add_event (InstrReadRegisters first_reg (last - first_reg)) c), d.
  split_and!.
  - unfold bind, lift, emit. simpl. rewrite Hread. simpl.
    unfold ModbusRTUMeter._interpret_result. rewrite Hmin. simpl. by rewrite Hd.
  - apply rtu_interpret_loop_dom in Hd. set_solver.
  - intros r Hr. rewrite (Hval r Hr). destruct (Hin r Hr) as ([Hl _] & ? & ?).
    rewrite words_at_memory; [done | done | | ].
    + destruct Hl as [?|[?|?]]; lia.
    + lia.
Qed.

(** Reading the planned batches one after the other keeps every reading:
    with distinct names no batch overwrites another's. *)
Lemma read_batches_values rm (reading : register -> value) bs :
  forall results c,
  Forall (fun b => forall c, exists c' d,
            rm b c = (c', Ok d) /\ dom d = names b /\
            forall r, r ∈ b -> d !! r_name r = Some (reading r)) bs ->
  NoDup (map r_name (concat bs)) ->
  exists c' d,
    read_batches rm bs results c = (c', Ok d) /\
    (forall r, r ∈ concat bs -> d !! r_name r = Some (reading r)) /\
    (forall name, name ∉ map r_name (concat bs) -> d !! name = results !! name).
Proof.
  induction bs as [|b bs IH]; intros results c Hbs Hnd.
  - exists c, results. split_and!; [done | by intros r ?%elem_of_nil | done].
  - apply Forall_cons in Hbs as [Hb Hbs].
    simpl in Hnd. rewrite map_app in Hnd.
    apply NoDup_app in Hnd as (Hndb & Hdisj & Hndbs).
    destruct (Hb c) as (c1 & d1 & Hrun1 & Hdom1 & Hval1).
    destruct (IH (d1 ∪ results) c1 Hbs Hndbs) as (c' & d & Hrun & Hin & Hout).
    exists c', d. split_and!.
    + simpl. unfold bind. by rewrite Hrun1.
    + intros r [Hr|Hr]%elem_of_app; [|by apply Hin].
      rewrite Hout.
      * apply lookup_union_Some_l. by apply Hval1.
      * apply Hdisj, list_elem_of_fmap. by exists r.
    + intros name Hname. simpl in Hname. rewrite map_app in Hname.
      apply not_elem_of_app in Hname as [Hnb Hnbs].
      rewrite Hout by done. apply lookup_union_r.
      apply not_elem_of_dom. rewrite Hdom1. by rewrite elem_of_names.
Qed.

(** What [read] hands to [_batch_read] for [None] or a list that names a
    register: the selected registers, sorted for a list. *)
Lemma rtu_read_batch instr sel c :
  selected sel (REGS c) <> [] ->
  exists c0 l,
    l ≡ₚ selected sel (REGS c) /\
    ModbusRTUMeter.read instr sel c
    = match ModbusRTUMeter._batch_read instr l c0 with
      | (c', Ok d) => (c', Ok (RDict d))
      | (c', Raise e) => (c', Raise e)
      end.
Proof.
  intros Hne. destruct sel as [| s | regnames |]; try done; simpl in *.
  - exists c, (REGS c). split; [done|].
    unfold bind at 1. unfold get_REGS at 1. unfold bind at 1.
    by destruct (ModbusRTUMeter._batch_read _ _ _) as [c' [d|e]].
  - set (registers := filter (fun register => r_name register ∈ regnames) (REGS c))
      in *.
    exists ((if (length registers <? length regnames)%nat
             then warn_unavailable (REGS c) regnames else ret tt) c).1,
           (sort_by_start registers).
    split; [apply sort_by_start_perm|].
    unfold bind at 1. unfold get_REGS at 1. fold registers.
    unfold bind at 1.
    destruct (length registers) as [|n] eqn:Hl.
    { by destruct registers. }
    change (S n =? 0)%nat with false. cbv iota.
    assert (Hwarn : forall c, exists c1,
              (if (S n <? length regnames)%nat
               then warn_unavailable (REGS c) regnames else ret tt) c = (c1, Ok tt)).
    { intros c1. destruct (S n <? length regnames)%nat; by eexists. }
    destruct (Hwarn c) as [c1 ->]. simpl.
    unfold bind at 1.
    by destruct (ModbusRTUMeter._batch_read _ _ _) as [c' [d|e]].
Qed.

Lemma selected_sublist sel catalog : selected sel catalog `sublist_of` catalog.
Proof.
  destruct sel; simpl; try apply sublist_nil_l; [done | apply sublist_filter].
Qed.

Lemma NoDup_concat_names bs :
  NoDup (map r_name (concat bs)) -> Forall (fun b => NoDup (map r_name b)) bs.
Proof.
  induction bs as [|b bs IH]; simpl; [constructor|].
  rewrite map_app. intros (? & _ & ?)%NoDup_app. constructor; auto.
Qed.

(** X15. A batched read returns each register's own reading.  Behind a
    serial driver that hands back the words the meter holds, with a catalog
    of 1-, 2- and 4-word registers under distinct names whose decimals the
    division accepts ([-324 < decimals < 309]),
    [ModbusRTUMeter.read(None)] and [read(list)] return a dict with exactly
    the selected names, and under each name the reading of the words at that
    register's own addresses, whatever batches the read was cut into; the
    catalog is left as it was. *)
Theorem X15_rtu_read_values (instr : instrument) (mem : Z -> Z)
    (sel : selector) (c : client) :
  let registers := selected sel (REGS c) in
  reads_memory instr mem ->
  Forall rtu_readable (REGS c) ->
  NoDup (map r_name (REGS c)) ->
  registers <> [] ->
  exists c' d,
    ModbusRTUMeter.read instr sel c = (c', Ok (RDict d)) /\
    dom d = names registers /\
    (forall r, r ∈ registers ->
       d !! r_name r = Some (rtu_reading (words_of mem r) r)) /\
    REGS c' = REGS c.
Proof.
  intros registers Hinstr Hlen Hnd Hne.
  destruct (rtu_read_batch instr sel c Hne) as (c0 & l & Hperm & Hrun).
  fold registers in Hperm.
  pose proof (selected_sublist sel (REGS c)) as Hsub. fold registers in Hsub.
  assert (Hlenl : Forall rtu_readable l).
  { rewrite Hperm. apply Forall_forall. intros r Hr.
    apply (proj1 (Forall_forall _ _) Hlen).
    eapply elem_of_submseteq; [exact Hr | by apply sublist_submseteq]. }
  assert (Hndl : NoDup (map r_name l)).
  { rewrite Hperm. eapply sublist_NoDup; [exact Hnd|].
    by apply fmap_sublist. }
  destruct l as [|r0 rest].
  { apply Permutation_nil_l in Hperm. by rewrite <- Hperm in Hne. }
  assert (Hr0 : r_length r0 <= 125)
    by (apply Forall_cons in Hlenl as [[[?|[?|?]] _] _]; lia).
  destruct (batches_ok 125 r0 rest Hr0) as [Hok _].
  pose proof (batches_concat 125 (r0 :: rest)) as Hcat.
  destruct (read_batches_values (ModbusRTUMeter._read_multiple instr)
              (fun r => rtu_reading (words_of mem r) r)
              (batches 125 (r0 :: rest)) ∅ c0) as (c' & d & Hloop & Hval & _).
  { rewrite <- Hcat in Hlenl, Hndl.
    apply Forall_concat_inv in Hlenl. apply NoDup_concat_names in Hndl.
    pose proof (conj Hok (conj Hlenl Hndl)) as Hall.
    rewrite <- !Forall_and in Hall.
    eapply Forall_impl; [exact Hall|].
    intros b (Hb & Hbl & Hbn) c1.
    apply rtu_read_multiple_memory; [done | by destruct b | done | done]. }
  { by rewrite Hcat. }
  exists c', d.
  assert (Heq : ModbusRTUMeter.read instr sel c = (c', Ok (RDict d))).
  { rewrite Hrun. unfold ModbusRTUMeter._batch_read.
    by rewrite batch_read_plan, Hloop. }
  split_and!.
  - done.
  - unfold ModbusRTUMeter._batch_read in Hrun.
    rewrite <- (names_perm _ _ Hperm), <- Hcat.
    rewrite (read_batches_dom _ _ _ _ _ _ (rtu_read_multiple_dom instr) Hloop).
    set_solver.
  - intros r Hr. apply Hval. rewrite Hcat, Hperm. done.
  - pose proof (keeps_rtu_read instr sel c) as Hk. by rewrite Heq in Hk.
Qed.

Lemma X15_rtu_read_values_witness :
  exists c' d,
    ModbusRTUMeter.read counting_instrument (SelList ["c"; "a"; "zz"])
      (new_client strict_example DeviceNone) = (c', Ok (RDict d)) /\
    dom d = names (selected (SelList ["c"; "a"; "zz"]) strict_example) /\
    (forall r, r ∈ selected (SelList ["c"; "a"; "zz"]) strict_example ->
       d !! r_name r
       = Some (rtu_reading (words_of (fun a => a mod 7) r) r)) /\
    REGS c' = strict_example.
Proof.
  apply (X15_rtu_read_values counting_instrument (fun a => a mod 7)
           (SelList ["c"; "a"; "zz"]) (new_client strict_example DeviceNone)).
  - split; [|done]. intros a. unfold is_word.
    pose proof (Z.mod_pos_bound a 7). lia.
  - repeat (apply Forall_cons_2;
              [unfold rtu_readable, word_length_ok, decimals_ok; simpl;
               split; [auto | lia]|]).
    apply Forall_nil_2.
  - simpl. repeat constructor; rewrite ?elem_of_cons, ?elem_of_nil; naive_solver.
  - vm_compute. discriminate.
Defined.

(** ** Reading a meter over TCP *)

(** One request to a peer that answers with its first chunk: one poll,
    then the bytes after the header. *)
Lemma tcp_request_prompt self sock first_reg num_regs chunk c :
  device c = Connected ->
  frames_ok self sock ->
  is_word (first_reg - REG_OFFSET self) -> 0 <= num_regs <= 123 ->
  recv sock (polls c) = Ok chunk ->
  Z.of_nat (length chunk) = 9 + 2 * num_regs ->
  exists message,
    ModbusTCPMeter._modbus_message self sock first_reg num_regs c
    = (incr_sent c, Ok message) /\
    ModbusTCPMeter._perform_request sock message (incr_sent c)
    = (after_polls 1 (add_event (Send message) (incr_sent c)),
       Ok (drop 9 chunk)).
Proof.
  intros Hdev Hfr Hfirst Hnum Hrecv Hlen.
  assert (Hw : is_word num_regs) by (unfold is_word; lia).
  pose proof (modbus_message_ok self sock first_reg num_regs c (Hfr _)
                Hfirst Hw) as Hm.
  set (message := bytes_of_words [randint sock (sent c); PROTOCOL_CODE self; 6]
         ++ [device_id self; FUNCTION_CODE self]
         ++ bytes_of_words [first_reg - REG_OFFSET self; num_regs]) in *.
  assert (Hlast : last_word message = Ok num_regs)
    by (by apply last_word_frame).
  exists message. split; [done|].
  rewrite (perform_request_connected _ _ num_regs) by done.
  rewrite (recv_loop_step _ _ _ _ _ _ _ chunk); [| | done].
  - change (1 >=? 10) with false. cbn [app].
    apply recv_loop_done. rewrite Hlen. unfold int_is.
    rewrite Z.eqb_refl. simpl.
    apply andb_true_iff. split; [apply Z.leb_le | apply Z.leb_le]; lia.
  - change (Z.of_nat (length [])) with 0. unfold int_is.
    destruct (Z.eqb_spec 0 (9 + 2 * num_regs)); [lia | done].
Qed.

(** The payload of a window answered from the meter decodes to each
    register's own reading. *)
Lemma tcp_interpret_result_memory self mem g first_reg num_regs :
  (forall a, is_word (mem a)) ->
  py_min (map r_start g) = Ok first_reg ->
  0 <= num_regs ->
  Forall (tcp_readable self) g ->
  Forall (fun r => first_reg <= r_start r /\ r_end r - first_reg <= num_regs) g ->
  NoDup (map r_name g) ->
  exists d,
    ModbusTCPMeter._interpret_result self
      (bytes_of_words (memory_words mem first_reg num_regs)) g = Ok d /\
    dom d = names g /\
    forall r, r ∈ g -> d !! r_name r = Some (tcp_reading self (words_of mem r) r).
Proof.
  intros Hmem Hmin Hnum Hg Hin Hnd.
  destruct (memory_words_ok mem first_reg num_regs Hmem) as [Hws Hlws].
  assert (Hall : forall r, r ∈ g ->
            ((r_length r = 1 \/ r_length r = 2) /\ r_is_float r = false /\
             decimals_ok (r_decimals r)) /\
            first_reg <= r_start r /\ r_end r - first_reg <= num_regs).
  { intros r Hr.
    destruct (proj1 (Forall_forall _ _) Hg r Hr) as (? & ? & _ & _ & ?).
    destruct (proj1 (Forall_forall _ _) Hin r Hr) as (? & ?). done. }
  destruct (tcp_interpret_loop_reading self (memory_words mem first_reg num_regs)
              first_reg g ∅ Hws) as (d & Hd & Hval & _); [|done|].
  { apply Forall_forall. intros r Hr.
    destruct (Hall r Hr) as ((? & ? & ?) & ? & ?). split_and!; try done.
    rewrite Hlws. lia. }
  exists d. unfold ModbusTCPMeter._interpret_result. rewrite Hmin. simpl.
  split_and!; [done | |].
  - apply tcp_interpret_loop_dom in Hd. set_solver.
  - intros r Hr. rewrite (Hval r Hr). destruct (Hall r Hr) as ([Hl _] & ? & ?).
    rewrite words_at_memory; [done | done | destruct Hl; lia | done].
Qed.

(** The ranges of a read from a peer that answers each request at once
    from the meter. *)
Lemma tcp_ranges_loop_memory self sock mem gs : forall results c,
  device c = Connected ->
  frames_ok self sock ->
  (forall a, is_word (mem a)) ->
  Forall (fun g => g <> []) gs ->
  Forall (Forall (tcp_readable self)) gs ->
  Forall (window_within 123) gs ->
  answers_from_memory sock mem (polls c) gs ->
  NoDup (map r_name (concat gs)) ->
  exists c' d,
    ModbusTCPMeter.ranges_loop self sock gs results c = (c', Ok d) /\
    polls c' = (polls c + length gs)%nat /\
    sent c' = (sent c + length gs)%nat /\
    (forall r, r ∈ concat gs ->
       d !! r_name r = Some (tcp_reading self (words_of mem r) r)) /\
    (forall name, name ∉ map r_name (concat gs) -> d !! name = results !! name).
Proof.
  induction gs as [|g gs IH];
    intros results c Hdev Hfr Hmem Hne Hread Hcap Hans Hnd.
  - exists c, results.
    split_and!; [done | simpl; lia | simpl; lia | by intros r ?%elem_of_nil | done].
  - apply Forall_cons in Hne as [Hg Hne].
    apply Forall_cons in Hread as [Hrg Hread].
    apply Forall_cons in Hcap as [(f' & n' & Hw' & Hn') Hcap].
    destruct Hans as [(f'' & n'' & header & Hw'' & Hhead & Hrecv) Hans].
    simpl in Hnd. rewrite map_app in Hnd.
    apply NoDup_app in Hnd as (Hndg & Hdisj & Hndgs).
    destruct (tcp_window_ok self g Hg Hrg)
      as (first_reg & num_regs & Hmin & Hmax & Hw & Hfirst & Hnum & Hin).
    rewrite Hw in Hw', Hw''. injection Hw' as <- <-. injection Hw'' as <- <-.
    destruct (memory_words_ok mem first_reg num_regs Hmem) as [_ Hlws].
    destruct (tcp_request_prompt self sock first_reg num_regs
                (header ++ bytes_of_words (memory_words mem first_reg num_regs)) c)
      as (message & Hmsg & Hreq); try done.
    { rewrite length_app, length_bytes_of_words, Hhead, Hlws. lia. }
    rewrite drop_app_length' in Hreq by done.
    destruct (tcp_interpret_result_memory self mem g first_reg num_regs)
      as (d1 & Hd1 & Hdom1 & Hval1); try done.
    { lia. }
    set (c1 := after_polls 1 (add_event (Send message) (incr_sent c))) in *.
    assert (Hc1 : device c1 = Connected /\ sent c1 = S (sent c) /\
                  polls c1 = S (polls c)) by done.
    destruct Hc1 as (Hc1 & Hsent1 & Hpolls1).
    destruct (IH (d1 ∪ results) c1 Hc1 Hfr Hmem Hne Hread Hcap Hans Hndgs)
      as (c' & d & Hrun & Hpolls & Hsent & Hvin & Hvout).
    exists c', d. split_and!.
    + simpl. unfold bind at 1. unfold lift at 1. rewrite Hmin.
      unfold bind at 1. unfold lift at 1. rewrite Hmax.
      replace (first_reg + num_regs - first_reg) with num_regs by lia.
      unfold bind at 1. rewrite Hmsg.
      unfold bind at 1. rewrite Hreq. fold c1.
      unfold bind at 1. unfold lift at 1. rewrite Hd1. exact Hrun.
    + rewrite Hpolls, Hpolls1. simpl. lia.
    + rewrite Hsent, Hsent1. simpl. lia.
    + intros r [Hr|Hr]%elem_of_app; [|by apply Hvin].
      rewrite Hvout.
      * apply lookup_union_Some_l. by apply Hval1.
      * apply Hdisj, list_elem_of_fmap. by exists r.
    + intros name Hname. simpl in Hname. rewrite map_app in Hname.
      apply not_elem_of_app in Hname as [Hnb Hnbs].
      rewrite Hvout by done. apply lookup_union_r.
      apply not_elem_of_dom. rewrite Hdom1. by rewrite elem_of_names.
Qed.

(** X12. A read over TCP returns each register's own reading.  On a
    connected TCP client with integer registers of one or two words under
    distinct names, with decimals the division accepts
    ([-324 < decimals < 309]), when every range of the sorted selection
    spans at most 123 registers and the peer answers the request for each
    range at once
    with nine header bytes and the words the meter holds for the window,
    [read(None)] and [read(list)] return a dict with exactly the selected
    names, and under each name the reading of the words at that register's
    own addresses (with [power_factor_total] never 0): one request and one
    poll for each range, and no exception. *)
Theorem X12_tcp_read_values (self : tcp_meter) (sock : socket) (mem : Z -> Z)
    (sel : selector) (c : client) :
  let registers := selected sel (REGS c) in
  device c = Connected ->
  frames_ok self sock ->
  (forall a, is_word (mem a)) ->
  registers <> [] ->
  Forall (tcp_readable self) registers ->
  NoDup (map r_name registers) ->
  Forall (window_within 123) (tcp_plan registers) ->
  answers_from_memory sock mem (polls c) (tcp_plan registers) ->
  exists c' d,
    ModbusTCPMeter.read self sock sel c = (c', Ok (RDict d)) /\
    dom d = names registers /\
    (forall r, r ∈ registers ->
       d !! r_name r = Some (tcp_reading self (words_of mem r) r)) /\
    polls c' = (polls c + length (tcp_plan registers))%nat /\
    sent c' = (sent c + length (tcp_plan registers))%nat.
Proof.
  intros registers Hdev Hfr Hmem Hne Hread Hnd Hcap Hans.
  destruct (tcp_plan_spec _ Hne) as (_ & Hgs & Hperm).
  destruct (tcp_read_ranges self sock sel c Hne)
    as (c0 & Hdev0 & Hpolls0 & Hsent0 & Hrun).
  fold registers in Hrun, Hgs, Hperm.
  destruct (tcp_ranges_loop_memory self sock mem (tcp_plan registers) ∅ c0)
    as (c' & d & Hloop & Hpolls & Hsent & Hval & _); try done.
  { by rewrite Hdev0. }
  { apply Forall_concat_inv. by rewrite Hperm. }
  { by rewrite Hpolls0. }
  { by rewrite Hperm. }
  exists c', d. rewrite Hrun, Hloop. split_and!.
  - done.
  - rewrite (tcp_ranges_loop_dom _ _ _ _ _ _ _ Hloop), dom_empty_L.
    rewrite (names_perm _ _ Hperm). set_solver.
  - intros r Hr. apply Hval. by rewrite Hperm.
  - by rewrite Hpolls, Hpolls0.
  - by rewrite Hsent, Hsent0.
Qed.

Lemma X12_tcp_read_values_witness :
  exists c' d,
    ModbusTCPMeter.read MulticubeMeter.meter
      (memory_socket (fun a => a mod 7) (tcp_plan strict_example)) SelNone
      (new_client strict_example Connected) = (c', Ok (RDict d)) /\
    dom d = names strict_example /\
    (forall r, r ∈ strict_example ->
       d !! r_name r
       = Some (tcp_reading MulticubeMeter.meter (words_of (fun a => a mod 7) r) r)) /\
    polls c' = (0 + length (tcp_plan strict_example))%nat /\
    sent c' = (0 + length (tcp_plan strict_example))%nat.
Proof.
  apply (X12_tcp_read_values MulticubeMeter.meter
           (memory_socket (fun a => a mod 7) (tcp_plan strict_example))
           (fun a => a mod 7) SelNone (new_client strict_example Connected)).
  - reflexivity.
  - intros k. vm_compute. intuition discriminate.
  - intros a. unfold is_word. pose proof (Z.mod_pos_bound a 7). lia.
  - discriminate.
  - repeat (apply Forall_cons_2; [vm_compute; intuition discriminate|]).
    apply Forall_nil_2.
  - simpl. repeat constructor; rewrite ?elem_of_cons, ?elem_of_nil; naive_solver.
  - repeat (apply Forall_cons_2;
            [eexists _, _; split; [vm_compute; reflexivity |
                                   vm_compute; split; discriminate]|]).
    apply Forall_nil_2.
  - repeat split; eexists _, _, (replicate 9 0);
      (split; [vm_compute; reflexivity|]); split; reflexivity.
Defined.

(** ** Reading a meter over TCP, asynchronously *)

Lemma async_read_ranges self sock sel c :
  selected sel (REGS c) <> [] ->
  exists c0,
    device c0 = device c /\ polls c0 = polls c /\ sent c0 = sent c /\
    AsyncModbusTCPMeter.read self sock sel c
    = match AsyncModbusTCPMeter.ranges_loop self sock
              (tcp_plan (selected sel (REGS c))) ∅ c0 with
      | (c', Ok d) => (c', Ok (RDict d))
      | (c', Raise e) => (c', Raise e)
      end.
Proof.
  intros Hne. destruct (tcp_plan_spec _ Hne) as (Hsplit & _).
  destruct sel as [| s | regnames |]; try done; simpl in *.
  - exists (set_REGS (sort_by_start (REGS c)) c). split_and!; try done.
    unfold bind at 1. unfold AsyncModbusTCPMeter._read_multiple.
    unfold bind at 1. simpl. unfold bind at 1. unfold lift at 1.
    rewrite Hsplit.
    by destruct (AsyncModbusTCPMeter.ranges_loop _ _ _ _ _) as [c' [d|e]].
  - exists c. split_and!; try done.
    unfold bind at 1. unfold get_REGS at 1. unfold bind at 1.
    unfold AsyncModbusTCPMeter._read_multiple.
    unfold bind at 1. simpl. unfold bind at 1. unfold lift at 1.
    rewrite Hsplit.
    by destruct (AsyncModbusTCPMeter.ranges_loop _ _ _ _ _) as [c' [d|e]].
Qed.

(** The ranges of an asynchronous read from a peer that answers each
    request from the meter. *)
Lemma async_ranges_loop_memory self sock mem gs : forall results c,
  device c <> NoAttribute ->
  frames_ok self sock ->
  (forall a, is_word (mem a)) ->
  Forall (fun g => g <> []) gs ->
  Forall (Forall (tcp_readable self)) gs ->
  answers_from_memory sock mem (polls c) gs ->
  NoDup (map r_name (concat gs)) ->
  exists c' d,
    AsyncModbusTCPMeter.ranges_loop self sock gs results c = (c', Ok d) /\
    polls c' = (polls c + length gs)%nat /\
    sent c' = (sent c + length gs)%nat /\
    (forall r, r ∈ concat gs ->
       d !! r_name r = Some (tcp_reading self (words_of mem r) r)) /\
    (forall name, name ∉ map r_name (concat gs) -> d !! name = results !! name).
Proof.
  induction gs as [|g gs IH];
    intros results c Hdev Hfr Hmem Hne Hread Hans Hnd.
  - exists c, results.
    split_and!; [done | simpl; lia | simpl; lia | by intros r ?%elem_of_nil | done].
  - apply Forall_cons in Hne as [Hg Hne].
    apply Forall_cons in Hread as [Hrg Hread].
    destruct Hans as [(f'' & n'' & header & Hw'' & Hhead & Hrecv) Hans].
    simpl in Hnd. rewrite map_app in Hnd.
    apply NoDup_app in Hnd as (Hndg & Hdisj & Hndgs).
    destruct (tcp_window_ok self g Hg Hrg)
      as (first_reg & num_regs & Hmin & Hmax & Hw & Hfirst & Hnum & Hin).
    rewrite Hw in Hw''. injection Hw'' as <- <-.
    destruct (tcp_interpret_result_memory self mem g first_reg num_regs)
      as (d1 & Hd1 & Hdom1 & Hval1); try done.
    { unfold is_word in Hnum. lia. }
    assert (Hconn : exists c1,
              AsyncModbusTCPMeter.connect_if_needed c = (c1, Ok tt) /\
              device c1 = Connected /\ polls c1 = polls c /\ sent c1 = sent c).
    { unfold AsyncModbusTCPMeter.connect_if_needed, bind.
      destruct (device c) eqn:Hd; [done | |].
      - eexists. split; [reflexivity|]. done.
      - eexists. split; [reflexivity|]. done. }
    destruct Hconn as (c1 & Hconn & Hdev1 & Hpolls1 & Hsent1).
    pose proof (modbus_message_ok self sock first_reg num_regs c1 (Hfr _)
                  Hfirst Hnum) as Hm.
    set (message := bytes_of_words [randint sock (sent c1); PROTOCOL_CODE self; 6]
           ++ [device_id self; FUNCTION_CODE self]
           ++ bytes_of_words [first_reg - REG_OFFSET self; num_regs]) in *.
    set (c2 := incr_polls (add_event (ReadExactly (9 + 2 * num_regs))
                 (add_event WriterDrain (add_event (WriterWrite message)
                    (incr_sent c1))))).
    assert (Hc2 : device c2 <> NoAttribute /\ sent c2 = S (sent c) /\
                  polls c2 = S (polls c)).
    { unfold c2. simpl. rewrite Hdev1, Hsent1, Hpolls1. done. }
    destruct Hc2 as (Hc2 & Hsent2 & Hpolls2).
    rewrite <- Hpolls2 in Hans.
    destruct (IH (d1 ∪ results) c2 Hc2 Hfr Hmem Hne Hread Hans Hndgs)
      as (c' & d & Hrun & Hpolls & Hsent & Hvin & Hvout).
    exists c', d. split_and!.
    + simpl. unfold bind at 1. unfold lift at 1. rewrite Hmin.
      unfold bind at 1. unfold lift at 1. rewrite Hmax.
      replace (first_reg + num_regs - first_reg) with num_regs by lia.
      unfold bind at 1. rewrite Hconn.
      unfold bind at 1. rewrite Hm.
      unfold bind at 1. unfold emit at 1.
      unfold bind at 1. unfold emit at 1.
      unfold bind at 1. unfold AsyncModbusTCPMeter.readexactly.
      unfold bind at 1. unfold emit at 1.
      cbn [polls add_event incr_sent]. rewrite Hpolls1, Hrecv.
      fold c2. rewrite drop_app_length' by done.
      unfold bind at 1. unfold lift at 1. rewrite Hd1. exact Hrun.
    + rewrite Hpolls, Hpolls2. simpl. lia.
    + rewrite Hsent, Hsent2. simpl. lia.
    + intros r [Hr|Hr]%elem_of_app; [|by apply Hvin].
      rewrite Hvout.
      * apply lookup_union_Some_l. by apply Hval1.
      * apply Hdisj, list_elem_of_fmap. by exists r.
    + intros name Hname. simpl in Hname. rewrite map_app in Hname.
      apply not_elem_of_app in Hname as [Hnb Hnbs].
      rewrite Hvout by done. apply lookup_union_r.
      apply not_elem_of_dom. rewrite Hdom1. by rewrite elem_of_names.
Qed.

(** X16. An asynchronous read returns each register's own reading.  On an
    [AsyncModbusTCPMeter] client (connected or not yet) with integer
    registers of one or two words under distinct names, with decimals the
    division accepts ([-324 < decimals < 309]), when the peer
    answers the [readexactly] of each range of the sorted selection with
    nine header bytes and the words the meter holds for the window,
    [read(None)] and [read(iterable)] return a dict with exactly the
    selected names, and under each name the reading of the words at that
    register's own addresses; there is no limit on the size of a range. *)
Theorem X16_async_read_values (self : tcp_meter) (sock : socket) (mem : Z -> Z)
    (sel : selector) (c : client) :
  let registers := selected sel (REGS c) in
  device c <> NoAttribute ->
  frames_ok self sock ->
  (forall a, is_word (mem a)) ->
  registers <> [] ->
  Forall (tcp_readable self) registers ->
  NoDup (map r_name registers) ->
  answers_from_memory sock mem (polls c) (tcp_plan registers) ->
  exists c' d,
    AsyncModbusTCPMeter.read self sock sel c = (c', Ok (RDict d)) /\
    dom d = names registers /\
    (forall r, r ∈ registers ->
       d !! r_name r = Some (tcp_reading self (words_of mem r) r)) /\
    polls c' = (polls c + length (tcp_plan registers))%nat /\
    sent c' = (sent c + length (tcp_plan registers))%nat.
Proof.
  intros registers Hdev Hfr Hmem Hne Hread Hnd Hans.
  destruct (tcp_plan_spec _ Hne) as (_ & Hgs & Hperm).
  destruct (async_read_ranges self sock sel c Hne)
    as (c0 & Hdev0 & Hpolls0 & Hsent0 & Hrun).
  fold registers in Hrun, Hgs, Hperm.
  destruct (async_ranges_loop_memory self sock mem (tcp_plan registers) ∅ c0)
    as (c' & d & Hloop & Hpolls & Hsent & Hval & Hout); try done.
  { by rewrite Hdev0. }
  { apply Forall_concat_inv. by rewrite Hperm. }
  { by rewrite Hpolls0. }
  { by rewrite Hperm. }
  assert (Hdom : dom d = names registers).
  { apply set_eq. intros name. rewrite elem_of_names, elem_of_dom. split.
    - intros [v Hv]. destruct (decide (name ∈ map r_name registers)); [done|].
      rewrite Hout in Hv by (by rewrite Hperm). by rewrite lookup_empty in Hv.
    - intros (r & -> & Hr)%list_elem_of_fmap. eexists. apply Hval.
      by rewrite Hperm. }
  exists c', d. rewrite Hrun, Hloop. split_and!.
  - done.
  - done.
  - intros r Hr. apply Hval. by rewrite Hperm.
  - by rewrite Hpolls, Hpolls0.
  - by rewrite Hsent, Hsent0.
Qed.

Lemma X16_async_read_values_witness :
  exists c' d,
    AsyncModbusTCPMeter.read MulticubeMeter.meter
      (memory_socket (fun a => a mod 7) (tcp_plan strict_example)) SelNone
      (new_client strict_example DeviceNone) = (c', Ok (RDict d)) /\
    dom d = names strict_example /\
    (forall r, r ∈ strict_example ->
       d !! r_name r
       = Some (tcp_reading MulticubeMeter.meter (words_of (fun a => a mod 7) r) r)) /\
    polls c' = (0 + length (tcp_plan strict_example))%nat /\
    sent c' = (0 + length (tcp_plan strict_example))%nat.
Proof.
  apply (X16_async_read_values MulticubeMeter.meter
           (memory_socket (fun a => a mod 7) (tcp_plan strict_example))
           (fun a => a mod 7) SelNone (new_client strict_example DeviceNone)).
  - discriminate.
  - intros k. vm_compute. intuition discriminate.
  - intros a. unfold is_word. pose proof (Z.mod_pos_bound a 7). lia.
  - discriminate.
  - repeat (apply Forall_cons_2; [vm_compute; intuition discriminate|]).
    apply Forall_nil_2.
  - simpl. repeat constructor; rewrite ?elem_of_cons, ?elem_of_nil; naive_solver.
  - repeat split; eexists _, _, (replicate 9 0);
      (split; [vm_compute; reflexivity|]); split; reflexivity.
Defined.

(** ** The S-Bus codec *)

Lemma fold_be_bytes_4 v rest acc :
  is_dword v ->
  fold_left (fun acc b => acc * 256 + b) (be_bytes 4 v ++ rest) acc
  = fold_left (fun acc b => acc * 256 + b) rest (acc * 4294967296 + v).
Proof.
  intros Hv. unfold is_dword in Hv. simpl. f_equal.
  Z.to_euclidean_division_equations. lia.
Qed.

Lemma be_unsigned_dwords vs :
  Forall is_dword vs ->
  be_unsigned (bytes_of_dwords vs) = dwords_value vs.
Proof.
  intros H. unfold be_unsigned, dwords_value. generalize 0.
  induction H as [|v vs Hv _ IH]; intros acc; [done|].
  change (bytes_of_dwords (v :: vs)) with (be_bytes 4 v ++ bytes_of_dwords vs).
  rewrite (fold_be_bytes_4 v _ acc Hv). apply IH.
Qed.

Lemma dwords_value_range vs :
  Forall is_dword vs -> 0 <= dwords_value vs < 2 ^ (32 * Z.of_nat (length vs)).
Proof.
  intros H. unfold dwords_value.
  assert (Hgen : forall acc n, 0 <= acc < 2 ^ (32 * Z.of_nat n) ->
            0 <= fold_left (fun acc v => acc * 4294967296 + v) vs acc
            < 2 ^ (32 * Z.of_nat (n + length vs))).
  { induction H as [|v vs Hv _ IH]; intros acc n Hacc.
    - by rewrite Nat.add_0_r.
    - simpl. replace (n + S (length vs))%nat with (S n + length vs)%nat by lia.
      apply IH. unfold is_dword in Hv.
      replace (32 * Z.of_nat (S n)) with (32 * Z.of_nat n + 32) by lia.
      rewrite Z.pow_add_r by lia. change (2 ^ 32) with 4294967296. nia. }
  apply (Hgen 0 0%nat). simpl. lia.
Qed.

Lemma saia_pack vs :
  Forall is_dword vs ->
  struct_pack (replicate (length vs) FL) vs = Ok (bytes_of_dwords vs).
Proof.
  intros H. unfold struct_pack. rewrite length_replicate, Nat.eqb_refl. simpl.
  assert (Hacc : forallb (fun cv => code_accepts cv.1 cv.2)
                   (zip (replicate (length vs) FL) vs) = true).
  { induction H as [|v vs Hv _ IH]; [done|]. simpl. rewrite IH.
    unfold is_dword in Hv. rewrite andb_true_r.
    apply andb_true_iff. split; [apply Z.leb_le | apply Z.ltb_lt]; simpl; lia. }
  rewrite Hacc. f_equal. clear Hacc.
  induction H as [|v vs Hv _ IH]; [done|].
  change (bytes_of_dwords (v :: vs)) with (be_bytes 4 v ++ bytes_of_dwords vs).
  rewrite <- IH. unfold is_dword in Hv.
  change (pack_items (replicate (length (v :: vs)) FL) (v :: vs))
    with (be_bytes 4 (v mod 2 ^ 32) ++ pack_items (replicate (length vs) FL) vs).
  by rewrite Z.mod_small by (change (2 ^ 32) with 4294967296; lia).
Qed.

Lemma length_dword_bytes vs :
  length (bytes_of_dwords vs) = (4 * length vs)%nat.
Proof.
  induction vs as [|v vs IH]; [done|].
  change (bytes_of_dwords (v :: vs)) with (be_bytes 4 v ++ bytes_of_dwords vs).
  rewrite length_app, IH. simpl. lia.
Qed.

Lemma saia_convert_value_result vs signed decimals :
  Forall is_dword vs ->
  length vs = 1%nat \/ length vs = 2%nat ->
  SaiaMeter._convert_value vs signed decimals
  = float_over_pow10 (NInt (raw_integer32 vs signed)) decimals.
Proof.
  intros Hvs Hlen.
  pose proof (saia_pack vs Hvs) as Hpack.
  pose proof (length_dword_bytes vs) as Hbytes.
  pose proof (be_unsigned_dwords vs Hvs) as Hu.
  pose proof (dwords_value_range vs Hvs) as Hrange.
  unfold SaiaMeter._convert_value.
  assert (Hs : be_signed (bytes_of_dwords vs) = raw_integer32 vs true).
  { unfold be_signed, raw_integer32. rewrite Hu, Hbytes.
    replace (8 * Z.of_nat (4 * length vs)) with (32 * Z.of_nat (length vs)) by lia.
    simpl andb.
    destruct (Z.ltb_spec (dwords_value vs) (2 ^ (32 * Z.of_nat (length vs) - 1)));
      destruct (Z.leb_spec (2 ^ (32 * Z.of_nat (length vs) - 1)) (dwords_value vs));
      done || lia. }
  destruct Hlen as [Hl|Hl]; rewrite Hl in *; simpl in Hpack |- *;
    rewrite Hpack; simpl;
    (rewrite struct_unpack_one by (rewrite Hbytes; by destruct signed));
    simpl; destruct signed; simpl; by rewrite ?Hs, ?Hu.
Qed.

Lemma saia_convert_value_integer vs signed decimals :
  decimals_ok decimals ->
  Forall is_dword vs ->
  length vs = 1%nat \/ length vs = 2%nat ->
  SaiaMeter._convert_value vs signed decimals
  = Ok (VQuot (NInt (raw_integer32 vs signed)) decimals).
Proof.
  intros Hd Hvs Hlen.
  by rewrite saia_convert_value_result, float_over_pow10_ok.
Qed.

(** X17. The S-Bus codec.  [SaiaMeter._convert_value] packs one 32-bit
    value into a 32-bit integer and two into a 64-bit integer, signed or
    not, and returns it divided by [10^decimals] when
    [-324 < decimals < 309]: no value is ever reported as absent.  For
    larger decimals the division raises [OverflowError], for smaller ones
    [ZeroDivisionError].  Given three values or more (the four of the
    [length == 4] branch of [_read_single]) it raises [struct.error]; given
    none, [IndexError]. *)
Theorem X17_saia_integer_decode (vs : list Z) (signed : bool) (decimals : Z) :
  Forall is_dword vs ->
  (length vs = 1%nat \/ length vs = 2%nat ->
   (decimals_ok decimals ->
    SaiaMeter._convert_value vs signed decimals
    = Ok (VQuot (NInt (raw_integer32 vs signed)) decimals)) /\
   (309 <= decimals ->
    SaiaMeter._convert_value vs signed decimals = Raise OverflowError) /\
   (decimals <= -324 ->
    SaiaMeter._convert_value vs signed decimals = Raise ZeroDivisionError) /\
   in_int_range (32 * Z.of_nat (length vs)) signed (raw_integer32 vs signed)) /\
  ((3 <= length vs)%nat ->
   SaiaMeter._convert_value vs signed decimals = Raise StructError) /\
  (vs = [] -> SaiaMeter._convert_value vs signed decimals = Raise IndexError).
Proof.
  intros Hvs. split_and!.
  - intros Hlen. split_and!.
    + intros Hd. by apply saia_convert_value_integer.
    + intros Hd. rewrite saia_convert_value_result by done.
      by apply float_over_pow10_overflow.
    + intros Hd. rewrite saia_convert_value_result by done.
      by apply float_over_pow10_zero.
    + pose proof (dwords_value_range vs Hvs) as Hrange.
      unfold in_int_range, raw_integer32.
      assert (Hpow : 2 ^ (32 * Z.of_nat (length vs))
                     = 2 * 2 ^ (32 * Z.of_nat (length vs) - 1)).
      { rewrite <- Z.pow_succ_r by (destruct Hlen as [Hl|Hl]; rewrite Hl; lia).
        f_equal. lia. }
      destruct signed; simpl; [|done].
      destruct (Z.leb_spec (2 ^ (32 * Z.of_nat (length vs) - 1))
                  (dwords_value vs)); lia.
  - intros Hlen. destruct vs as [|a [|b [|c vs]]]; simpl in Hlen; try lia. done.
  - by intros ->.
Qed.

Lemma X17_saia_integer_decode_witness :
  Forall is_dword [4294967295] /\
  decimals_ok 2 /\
  SaiaMeter._convert_value [4294967295] true 2 = Ok (VQuot (NInt (-1)) 2) /\
  SaiaMeter._convert_value [4294967295] true 309 = Raise OverflowError /\
  SaiaMeter._convert_value [4294967295] true (-324) = Raise ZeroDivisionError /\
  SaiaMeter._convert_value [1; 2; 3] false 2 = Raise StructError /\
  SaiaMeter._convert_value [] false 2 = Raise IndexError.
Proof.
  assert (H1 : Forall is_dword [4294967295])
    by (repeat (apply Forall_cons_2; [unfold is_dword; lia|]);
        apply Forall_nil_2).
  assert (H3 : Forall is_dword [1; 2; 3])
    by (repeat (apply Forall_cons_2; [unfold is_dword; lia|]);
        apply Forall_nil_2).
  assert (Hd : decimals_ok 2) by (unfold decimals_ok; lia).
  assert (Hl : length [4294967295] = 1%nat \/ length [4294967295] = 2%nat)
    by (by left).
  destruct (X17_saia_integer_decode [4294967295] true 2 H1) as (Ha & _).
  destruct (Ha Hl) as (Ha' & _).
  destruct (X17_saia_integer_decode [4294967295] true 309 H1) as (Hb & _).
  destruct (Hb Hl) as (_ & Hb' & _).
  destruct (X17_saia_integer_decode [4294967295] true (-324) H1) as (Hc & _).
  destruct (Hc Hl) as (_ & _ & Hc' & _).
  destruct (X17_saia_integer_decode [1; 2; 3] false 2 H3) as (_ & He & _).
  destruct (X17_saia_integer_decode [] false 2 (Forall_nil_2 _)) as (_ & _ & Hf).
  split_and!; [done | done | exact (Ha' Hd) | | | | by apply Hf].
  - apply Hb'. lia.
  - apply Hc'. lia.
  - apply He. simpl. lia.
Defined.

(** ** Reading an S-Bus meter *)

Lemma memory_dwords_ok mem address n :
  (forall a, is_dword (mem a)) ->
  Forall is_dword (memory_words mem address n) /\
  length (memory_words mem address n) = Z.to_nat n.
Proof.
  intros Hmem. unfold memory_words. split.
  - apply Forall_map, Forall_forall. intros i _. apply Hmem.
  - by rewrite length_map, length_seq.
Qed.

Lemma saia_interpret_loop_reading data first_reg regs : forall results,
  Forall is_dword data ->
  Forall (fun r => saia_readable r /\ first_reg <= r_start r /\
                   r_end r - first_reg <= Z.of_nat (length data)) regs ->
  NoDup (map r_name regs) ->
  exists d,
    SaiaMeter.interpret_loop data first_reg regs results = Ok d /\
    (forall r, r ∈ regs ->
       d !! r_name r = Some (saia_reading (words_at data first_reg r) r)) /\
    (forall name, name ∉ map r_name regs -> d !! name = results !! name).
Proof.
  induction regs as [|r regs IH]; intros results Hdata Hregs Hnd.
  - exists results. split_and!; [done | by intros r ?%elem_of_nil | done].
  - apply Forall_cons in Hregs as [([Hlen Hdec] & Hlo & Hhi) Hregs].
    apply NoDup_cons in Hnd as [Hr Hnd].
    assert (Hl : 0 <= r_length r) by (destruct Hlen as [?|?]; lia).
    assert (Hws : Forall is_dword (words_at data first_reg r))
      by (by apply Forall_take, Forall_drop).
    assert (Hwl : length (words_at data first_reg r) = Z.to_nat (r_length r)).
    { unfold words_at, r_end in *. rewrite length_take, length_drop. lia. }
    destruct (IH (<[r_name r := saia_reading (words_at data first_reg r) r]> results)
                Hdata Hregs Hnd) as (d & Hd & Hin & Hout).
    exists d. split_and!.
    + simpl. unfold r_end in Hhi. rewrite py_slice_take_drop by lia.
      fold (words_at data first_reg r).
      rewrite saia_convert_value_integer; [done | done | done |].
      rewrite Hwl. destruct Hlen as [Hx|Hx]; rewrite Hx; auto.
    + intros r' [->|Hr']%elem_of_cons; [|by apply Hin].
      rewrite Hout by done. by rewrite lookup_insert_eq.
    + intros name Hname. apply not_elem_of_cons in Hname as [Hne Hname].
      rewrite Hout by done. by rewrite lookup_insert_ne.
Qed.

Lemma saia_read_multiple_memory instr mem b c :
  saia_reads_memory instr mem ->
  b <> [] -> Forall saia_readable b ->
  NoDup (map r_name b) ->
  exists c' d,
    SaiaMeter._read_multiple instr b c = (c', Ok d) /\
    dom d = names b /\
    forall r, r ∈ b -> d !! r_name r = Some (saia_reading (words_of mem r) r).
Proof.
  intros [Hmem Hread] Hne Hlen Hnd.
  unfold SaiaMeter._read_multiple.
  destruct (py_min (map r_start b)) as [first_reg|] eqn:Hmin;
    [|by destruct b].
  destruct (py_max (map r_end b)) as [last|] eqn:Hmax; [|by destruct b].
  destruct (memory_dwords_ok mem first_reg (last - first_reg) Hmem)
    as [Hws Hlws].
  assert (Hin : forall r, r ∈ b ->
            saia_readable r /\ first_reg <= r_start r /\ r_end r <= last).
  { intros r Hr. split_and!.
    - by apply (proj1 (Forall_forall _ _) Hlen).
    - apply (py_min_le _ _ _ Hmin), list_elem_of_fmap. by exists r.
    - apply (py_max_ge _ _ _ Hmax), list_elem_of_fmap. by exists r. }
  destruct (saia_interpret_loop_reading (memory_words mem first_reg (last - first_reg))
              first_reg b ∅ Hws) as (d & Hd & Hval & _); [|done|].
  { apply Forall_forall. intros r Hr. destruct (Hin r Hr) as (Hl & ? & ?).
    split_and!; [done | done |]. rewrite Hlws.
    assert (0 < r_length r) by (destruct (proj1 Hl) as [?|?]; lia).
    unfold r_end in *. lia. }
  exists (add_event (InstrReadRegisters first_reg (last - first_reg)) c), d.
  split_and!.
  - unfold bind, lift, emit. simpl. rewrite Hread. simpl.
    unfold SaiaMeter._interpret_result. rewrite Hmin. simpl. by rewrite Hd.
  - apply saia_interpret_loop_dom in Hd. set_solver.
  - intros r Hr. rewrite (Hval r Hr). destruct (Hin r Hr) as ([Hl _] & ? & ?).
    rewrite words_at_memory; [done | done | | ].
    + destruct Hl as [?|?]; lia.
    + lia.
Qed.

Lemma saia_read_batch instr sel c :
  selected sel (REGS c) <> [] ->
  exists c0 l,
    l ≡ₚ selected sel (REGS c) /\
    SaiaMeter.read instr sel c
    = match SaiaMeter._batch_read instr l c0 with
      | (c', Ok d) => (c', Ok (RDict d))
      | (c', Raise e) => (c', Raise e)
      end.
Proof.
  intros Hne. destruct sel as [| s | regnames |]; try done; simpl in *.
  - exists c, (REGS c). split; [done|].
    unfold bind at 1. unfold get_REGS at 1. unfold bind at 1.
    by destruct (SaiaMeter._batch_read _ _ _) as [c' [d|e]].
  - set (registers := filter (fun register => r_name register ∈ regnames) (REGS c))
      in *.
    exists ((if (length registers <? length regnames)%nat
             then warn_unavailable (REGS c) regnames else ret tt) c).1,
           (sort_by_start registers).
    split; [apply sort_by_start_perm|].
    unfold bind at 1. unfold get_REGS at 1. fold registers.
    unfold bind at 1.
    destruct (length registers) as [|n] eqn:Hl.
    { by destruct registers. }
    change (S n =? 0)%nat with false. cbv iota.
    assert (Hwarn : forall c, exists c1,
              (if (S n <? length regnames)%nat
               then warn_unavailable (REGS c) regnames else ret tt) c = (c1, Ok tt)).
    { intros c1. destruct (S n <? length regnames)%nat; by eexists. }
    destruct (Hwarn c) as [c1 ->]. simpl.
    unfold bind at 1.
    by destruct (SaiaMeter._batch_read _ _ _) as [c' [d|e]].
Qed.

(** X18. A batched S-Bus read returns each register's own reading.  Behind
    an S-Bus driver that hands back the 32-bit values the meter holds, with
    a catalog of registers of length 1 and 2 under distinct names whose
    decimals the division accepts ([-324 < decimals < 309]),
    [SaiaMeter.read(None)] and [read(list)] return a dict with exactly the
    selected names, and under each name the 32- or 64-bit integer at that
    register's own addresses divided by [10^decimals], whatever batches
    the read was cut into; the catalog is left as it was. *)
Theorem X18_saia_read_values (instr : instrument) (mem : Z -> Z)
    (sel : selector) (c : client) :
  let registers := selected sel (REGS c) in
  saia_reads_memory instr mem ->
  Forall saia_readable (REGS c) ->
  NoDup (map r_name (REGS c)) ->
  registers <> [] ->
  exists c' d,
    SaiaMeter.read instr sel c = (c', Ok (RDict d)) /\
    dom d = names registers /\
    (forall r, r ∈ registers ->
       d !! r_name r = Some (saia_reading (words_of mem r) r)) /\
    REGS c' = REGS c.
Proof.
  intros registers Hinstr Hlen Hnd Hne.
  destruct (saia_read_batch instr sel c Hne) as (c0 & l & Hperm & Hrun).
  fold registers in Hperm.
  pose proof (selected_sublist sel (REGS c)) as Hsub. fold registers in Hsub.
  assert (Hlenl : Forall saia_readable l).
  { rewrite Hperm. apply Forall_forall. intros r Hr.
    apply (proj1 (Forall_forall _ _) Hlen).
    eapply elem_of_submseteq; [exact Hr | by apply sublist_submseteq]. }
  assert (Hndl : NoDup (map r_name l)).
  { rewrite Hperm. eapply sublist_NoDup; [exact Hnd|].
    by apply fmap_sublist. }
  destruct l as [|r0 rest].
  { apply Permutation_nil_l in Hperm. by rewrite <- Hperm in Hne. }
  assert (Hr0 : r_length r0 <= 10)
    by (apply Forall_cons in Hlenl as [[[?|?] _] _]; lia).
  destruct (batches_ok 10 r0 rest Hr0) as [Hok _].
  pose proof (batches_concat 10 (r0 :: rest)) as Hcat.
  destruct (read_batches_values (SaiaMeter._read_multiple instr)
              (fun r => saia_reading (words_of mem r) r)
              (batches 10 (r0 :: rest)) ∅ c0) as (c' & d & Hloop & Hval & _).
  { rewrite <- Hcat in Hlenl, Hndl.
    apply Forall_concat_inv in Hlenl. apply NoDup_concat_names in Hndl.
    pose proof (conj Hok (conj Hlenl Hndl)) as Hall.
    rewrite <- !Forall_and in Hall.
    eapply Forall_impl; [exact Hall|].
    intros b (Hb & Hbl & Hbn) c1.
    apply saia_read_multiple_memory; [done | by destruct b | done | done]. }
  { by rewrite Hcat. }
  exists c', d.
  assert (Heq : SaiaMeter.read instr sel c = (c', Ok (RDict d))).
  { rewrite Hrun. unfold SaiaMeter._batch_read.
    by rewrite batch_read_plan, Hloop. }
  split_and!.
  - done.
  - rewrite <- (names_perm _ _ Hperm), <- Hcat.
    rewrite (read_batches_dom _ _ _ _ _ _ (saia_read_multiple_dom instr) Hloop).
    set_solver.
  - intros r Hr. apply Hval. rewrite Hcat, Hperm. done.
  - pose proof (keeps_saia_read instr sel c) as Hk. by rewrite Heq in Hk.
Qed.

Lemma X18_saia_read_values_witness :
  exists c' d,
    SaiaMeter.read counting_instrument SelNone
      (new_client strict_example DeviceNone) = (c', Ok (RDict d)) /\
    dom d = names (selected SelNone strict_example) /\
    (forall r, r ∈ selected SelNone strict_example ->
       d !! r_name r
       = Some (saia_reading (words_of (fun a => a mod 7) r) r)) /\
    REGS c' = strict_example.
Proof.
  apply (X18_saia_read_values counting_instrument (fun a => a mod 7)
           SelNone (new_client strict_example DeviceNone)).
  - split; [|done]. intros a. unfold is_dword.
    pose proof (Z.mod_pos_bound a 7). lia.
  - repeat (apply Forall_cons_2;
              [unfold saia_readable, decimals_ok; simpl; split; [auto | lia]|]).
    apply Forall_nil_2.
  - simpl. repeat constructor; rewrite ?elem_of_cons, ?elem_of_nil; naive_solver.
  - discriminate.
Defined.

(** ** One name, asked for alone or in a list *)

Lemma filter_name_unique (l : list register) r :
  NoDup (map r_name l) -> r ∈ l ->
  filter (fun x => r_name x = r_name r) l = [r].
Proof.
  induction l as [|x l IH]; intros Hnd Hr; [by apply elem_of_nil in Hr|].
  simpl in Hnd. apply NoDup_cons in Hnd as [Hx Hnd].
  apply elem_of_cons in Hr as [->|Hr].
  - rewrite filter_cons_True by done. f_equal.
    apply (filter_none (fun y => r_name y = r_name x)).
    apply Forall_forall. intros y Hy Heq. apply Hx. rewrite <- Heq. apply list_elem_of_fmap.
    by exists y.
  - rewrite filter_cons_False; [by apply IH|].
    intros Heq. apply Hx. rewrite Heq. apply list_elem_of_fmap. by exists r.
Qed.

Lemma filter_names_singleton (l : list register) r :
  NoDup (map r_name l) -> r ∈ l ->
  filter (fun x => r_name x ∈ [r_name r]) l = [r].
Proof.
  intros Hnd Hr. rewrite <- (filter_name_unique l r Hnd Hr).
  apply list_filter_iff. intros x. rewrite elem_of_cons, elem_of_nil. naive_solver.
Qed.
(** The plan for a single register of at most [cap] words: one batch. *)
Lemma batches_singleton cap r :
  r_length r <= cap -> batches cap [r] = [[r]].
Proof.
  intros Hlen. unfold batches. simpl.
  by replace (r_start r + r_length r - r_start r <=? cap) with true
    by (symmetry; apply Z.leb_le; lia).
Qed.

(** X19. A sentinel survives a read by name.  [ModbusRTUMeter.read] of
    the name of a two-word integer register goes through [read_long] and
    divides by [10^decimals] without looking at [NULLS]: when the
    register's decimals are ones the division accepts
    ([-324 < decimals < 309]) and the meter holds a null sentinel
    (0xFFFFFFFF, say) there, [read(name)] returns the sentinel scaled as if
    it were a measurement, while [read([name])] returns [None] under that
    name. *)
Theorem X19_rtu_read_name_keeps_sentinel (instr : instrument) (mem : Z -> Z)
    (c : client) (r : register) :
  let raw := raw_integer (words_of mem r) (r_signed r) in
  reads_memory instr mem ->
  read_long instr (r_start r) (r_signed r) = Ok raw ->
  NoDup (map r_name (REGS c)) -> r ∈ REGS c ->
  r_length r = 2 -> r_is_float r = false ->
  decimals_ok (r_decimals r) ->
  raw ∈ ABBMeter.NULLS ->
  (exists c',
     ModbusRTUMeter.read instr (SelStr (r_name r)) c
     = (c', Ok (RVal (VQuot (NInt raw) (r_decimals r))))) /\
  (exists c' d,
     ModbusRTUMeter.read instr (SelList [r_name r]) c = (c', Ok (RDict d)) /\
     d !! r_name r = Some VNone).
Proof.
  intros raw Hinstr Hlong Hnd Hr Hlen Hfl Hdec Hnull. split.
  - eexists. unfold ModbusRTUMeter.read.
    unfold bind at 1. unfold get_REGS at 1.
    rewrite (filter_name_unique _ r Hnd Hr).
    unfold ModbusRTUMeter._read_single. rewrite Hlen, Hfl. simpl.
    unfold bind, emit, lift. simpl. rewrite Hlong.
    rewrite int_over_pow10_ok by (unfold decimals_ok in Hdec; lia).
    reflexivity.
  - assert (Hsel : selected (SelList [r_name r]) (REGS c) = [r])
      by (by apply filter_names_singleton).
    destruct (rtu_read_batch instr (SelList [r_name r]) c) as (c0 & l & Hperm & Hrun).
    { by rewrite Hsel. }
    rewrite Hsel in Hperm. apply Permutation_singleton_r in Hperm as ->.
    destruct (rtu_read_multiple_memory instr mem [r] c0 Hinstr)
      as (c' & d & Hd & _ & Hval).
    { done. }
    { apply Forall_cons_2; [|apply Forall_nil_2].
      split; [unfold word_length_ok; lia | done]. }
    { repeat constructor. by intros ?%elem_of_nil. }
    exists c', (d ∪ ∅). split.
    + rewrite Hrun. unfold ModbusRTUMeter._batch_read.
      rewrite batch_read_plan, batches_singleton by lia.
      simpl. unfold bind at 1. by rewrite Hd.
    + apply lookup_union_Some_l. rewrite Hval by (by left).
      unfold rtu_reading. rewrite Hfl. simpl. unfold scaled.
      by rewrite bool_decide_eq_true_2.
Qed.

Lemma X19_rtu_read_name_keeps_sentinel_witness :
  (exists c',
     ModbusRTUMeter.read saturated_instrument (SelStr "a")
       (new_client gap_example DeviceNone)
     = (c', Ok (RVal (VQuot (NInt 4294967295) 0)))) /\
  (exists c' d,
     ModbusRTUMeter.read saturated_instrument (SelList ["a"])
       (new_client gap_example DeviceNone) = (c', Ok (RDict d)) /\
     d !! "a" = Some VNone).
Proof.
  apply (X19_rtu_read_name_keeps_sentinel saturated_instrument (fun _ => 65535)
           (new_client gap_example DeviceNone) (reg "a" 10 2)).
  - split; [|done]. intros _. unfold is_word. lia.
  - reflexivity.
  - simpl. repeat constructor; rewrite ?elem_of_cons, ?elem_of_nil; naive_solver.
  - by left.
  - reflexivity.
  - reflexivity.
  - unfold decimals_ok. simpl. lia.
  - change (4294967295 ∈ map (fun n => 2 ^ n - 1) [64; 63; 32; 31; 16; 15]).
    cbn [map]. rewrite !elem_of_cons. right. right. left. reflexivity.
Defined.

Lemma tcp_plan_singleton r : tcp_plan [r] = [[r]].
Proof.
  unfold tcp_plan. change (sort_by_start [r]) with [r].
  by rewrite split_ranges_cons.
Qed.

(** X20. The power factor read by name is not the one read in a list.  On
    a connected TCP client whose peer answers at once with nine header
    bytes and the words the meter holds for the register, [read(name)] of
    an integer register of one or two words, with decimals the division
    accepts ([-324 < decimals < 309]), returns the integer scaled by
    [10^decimals] ([None] for a sentinel) and nothing else is applied,
    while [read([name])] applies the power-factor replacement: for
    [power_factor_total] at zero the first returns 0 and the second 1. *)
Theorem X20_tcp_read_name (self : tcp_meter) (sock : socket) (mem : Z -> Z)
    (c : client) (r : register) (header : list Z) :
  let raw := raw_integer (words_of mem r) (r_signed r) in
  device c = Connected ->
  frames_ok self sock ->
  (forall a, is_word (mem a)) ->
  NoDup (map r_name (REGS c)) -> r ∈ REGS c ->
  tcp_readable self r ->
  length header = 9%nat ->
  recv sock (polls c) = Ok (header ++ bytes_of_words (words_of mem r)) ->
  (exists c',
     ModbusTCPMeter.read self sock (SelStr (r_name r)) c
     = (c', Ok (RVal (scaled (NULLS self) raw (r_decimals r))))) /\
  (exists c' d,
     ModbusTCPMeter.read self sock (SelList [r_name r]) c = (c', Ok (RDict d)) /\
     d !! r_name r = Some (tcp_reading self (words_of mem r) r)) /\
  (r_name r = "power_factor_total" -> raw = 0 -> 0 ∉ NULLS self ->
   scaled (NULLS self) raw (r_decimals r) = VQuot (NInt 0) (r_decimals r) /\
   tcp_reading self (words_of mem r) r = VNum (NInt 1)).
Proof.
  intros raw Hdev Hfr Hmem Hnd Hr Hread Hhead Hrecv.
  pose proof Hread as (Hlen & Hfl & Hlo & Hhi & Hdec).
  assert (Hl : 0 <= r_length r <= 123) by (destruct Hlen; lia).
  destruct (memory_words_ok mem (r_start r) (r_length r) Hmem) as [Hws Hlws].
  fold (words_of mem r) in Hws, Hlws.
  assert (Hwl : length (words_of mem r) = 1%nat \/ length (words_of mem r) = 2%nat).
  { rewrite Hlws. destruct Hlen as [Hx|Hx]; rewrite Hx; auto. }
  split_and!.
  - destruct (tcp_request_prompt self sock (r_start r) (r_length r)
                (header ++ bytes_of_words (words_of mem r)) c)
      as (message & Hmsg & Hreq); try done.
    { unfold is_word, r_end in *. lia. }
    { rewrite length_app, length_bytes_of_words, Hhead, Hlws. lia. }
    rewrite drop_app_length' in Hreq by done.
    eexists. unfold ModbusTCPMeter.read.
    unfold bind at 1. unfold get_REGS at 1.
    rewrite (filter_name_unique _ r Hnd Hr).
    unfold bind at 1. unfold ModbusTCPMeter._read_single.
    unfold bind at 1. rewrite Hmsg.
    unfold bind at 1. rewrite Hreq.
    unfold lift at 1. rewrite tcp_convert_value_integer by done.
    reflexivity.
  - assert (Hsel : selected (SelList [r_name r]) (REGS c) = [r])
      by (by apply filter_names_singleton).
    destruct (tcp_read_ranges self sock (SelList [r_name r]) c)
      as (c0 & Hdev0 & Hpolls0 & _ & Hrun).
    { by rewrite Hsel. }
    rewrite Hsel, tcp_plan_singleton in Hrun.
    assert (Hw : window [r] = Ok (r_start r, r_length r)).
    { unfold window. simpl. unfold r_end. f_equal. f_equal. lia. }
    assert (Hc0 : device c0 = Connected) by (by rewrite Hdev0).
    assert (Hne : Forall (fun g : list register => g <> []) [[r]])
      by (by apply Forall_cons_2; [|apply Forall_nil_2]).
    assert (Hrd : Forall (Forall (tcp_readable self)) [[r]]).
    { apply Forall_cons_2; [|apply Forall_nil_2].
      by apply Forall_cons_2; [|apply Forall_nil_2]. }
    assert (Hcap : Forall (window_within 123) [[r]]).
    { apply Forall_cons_2; [|apply Forall_nil_2].
      by exists (r_start r), (r_length r). }
    assert (Hans : answers_from_memory sock mem (polls c0) [[r]]).
    { split; [|done]. exists (r_start r), (r_length r), header.
      split_and!; [done | done | by rewrite Hpolls0]. }
    assert (Hnd1 : NoDup (map r_name (concat [[r]]))).
    { simpl. apply NoDup_singleton. }
    destruct (tcp_ranges_loop_memory self sock mem [[r]] ∅ c0 Hc0 Hfr Hmem Hne
                Hrd Hcap Hans Hnd1) as (c' & d & Hloop & _ & _ & Hval & _).
    exists c', d. rewrite Hrun, Hloop. split; [done|].
    apply Hval. simpl. by left.
  - intros Hname Hraw Hnull. unfold tcp_reading. fold raw.
    rewrite Hname, Hraw. unfold scaled.
    rewrite bool_decide_eq_false_2 by done. done.
Qed.

Lemma X20_tcp_read_name_witness :
  (exists c',
     ModbusTCPMeter.read SMAMeter.meter resting_socket
       (SelStr "power_factor_total") (new_client SMAMeter_REGS Connected)
     = (c', Ok (RVal (scaled (NULLS SMAMeter.meter)
                        (raw_integer (words_of (fun _ => 0) sma_power_factor_total) true)
                        3)))) /\
  (exists c' d,
     ModbusTCPMeter.read SMAMeter.meter resting_socket
       (SelList ["power_factor_total"]) (new_client SMAMeter_REGS Connected)
     = (c', Ok (RDict d)) /\
     d !! "power_factor_total"
     = Some (tcp_reading SMAMeter.meter (words_of (fun _ => 0) sma_power_factor_total)
               sma_power_factor_total)) /\
  ("power_factor_total" = "power_factor_total" ->
   raw_integer (words_of (fun _ => 0) sma_power_factor_total) true = 0 ->
   0 ∉ NULLS SMAMeter.meter ->
   scaled (NULLS SMAMeter.meter)
     (raw_integer (words_of (fun _ => 0) sma_power_factor_total) true) 3
   = VQuot (NInt 0) 3 /\
   tcp_reading SMAMeter.meter (words_of (fun _ => 0) sma_power_factor_total)
     sma_power_factor_total = VNum (NInt 1)).
Proof.
  apply (X20_tcp_read_name SMAMeter.meter resting_socket (fun _ => 0)
           (new_client SMAMeter_REGS Connected) sma_power_factor_total
           (replicate 9 0)).
  - reflexivity.
  - intros k. vm_compute. intuition discriminate.
  - intros _. unfold is_word. lia.
  - apply (bool_decide_unpack _). vm_compute. exact I.
  - apply list_elem_of_lookup. by exists 14%nat.
  - vm_compute. intuition discriminate.
  - reflexivity.
  - reflexivity.
Defined.

(** ** Scaling a Multicube meter *)

Lemma set_REGS_same c : set_REGS (REGS c) c = c.
Proof. by destruct c. Qed.

(** The loop rewrites the decimals of the registers of the group and
    leaves the others. *)
Lemma rescale_loop_ok group mapping scale d todo : forall seen c,
  mapping scale = Ok d ->
  REGS c = seen ++ todo ->
  Multicube.rescale_loop seen todo group mapping scale c
  = (set_REGS (seen ++ map (fun r => if bool_decide (r_name r ∈ group)
                                    then Multicube.set_decimals d r else r) todo) c,
     Ok tt).
Proof.
  induction todo as [|r rest IH]; intros seen c Hmap Hregs; simpl.
  - by rewrite <- Hregs, set_REGS_same.
  - destruct (bool_decide (r_name r ∈ group)).
    + unfold bind at 1. unfold lift at 1. rewrite Hmap.
      unfold bind at 1.
      rewrite (IH (seen ++ [Multicube.set_decimals d r])); [|done|].
      * by rewrite <- app_assoc.
      * by rewrite <- app_assoc.
    + rewrite (IH (seen ++ [r])); [|done|].
      * by rewrite <- app_assoc.
      * by rewrite Hregs, <- app_assoc.
Qed.

Lemma rescale_ok group mapping scale d c :
  mapping scale = Ok d ->
  Multicube.rescale group mapping scale c
  = (set_REGS (map (fun r => if bool_decide (r_name r ∈ group)
                             then Multicube.set_decimals d r else r) (REGS c)) c,
     Ok tt).
Proof.
  intros Hmap. unfold Multicube.rescale, bind, get_REGS.
  by rewrite (rescale_loop_ok group mapping scale d (REGS c) [] c).
Qed.

(** A scale outside the mapping stops the loop at the first register of
    the group, before anything is rewritten. *)
Lemma rescale_loop_raises group mapping scale e todo : forall seen c,
  mapping scale = Raise e ->
  (exists r, r ∈ todo /\ r_name r ∈ group) ->
  Multicube.rescale_loop seen todo group mapping scale c = (c, Raise e).
Proof.
  induction todo as [|r rest IH]; intros seen c Hmap (r' & Hr' & Hg); simpl.
  - by apply elem_of_nil in Hr'.
  - destruct (decide (r_name r ∈ group)) as [Hin|Hout].
    + rewrite bool_decide_eq_true_2 by done.
      unfold bind at 1. unfold lift at 1. by rewrite Hmap.
    + rewrite bool_decide_eq_false_2 by done.
      apply IH; [done|]. exists r'. split; [|done].
      apply elem_of_cons in Hr' as [->|Hr']; done.
Qed.

(** [read(name)] on a connected client whose peer answers at once. *)
Lemma tcp_read_name_prompt self sock c name r rest ws header :
  device c = Connected ->
  frames_ok self sock ->
  filter (fun register => r_name register = name) (REGS c) = r :: rest ->
  r_length r = 1 \/ r_length r = 2 ->
  decimals_ok (r_decimals r) ->
  is_word (r_start r - REG_OFFSET self) ->
  Forall is_word ws -> length ws = Z.to_nat (r_length r) ->
  length header = 9%nat ->
  recv sock (polls c) = Ok (header ++ bytes_of_words ws) ->
  exists c',
    ModbusTCPMeter.read self sock (SelStr name) c
    = (c', Ok (RVal (scaled (NULLS self) (raw_integer ws (r_signed r))
                       (r_decimals r)))) /\
    REGS c' = REGS c /\ device c' = Connected /\
    polls c' = S (polls c) /\ sent c' = S (sent c).
Proof.
  intros Hdev Hfr Hfilter Hlen Hdec Hstart Hws Hlws Hhead Hrecv.
  destruct (tcp_request_prompt self sock (r_start r) (r_length r)
              (header ++ bytes_of_words ws) c)
    as (message & Hmsg & Hreq); try done.
  { destruct Hlen; lia. }
  { rewrite length_app, length_bytes_of_words, Hhead, Hlws. destruct Hlen; lia. }
  rewrite drop_app_length' in Hreq by done.
  exists (after_polls 1 (add_event (Send message) (incr_sent c))).
  split; [|done].
  unfold ModbusTCPMeter.read.
  unfold bind at 1. unfold get_REGS at 1. rewrite Hfilter.
  unfold bind at 1. unfold ModbusTCPMeter._read_single.
  unfold bind at 1. rewrite Hmsg.
  unfold bind at 1. rewrite Hreq.
  unfold lift at 1. rewrite tcp_convert_value_integer; [done | done | done |].
  rewrite Hlws. destruct Hlen as [Hx|Hx]; rewrite Hx; auto.
Qed.

(** [read(name)] on a connected client whose every [recv] is empty. *)
Lemma tcp_read_name_silent self sock c name r rest :
  device c = Connected ->
  frames_ok self sock -> silent sock -> 0 ∉ NULLS self ->
  filter (fun register => r_name register = name) (REGS c) = r :: rest ->
  r_length r = 1 \/ r_length r = 2 ->
  decimals_ok (r_decimals r) ->
  is_word (r_start r - REG_OFFSET self) ->
  exists c',
    ModbusTCPMeter.read self sock (SelStr name) c
    = (c', Ok (RVal (VQuot (NInt 0) (r_decimals r)))) /\
    REGS c' = REGS c /\ device c' = Connected /\
    polls c' = (polls c + 10)%nat /\ sent c' = S (sent c).
Proof.
  intros Hdev Hfr Hs Hnull Hfilter Hlen Hdec Hstart.
  destruct (tcp_request_silent self sock (r_start r) (r_length r) c)
    as (message & Hmsg & Hreq); try done.
  { unfold is_word. destruct Hlen; lia. }
  set (c' := after_polls 10 (add_event (Send message) (incr_sent c))) in *.
  exists c'. split.
  - unfold ModbusTCPMeter.read.
    unfold bind at 1. unfold get_REGS at 1. rewrite Hfilter.
    unfold bind at 1. unfold ModbusTCPMeter._read_single.
    unfold bind at 1. rewrite Hmsg.
    unfold bind at 1. rewrite Hreq.
    unfold lift at 1. rewrite tcp_convert_value_zeros; [done | done | done |].
    destruct Hlen as [Hx|Hx]; rewrite Hx; auto.
  - destruct (after_polls_fields 10 (add_event (Send message) (incr_sent c)))
      as (Hd & Hse & Hre).
    fold c' in Hd, Hse, Hre. split_and!.
    + exact Hre.
    + exact (eq_trans Hd Hdev).
    + unfold c'. rewrite after_polls_polls. done.
    + exact Hse.
Qed.
Lemma multicube_frames_ok sock slaveaddress :
  is_byte slaveaddress -> (forall k, is_word (randint sock k)) ->
  frames_ok (Multicube.meter slaveaddress) sock.
Proof.
  intros Hid Htid k. split_and!; [apply Htid | | done |];
    unfold is_word, is_byte; simpl; lia.
Qed.

Lemma multicube_nulls slaveaddress z :
  -32768 < z < 32767 -> z ∉ NULLS (Multicube.meter slaveaddress).
Proof.
  intros Hz. cbn [NULLS Multicube.meter].
  rewrite !not_elem_of_cons. split_and!; try lia. apply not_elem_of_nil.
Qed.

(** X21. Constructing a [MulticubeMeter] on a connection that brings
    nothing raises [KeyError].  The constructor connects, stores the
    catalog and calls [set_scaling]; when every [recv] returns the empty
    bytes, the first read ([amps_scale]) gives up after ten polls with
    zeros, which decode to 0, and [decimals_mapping[0]] raises [KeyError]
    at the first current register, with the catalog still as declared. *)
Theorem X21_multicube_init_silent_peer (sock : socket)
    (float_int : value -> result Z) (slaveaddress : Z) (c : client) :
  is_byte slaveaddress ->
  (forall k, is_word (randint sock k)) ->
  silent sock ->
  exists c',
    Multicube.init (Multicube.meter slaveaddress) sock float_int true c
    = (c', Raise KeyError) /\
    REGS c' = Multicube.REGS /\
    device c' = Connected /\
    polls c' = (polls c + 10)%nat /\
    sent c' = S (sent c).
Proof.
  intros Hid Htid Hs.
  pose proof (multicube_frames_ok sock slaveaddress Hid Htid) as Hfr.
  set (c2 := set_REGS Multicube.REGS (set_device Connected (add_event Connect c))).
  destruct (tcp_read_name_silent (Multicube.meter slaveaddress) sock c2
              "amps_scale" (Multicube.mc_reg "amps_scale" 2837 1 0) [])
    as (c3 & Hread & Hregs & Hdev & Hpolls & Hsent); try done.
  { apply multicube_nulls. lia. }
  { by left. }
  exists c3. split_and!; try done.
  unfold Multicube.init.
  unfold bind at 1. unfold ModbusTCPMeter._connect, bind at 1, emit at 1.
  unfold bind at 1. fold c2.
  unfold Multicube.set_scaling.
  unfold bind at 1. unfold Multicube.read_scale at 1.
  unfold bind at 1. rewrite Hread.
  unfold lift at 1. cbn [Multicube.py_int Multicube.mc_reg r_decimals].
  unfold bind at 1. unfold Multicube.rescale, bind, get_REGS.
  rewrite Hregs.
  rewrite (rescale_loop_raises _ _ _ KeyError); [done | done |].
  exists (Multicube.mc_reg "current_l1" 2822 1 0). split.
  - apply list_elem_of_lookup. by exists 10%nat.
  - by left.
Qed.

Lemma X21_multicube_init_silent_peer_witness :
  exists c',
    Multicube.init (Multicube.meter 1) silent_socket (fun _ => Raise ValueError)
      true (new_client [] NoAttribute) = (c', Raise KeyError) /\
    REGS c' = Multicube.REGS /\
    device c' = Connected /\
    polls c' = (0 + 10)%nat /\
    sent c' = 1%nat.
Proof.
  apply (X21_multicube_init_silent_peer silent_socket (fun _ => Raise ValueError)
           1 (new_client [] NoAttribute)).
  - unfold is_byte. lia.
  - intros k. unfold is_word. simpl. lia.
  - intros k. reflexivity.
Defined.
Lemma decimals_mapping_ok scale :
  1 <= scale <= 7 -> Multicube.decimals_mapping scale = Ok (3 - scale).
Proof.
  intros H.
  assert (Hs : scale = 1 \/ scale = 2 \/ scale = 3 \/ scale = 4 \/ scale = 5 \/
               scale = 6 \/ scale = 7) by lia.
  by destruct Hs as [->|[->|[->|[->|[->|[->| ->]]]]]].
Qed.

Lemma energy_decimals_mapping_ok scale :
  3 <= scale <= 7 -> Multicube.energy_decimals_mapping scale = Ok (6 - scale).
Proof.
  intros H.
  assert (Hs : scale = 3 \/ scale = 4 \/ scale = 5 \/ scale = 6 \/ scale = 7) by lia.
  by destruct Hs as [->|[->|[->|[->| ->]]]].
Qed.

(** A scale between 1 and 7 held in one word, or in the low word of two,
    reads back as itself. *)
Lemma scale_reading slaveaddress scale d :
  1 <= scale <= 7 ->
  scaled (NULLS (Multicube.meter slaveaddress)) (raw_integer [scale] true) d
  = VQuot (NInt scale) d /\
  scaled (NULLS (Multicube.meter slaveaddress)) (raw_integer [0; scale] true) d
  = VQuot (NInt scale) d.
Proof.
  intros H.
  assert (Hs : scale = 1 \/ scale = 2 \/ scale = 3 \/ scale = 4 \/ scale = 5 \/
               scale = 6 \/ scale = 7) by lia.
  assert (Hraw : raw_integer [scale] true = scale /\
                 raw_integer [0; scale] true = scale)
    by (by destruct Hs as [->|[->|[->|[->|[->|[->| ->]]]]]]).
  destruct Hraw as [-> ->]. unfold scaled.
  by rewrite bool_decide_eq_false_2 by (apply multicube_nulls; lia).
Qed.

(** One step of [set_scaling]: the scale is read and the decimals of the
    group are rewritten. *)
Lemma set_scaling_step sock float_int slaveaddress c name r rest ws header
    group mapping scale d :
  device c = Connected ->
  (forall k, is_word (randint sock k)) -> is_byte slaveaddress ->
  filter (fun register => r_name register = name) (REGS c) = r :: rest ->
  r_length r = 1 \/ r_length r = 2 ->
  is_word (r_start r) ->
  r_decimals r = 0 -> r_signed r = true ->
  Forall is_word ws -> length ws = Z.to_nat (r_length r) ->
  length header = 9%nat ->
  recv sock (polls c) = Ok (header ++ bytes_of_words ws) ->
  scaled (NULLS (Multicube.meter slaveaddress)) (raw_integer ws true) 0
  = VQuot (NInt scale) 0 ->
  mapping scale = Ok d ->
  exists c',
    bind (Multicube.read_scale (Multicube.meter slaveaddress) sock float_int name)
      (fun scale => Multicube.rescale group mapping scale) c
    = (c', Ok tt) /\
    (forall A (k : M A),
       bind (Multicube.read_scale (Multicube.meter slaveaddress) sock float_int name)
         (fun scale => bind (Multicube.rescale group mapping scale) (fun _ => k)) c
       = k c') /\
    REGS c' = map (fun r => if bool_decide (r_name r ∈ group)
                            then Multicube.set_decimals d r else r) (REGS c) /\
    device c' = Connected /\
    polls c' = S (polls c) /\ sent c' = S (sent c).
Proof.
  intros Hdev Htid Hid Hfilter Hlen Hstart Hdec Hsig Hws Hlws Hhead Hrecv Hval Hmap.
  pose proof (multicube_frames_ok sock slaveaddress Hid Htid) as Hfr.
  assert (Hok : decimals_ok (r_decimals r))
    by (rewrite Hdec; unfold decimals_ok; lia).
  destruct (tcp_read_name_prompt (Multicube.meter slaveaddress) sock c name r
              rest ws header) as (c1 & Hread & Hregs & Hdev1 & Hpolls & Hsent);
    try done.
  { simpl. by rewrite Z.sub_0_r. }
  rewrite Hdec, Hsig, Hval in Hread.
  eexists. split_and!.
  - unfold bind at 1. unfold Multicube.read_scale.
    unfold bind at 1. rewrite Hread. unfold lift at 1.
    cbn [Multicube.py_int]. by rewrite (rescale_ok _ _ _ d).
  - intros A k. unfold bind at 1. unfold Multicube.read_scale.
    unfold bind at 1. rewrite Hread. unfold lift at 1.
    cbn [Multicube.py_int]. unfold bind at 1.
    by rewrite (rescale_ok _ _ _ d).
  - by rewrite Hregs.
  - done.
  - done.
  - done.
Qed.

(** X22. [set_scaling] sets the decimals the meter reports.  When the
    meter answers the five requests of the constructor at once with the
    scales (between 1 and 7; energy between 3 and 7), the constructor
    returns with five requests sent, and the catalog it leaves differs from
    the declared one only in the decimals of the five groups: [3 - scale]
    for the currents, phase voltages, line voltages and powers, each by its
    own scale, and [6 - scale] for the energies.  Names, addresses, lengths,
    signs and the order of the catalog are as declared. *)
Theorem X22_multicube_set_scaling (sock : socket)
    (float_int : value -> result Z) (slaveaddress : Z) (c : client)
    (amps phase_volts line_volts power energy : Z) (h0 h1 h2 h3 h4 : list Z) :
  is_byte slaveaddress ->
  (forall k, is_word (randint sock k)) ->
  1 <= amps <= 7 -> 1 <= phase_volts <= 7 -> 1 <= line_volts <= 7 ->
  1 <= power <= 7 -> 3 <= energy <= 7 ->
  length h0 = 9%nat -> length h1 = 9%nat -> length h2 = 9%nat ->
  length h3 = 9%nat -> length h4 = 9%nat ->
  recv sock (polls c) = Ok (h0 ++ bytes_of_words [amps]) ->
  recv sock (1 + polls c) = Ok (h1 ++ bytes_of_words [phase_volts]) ->
  recv sock (2 + polls c) = Ok (h2 ++ bytes_of_words [line_volts]) ->
  recv sock (3 + polls c) = Ok (h3 ++ bytes_of_words [power]) ->
  recv sock (4 + polls c) = Ok (h4 ++ bytes_of_words [0; energy]) ->
  exists c',
    Multicube.init (Multicube.meter slaveaddress) sock float_int true c
    = (c', Ok tt) /\
    REGS c' = map (fun r => Multicube.set_decimals
                     (Multicube.scaled_decimals amps phase_volts line_volts
                        power energy r) r) Multicube.REGS /\
    polls c' = (5 + polls c)%nat /\
    sent c' = (5 + sent c)%nat.
Proof.
  intros Hid Htid Ha Hpv Hlv Hp He Hh0 Hh1 Hh2 Hh3 Hh4 Hr0 Hr1 Hr2 Hr3 Hr4.
  set (c0 := set_REGS Multicube.REGS (set_device Connected (add_event Connect c))).
  assert (Hw : forall s, 1 <= s <= 7 -> Forall is_word [s]).
  { intros s Hs. apply Forall_cons_2; [unfold is_word; lia | apply Forall_nil_2]. }
  destruct (set_scaling_step sock float_int slaveaddress c0 "amps_scale"
              (Multicube.mc_reg "amps_scale" 2837 1 0) [] [amps] h0
              Multicube.a_registers Multicube.decimals_mapping amps (3 - amps))
    as (c1 & _ & Hk1 & Hregs1 & Hdev1 & Hpolls1 & Hsent1);
    [done | done | done | done | by left | done | done | done | by apply Hw | done
    | done | done | exact (proj1 (scale_reading slaveaddress amps 0 Ha))
    | by apply decimals_mapping_ok |].
  destruct (set_scaling_step sock float_int slaveaddress c1 "phase_volts_scale"
              (Multicube.mc_reg "phase_volts_scale" 2838 1 0) [] [phase_volts] h1
              Multicube.pv_registers Multicube.decimals_mapping phase_volts
              (3 - phase_volts))
    as (c2 & _ & Hk2 & Hregs2 & Hdev2 & Hpolls2 & Hsent2);
    [done | done | done | by rewrite Hregs1 | by left | done | done | done
    | by apply Hw | done | done | by rewrite Hpolls1
    | exact (proj1 (scale_reading slaveaddress phase_volts 0 Hpv))
    | by apply decimals_mapping_ok |].
  destruct (set_scaling_step sock float_int slaveaddress c2 "line_volts_scale"
              (Multicube.mc_reg "line_volts_scale" 2839 1 0) [] [line_volts] h2
              Multicube.lv_registers Multicube.decimals_mapping line_volts
              (3 - line_volts))
    as (c3 & _ & Hk3 & Hregs3 & Hdev3 & Hpolls3 & Hsent3);
    [done | done | done | by rewrite Hregs2, Hregs1 | by left | done | done | done
    | by apply Hw | done | done | by rewrite Hpolls2, Hpolls1
    | exact (proj1 (scale_reading slaveaddress line_volts 0 Hlv))
    | by apply decimals_mapping_ok |].
  destruct (set_scaling_step sock float_int slaveaddress c3 "power_scale"
              (Multicube.mc_reg "power_scale" 2840 1 0) [] [power] h3
              Multicube.p_registers Multicube.decimals_mapping power (3 - power))
    as (c4 & _ & Hk4 & Hregs4 & Hdev4 & Hpolls4 & Hsent4);
    [done | done | done | by rewrite Hregs3, Hregs2, Hregs1 | by left | done
    | done | done | by apply Hw | done | done
    | by rewrite Hpolls3, Hpolls2, Hpolls1
    | exact (proj1 (scale_reading slaveaddress power 0 Hp))
    | by apply decimals_mapping_ok |].
  destruct (set_scaling_step sock float_int slaveaddress c4 "energy_scale"
              (Multicube.mc_reg "energy_scale" 512 2 0) [] [0; energy] h4
              Multicube.e_registers Multicube.energy_decimals_mapping energy
              (6 - energy))
    as (c5 & Hk5 & _ & Hregs5 & Hdev5 & Hpolls5 & Hsent5);
    [done | done | done | by rewrite Hregs4, Hregs3, Hregs2, Hregs1 | by right
    | done | done | done | | done | done
    | by rewrite Hpolls4, Hpolls3, Hpolls2, Hpolls1
    | apply (scale_reading slaveaddress energy 0); lia
    | by apply energy_decimals_mapping_ok |].
  { apply Forall_cons_2; [unfold is_word; lia|]. apply Hw. lia. }
  exists c5. split_and!.
  - unfold Multicube.init.
    unfold bind at 1. unfold ModbusTCPMeter._connect, bind at 1, emit at 1.
    unfold bind at 1. fold c0.
    unfold Multicube.set_scaling.
    by rewrite Hk1, Hk2, Hk3, Hk4, Hk5.
  - rewrite Hregs5, Hregs4, Hregs3, Hregs2, Hregs1.
    change (REGS c0) with Multicube.REGS. vm_compute. reflexivity.
  - rewrite Hpolls5, Hpolls4, Hpolls3, Hpolls2, Hpolls1. done.
  - rewrite Hsent5, Hsent4, Hsent3, Hsent2, Hsent1. done.
Qed.

Lemma X22_multicube_set_scaling_witness :
  exists c',
    Multicube.init (Multicube.meter 1) scales_socket (fun _ => Raise ValueError)
      true (new_client [] NoAttribute) = (c', Ok tt) /\
    REGS c' = map (fun r => Multicube.set_decimals
                     (Multicube.scaled_decimals 3 3 3 4 5 r) r) Multicube.REGS /\
    polls c' = (5 + 0)%nat /\
    sent c' = (5 + 0)%nat.
Proof.
  apply (X22_multicube_set_scaling scales_socket (fun _ => Raise ValueError) 1
           (new_client [] NoAttribute) 3 3 3 4 5
           (replicate 9 0) (replicate 9 0) (replicate 9 0) (replicate 9 0)
           (replicate 9 0));
    try reflexivity; try lia.
  - unfold is_byte. lia.
  - intros k. unfold is_word. simpl. lia.
Defined.

(** ** What a read prints *)

Lemma window_event_no_print b :
  filter (fun e => is_print e = true) (window_event b) = [].
Proof.
  unfold window_event. destruct (window b) as [[first_reg num_regs]|]; [|done].
  by rewrite filter_cons_False.
Qed.

Lemma read_batches_no_print rm bs results c :
  (forall b c, log (rm b c).1 = log c ++ window_event b) ->
  exists events,
    log (read_batches rm bs results c).1 = log c ++ events /\
    filter (fun e => is_print e = true) events = [].
Proof.
  intros Hrm.
  destruct (read_batches_log rm bs results c Hrm) as (k & Hlog & _).
  exists (concat (map window_event (take k bs))). split; [exact Hlog|].
  clear Hlog. induction (take k bs) as [|b l IH]; [done|].
  cbn [map concat]. rewrite filter_app, window_event_no_print. exact IH.
Qed.

Lemma batch_read_no_print cap rm regs c :
  (forall b c, log (rm b c).1 = log c ++ window_event b) ->
  exists events,
    log (batch_read cap rm regs c).1 = log c ++ events /\
    filter (fun e => is_print e = true) events = [].
Proof.
  intros Hrm. destruct regs as [|r0 rest].
  - exists []. by rewrite app_nil_r.
  - rewrite batch_read_plan. by apply read_batches_no_print.
Qed.

(** The comparison [len(registers) < len(regnames)] that guards the
    warning. *)
Lemma fewer_registers_than_names (catalog : list register) (regnames : list string) :
  let registers := filter (fun register => r_name register ∈ regnames) catalog in
  (NoDup regnames -> (forall n, n ∈ regnames -> n ∈ map r_name catalog) ->
   (length registers <? length regnames)%nat = false) /\
  (NoDup (map r_name catalog) ->
   (exists n, n ∈ regnames /\ n ∉ map r_name catalog) ->
   (length registers <? length regnames)%nat = true).
Proof.
  intros registers. split.
  - intros Hnd Hknown. apply Nat.ltb_ge.
    rewrite <- (length_map r_name registers).
    apply submseteq_length, NoDup_submseteq; [done|].
    intros n Hn. destruct (proj1 (list_elem_of_fmap _ _ _) (Hknown n Hn))
      as (r & -> & Hr).
    apply list_elem_of_fmap. exists r. split; [done|].
    by apply list_elem_of_filter.
  - intros Hnd (n & Hn & Hunknown). apply Nat.ltb_lt.
    rewrite <- (length_map r_name registers).
    assert (Hsub : n :: map r_name registers ⊆+ regnames).
    { apply NoDup_submseteq.
      - apply NoDup_cons. split.
        + intros (r & -> & Hr)%list_elem_of_fmap.
          apply list_elem_of_filter in Hr as [_ Hr].
          apply Hunknown, list_elem_of_fmap. by exists r.
        + eapply sublist_NoDup; [exact Hnd|].
          apply fmap_sublist, sublist_filter.
      - intros x [->|(r & -> & Hr)%list_elem_of_fmap]%elem_of_cons; [done|].
        by apply list_elem_of_filter in Hr as [Hr _]. }
    apply submseteq_length in Hsub. simpl in Hsub. lia.
Qed.

Lemma printed_app {A} (m : M A) c events :
  log (m c).1 = log c ++ events ->
  printed m c = filter (fun e => is_print e = true) events.
Proof.
  intros H. unfold printed, new_events. by rewrite H, drop_app_length.
Qed.

Lemma rtu_read_list_log instr regnames c :
  let registers := filter (fun register => r_name register ∈ regnames) (REGS c) in
  printed (ModbusRTUMeter.read instr (SelList regnames)) c
  = if (length registers <? length regnames)%nat
    then warning_lines (REGS c) regnames else [].
Proof.
  intros registers.
  set (c1 := ((if (length registers <? length regnames)%nat
               then warn_unavailable (REGS c) regnames else ret tt) c).1).
  assert (Hc1 : log c1 = log c ++ if (length registers <? length regnames)%nat
                                  then warning_lines (REGS c) regnames else []).
  { unfold c1. destruct (length registers <? length regnames)%nat; simpl.
    - by rewrite <- app_assoc.
    - by rewrite app_nil_r. }
  destruct (batch_read_no_print 125 (ModbusRTUMeter._read_multiple instr)
              (sort_by_start registers) c1 (rtu_read_multiple_log instr))
    as (events & Hlog & Hnone).
  assert (Hfinal : exists events,
            log (ModbusRTUMeter.read instr (SelList regnames) c).1 = log c1 ++ events /\
            filter (fun e => is_print e = true) events = []).
  { unfold ModbusRTUMeter.read.
    unfold bind at 1. unfold get_REGS at 1. fold registers.
    unfold bind at 1.
    assert (Hw : (if (length registers <? length regnames)%nat
                  then warn_unavailable (REGS c) regnames else ret tt) c
                 = (c1, Ok tt)).
    { unfold c1. by destruct (length registers <? length regnames)%nat. }
    rewrite Hw. destruct (length registers =? 0)%nat.
    - exists []. by rewrite app_nil_r.
    - exists events. split; [|done]. rewrite <- Hlog.
      unfold bind, ModbusRTUMeter._batch_read.
      by destruct (batch_read _ _ _ _) as [c' [d|e]]. }
  destruct Hfinal as (ev & Hfin & Hev).
  rewrite (printed_app _ c ((if (length registers <? length regnames)%nat
                             then warning_lines (REGS c) regnames else []) ++ ev)).
  - rewrite filter_app, Hev, app_nil_r.
    by destruct (length registers <? length regnames)%nat.
  - by rewrite Hfin, Hc1, <- app_assoc.
Qed.

Lemma saia_read_list_log instr regnames c :
  let registers := filter (fun register => r_name register ∈ regnames) (REGS c) in
  printed (SaiaMeter.read instr (SelList regnames)) c
  = if (length registers <? length regnames)%nat
    then warning_lines (REGS c) regnames else [].
Proof.
  intros registers.
  set (c1 := ((if (length registers <? length regnames)%nat
               then warn_unavailable (REGS c) regnames else ret tt) c).1).
  assert (Hc1 : log c1 = log c ++ if (length registers <? length regnames)%nat
                                  then warning_lines (REGS c) regnames else []).
  { unfold c1. destruct (length registers <? length regnames)%nat; simpl.
    - by rewrite <- app_assoc.
    - by rewrite app_nil_r. }
  destruct (batch_read_no_print 10 (SaiaMeter._read_multiple instr)
              (sort_by_start registers) c1 (saia_read_multiple_log instr))
    as (events & Hlog & Hnone).
  assert (Hfinal : exists events,
            log (SaiaMeter.read instr (SelList regnames) c).1 = log c1 ++ events /\
            filter (fun e => is_print e = true) events = []).
  { unfold SaiaMeter.read.
    unfold bind at 1. unfold get_REGS at 1. fold registers.
    unfold bind at 1.
    assert (Hw : (if (length registers <? length regnames)%nat
                  then warn_unavailable (REGS c) regnames else ret tt) c
                 = (c1, Ok tt)).
    { unfold c1. by destruct (length registers <? length regnames)%nat. }
    rewrite Hw. destruct (length registers =? 0)%nat.
    - exists []. by rewrite app_nil_r.
    - exists events. split; [|done]. rewrite <- Hlog.
      unfold bind, SaiaMeter._batch_read.
      by destruct (batch_read _ _ _ _) as [c' [d|e]]. }
  destruct Hfinal as (ev & Hfin & Hev).
  rewrite (printed_app _ c ((if (length registers <? length regnames)%nat
                             then warning_lines (REGS c) regnames else []) ++ ev)).
  - rewrite filter_app, Hev, app_nil_r.
    by destruct (length registers <? length regnames)%nat.
  - by rewrite Hfin, Hc1, <- app_assoc.
Qed.

(** X23. When a list read warns.  [read(list)] of the serial clients
    prints nothing when the requested names are distinct and all in the
    catalog.  With a catalog of distinct names, as soon as one requested
    name is not in the catalog it prints exactly two lines, whatever the
    driver does afterwards: the requested names that are not in the catalog,
    and the names of the catalog after a literal [%s]. *)
Theorem X23_serial_read_warning (instr : instrument) (regnames : list string)
    (c : client) :
  (NoDup regnames ->
   (forall n, n ∈ regnames -> n ∈ map r_name (REGS c)) ->
   printed (ModbusRTUMeter.read instr (SelList regnames)) c = [] /\
   printed (SaiaMeter.read instr (SelList regnames)) c = []) /\
  (NoDup (map r_name (REGS c)) ->
   (exists n, n ∈ regnames /\ n ∉ map r_name (REGS c)) ->
   printed (ModbusRTUMeter.read instr (SelList regnames)) c
   = warning_lines (REGS c) regnames /\
   printed (SaiaMeter.read instr (SelList regnames)) c
   = warning_lines (REGS c) regnames).
Proof.
  destruct (fewer_registers_than_names (REGS c) regnames) as [Hall Hsome].
  split.
  - intros Hnd Hknown.
    rewrite rtu_read_list_log, saia_read_list_log, Hall by done. done.
  - intros Hnd Hunknown.
    rewrite rtu_read_list_log, saia_read_list_log, Hsome by done. done.
Qed.

Lemma X23_serial_read_warning_witness :
  (printed (ModbusRTUMeter.read zero_instrument (SelList ["c"; "a"]))
     (new_client strict_example DeviceNone) = [] /\
   printed (SaiaMeter.read zero_instrument (SelList ["c"; "a"]))
     (new_client strict_example DeviceNone) = []) /\
  (printed (ModbusRTUMeter.read zero_instrument (SelList ["a"; "zz"]))
     (new_client strict_example DeviceNone)
   = warning_lines strict_example ["a"; "zz"] /\
   printed (SaiaMeter.read zero_instrument (SelList ["a"; "zz"]))
     (new_client strict_example DeviceNone)
   = warning_lines strict_example ["a"; "zz"]).
Proof.
  split.
  - apply (X23_serial_read_warning zero_instrument ["c"; "a"]
             (new_client strict_example DeviceNone)).
    + repeat constructor; rewrite ?elem_of_cons, ?elem_of_nil; naive_solver.
    + intros n. simpl. rewrite !elem_of_cons, elem_of_nil. naive_solver.
  - apply (X23_serial_read_warning zero_instrument ["a"; "zz"]
             (new_client strict_example DeviceNone)).
    + simpl. repeat constructor; rewrite ?elem_of_cons, ?elem_of_nil; naive_solver.
    + exists "zz". split; [by right; left|].
      simpl. rewrite !elem_of_cons, elem_of_nil. naive_solver.
Defined.

(** ** Reading all of a Multicube meter *)

(** X24. Reading all of a Multicube meter.  Whatever decimals
    [set_scaling] has left in the catalog, as long as the division accepts
    them ([-324 < decimals < 309]; the two mappings give -4 to 3),
    [read(None)] on a connected [MulticubeMeter] sends three requests, for
    the windows (512, 8), (2816, 25) and (3072, 12); when the meter answers
    each at once with nine header bytes and the words it holds, the result
    has the 41 names of the catalog, each with the reading of its own
    words. *)
Theorem X24_multicube_read_all (sock : socket) (mem : Z -> Z)
    (slaveaddress : Z) (c : client) (dec : register -> Z) (h0 h1 h2 : list Z) :
  REGS c = map (fun r => Multicube.set_decimals (dec r) r) Multicube.REGS ->
  Forall (fun r => decimals_ok (dec r)) Multicube.REGS ->
  device c = Connected ->
  is_byte slaveaddress ->
  (forall k, is_word (randint sock k)) ->
  (forall a, is_word (mem a)) ->
  length h0 = 9%nat -> length h1 = 9%nat -> length h2 = 9%nat ->
  recv sock (polls c) = Ok (h0 ++ bytes_of_words (memory_words mem 512 8)) ->
  recv sock (1 + polls c) = Ok (h1 ++ bytes_of_words (memory_words mem 2816 25)) ->
  recv sock (2 + polls c) = Ok (h2 ++ bytes_of_words (memory_words mem 3072 12)) ->
  map window (tcp_plan (REGS c)) = [Ok (512, 8); Ok (2816, 25); Ok (3072, 12)] /\
  exists c' d,
    ModbusTCPMeter.read (Multicube.meter slaveaddress) sock SelNone c
    = (c', Ok (RDict d)) /\
    dom d = names Multicube.REGS /\
    (forall r, r ∈ REGS c ->
       d !! r_name r
       = Some (tcp_reading (Multicube.meter slaveaddress) (words_of mem r) r)) /\
    polls c' = (3 + polls c)%nat /\
    sent c' = (3 + sent c)%nat.
Proof.
  intros Hregs Hdec Hdev Hid Htid Hmem Hl0 Hl1 Hl2 Hr0 Hr1 Hr2.
  pose proof (multicube_frames_ok sock slaveaddress Hid Htid) as Hfr.
  set (f := fun r => Multicube.set_decimals (dec r) r) in *.
  assert (Hplan : tcp_plan (REGS c)
                  = [map f (take 4 Multicube.REGS);
                     map f (take 25 (drop 4 Multicube.REGS));
                     map f (drop 29 Multicube.REGS)]).
  { rewrite Hregs. vm_compute. reflexivity. }
  assert (Hw : map window (tcp_plan (REGS c))
               = [Ok (512, 8); Ok (2816, 25); Ok (3072, 12)]).
  { rewrite Hplan. vm_compute. reflexivity. }
  split; [exact Hw|].
  assert (Hne : selected SelNone (REGS c) <> []) by (by rewrite Hregs).
  destruct (tcp_plan_spec _ Hne) as (_ & Hgs & Hperm).
  destruct (tcp_read_ranges (Multicube.meter slaveaddress) sock SelNone c Hne)
    as (c0 & Hdev0 & Hpolls0 & Hsent0 & Hrun).
  change (selected SelNone (REGS c)) with (REGS c) in *.
  assert (Hread : Forall (tcp_readable (Multicube.meter slaveaddress)) (REGS c)).
  { rewrite Hregs. apply Forall_map.
    assert (Hdecl : Forall (fun r => (r_length r = 1 \/ r_length r = 2) /\
                                     r_is_float r = false /\
                                     0 <= r_start r /\ r_end r < 65536)
                      Multicube.REGS).
    { repeat (apply Forall_cons_2; [vm_compute; intuition discriminate|]).
      apply Forall_nil_2. }
    pose proof (conj Hdecl Hdec) as Hall. rewrite <- Forall_and in Hall.
    eapply Forall_impl; [exact Hall|].
    intros r [(Hlen & Hfl & Hlo & Hhi) Hd]. unfold f, tcp_readable, r_end in *.
    cbn [Multicube.set_decimals Multicube.meter REG_OFFSET r_length r_start
           r_is_float r_decimals].
    split_and!; [done | done | done | lia | done]. }
  assert (Hnd : NoDup (map r_name (REGS c))).
  { rewrite Hregs. unfold f.
    change (map r_name (map _ Multicube.REGS)) with (map r_name Multicube.REGS).
    apply (bool_decide_unpack _). vm_compute. exact I. }
  assert (Hcap : Forall (window_within 123) (tcp_plan (REGS c))).
  { rewrite Hplan.
    repeat (apply Forall_cons_2;
            [eexists _, _; split; [vm_compute; reflexivity |
                                   vm_compute; split; discriminate]|]).
    apply Forall_nil_2. }
  assert (Hans : answers_from_memory sock mem (polls c0) (tcp_plan (REGS c))).
  { rewrite Hplan, Hpolls0. split; [|split; [|split; [|done]]].
    - exists 512, 8, h0. split_and!; [vm_compute; reflexivity | done | done].
    - exists 2816, 25, h1. split_and!; [vm_compute; reflexivity | done | done].
    - exists 3072, 12, h2. split_and!; [vm_compute; reflexivity | done | done]. }
  destruct (tcp_ranges_loop_memory (Multicube.meter slaveaddress) sock mem
              (tcp_plan (REGS c)) ∅ c0)
    as (c' & d & Hloop & Hpolls & Hsent & Hval & _).
  { by rewrite Hdev0. }
  { done. }
  { done. }
  { done. }
  { apply Forall_concat_inv. by rewrite Hperm. }
  { done. }
  { done. }
  { by rewrite Hperm. }
  exists c', d. rewrite Hrun, Hloop. split_and!.
  - done.
  - rewrite (tcp_ranges_loop_dom _ _ _ _ _ _ _ Hloop), dom_empty_L.
    rewrite (names_perm _ _ Hperm), Hregs. unfold names, f.
    change (map r_name (map _ Multicube.REGS)) with (map r_name Multicube.REGS).
    set_solver.
  - intros r Hr. apply Hval. by rewrite Hperm.
  - rewrite Hpolls, Hpolls0, Hplan. simpl. lia.
  - rewrite Hsent, Hsent0, Hplan. simpl. lia.
Qed.

Lemma X24_multicube_read_all_witness :
  map window (tcp_plan Multicube.REGS)
  = [Ok (512, 8); Ok (2816, 25); Ok (3072, 12)] /\
  exists c' d,
    ModbusTCPMeter.read (Multicube.meter 1)
      (memory_socket (fun a => a mod 7) (tcp_plan Multicube.REGS)) SelNone
      (new_client Multicube.REGS Connected) = (c', Ok (RDict d)) /\
    dom d = names Multicube.REGS /\
    (forall r, r ∈ Multicube.REGS ->
       d !! r_name r
       = Some (tcp_reading (Multicube.meter 1) (words_of (fun a => a mod 7) r) r)) /\
    polls c' = (3 + 0)%nat /\
    sent c' = (3 + 0)%nat.
Proof.
  apply (X24_multicube_read_all
           (memory_socket (fun a => a mod 7) (tcp_plan Multicube.REGS))
           (fun a => a mod 7) 1 (new_client Multicube.REGS Connected) r_decimals
           (replicate 9 0) (replicate 9 0) (replicate 9 0));
    try reflexivity.
  - repeat (apply Forall_cons_2; [unfold decimals_ok; simpl; lia|]).
    apply Forall_nil_2.
  - unfold is_byte. lia.
  - intros k. unfold is_word. simpl. lia.
  - intros a. unfold is_word. pose proof (Z.mod_pos_bound a 7). lia.
Defined.

(** ** The ABB catalog *)

Lemma adjacent_b_ok (R : register -> register -> bool) (P : register -> register -> Prop) l :
  (forall a b, R a b = true -> P a b) ->
  adjacent_b R l = true -> adjacent P l.
Proof.
  intros HR. induction l as [|x l IH]; [done|].
  destruct l as [|y l]; [done|].
  intros [Hxy Hl]%andb_true_iff. split; [by apply HR | by apply IH].
Qed.

Lemma catalog_ok_b_ok l : catalog_ok_b l = true -> catalog_ok l.
Proof.
  unfold catalog_ok_b.
  intros [[[Hne Hlen]%andb_true_iff Hadj]%andb_true_iff Hnd]%andb_true_iff.
  assert (Hwl : Forall word_length_ok l).
  { apply Forall_forall. intros r Hr.
    apply list_elem_of_In in Hr.
    apply (proj1 (forallb_forall _ _) Hlen) in Hr.
    unfold word_length_ok.
    apply orb_true_iff in Hr as [[?%Z.eqb_eq|?%Z.eqb_eq]%orb_true_iff|?%Z.eqb_eq];
      auto. }
  split_and!.
  - by destruct l.
  - done.
  - split.
    + eapply Forall_impl; [exact Hwl|]. intros r [?|[?|?]]; lia.
    + apply (adjacent_b_ok _ _ _ (fun a b => proj1 (Z.leb_le _ _)) Hadj).
  - by apply bool_decide_eq_true in Hnd.
Qed.

Lemma REGSETS_lookup m :
  ABBCatalog.REGSETS !! m
  = if decide (m = "A43") then Some ABBCatalog.A43
    else if decide (m = "B23") then Some ABBCatalog.B23
    else if decide (m = "B21") then Some ABBCatalog.B21
    else None.
Proof.
  unfold ABBCatalog.REGSETS.
  destruct (decide (m = "A43")) as [->|H1]; [by rewrite lookup_insert_eq|].
  rewrite lookup_insert_ne by done.
  destruct (decide (m = "B23")) as [->|H2]; [by rewrite lookup_insert_eq|].
  rewrite lookup_insert_ne by done.
  destruct (decide (m = "B21")) as [->|H3]; [by rewrite lookup_insert_eq|].
  by rewrite lookup_insert_ne.
Qed.

Lemma abb_regs_ok : catalog_ok_b ABBCatalog._REGS = true.
Proof. vm_compute. reflexivity. Qed.

Lemma abb_regset_ok regset :
  regset = ABBCatalog.A43 \/ regset = ABBCatalog.B23 \/ regset = ABBCatalog.B21 ->
  catalog_ok_b (filter (fun register => r_name register ∈ regset) ABBCatalog._REGS)
  = true /\
  map r_name (filter (fun register => r_name register ∈ regset) ABBCatalog._REGS)
  = regset.
Proof.
  intros [->|[->| ->]]; split; vm_compute; reflexivity.
Qed.

(** X25. The catalog of an [ABBMeter], for every model.  Whatever [model]
    the constructor is given, the catalog it stores is not empty, has word
    lengths 1, 2 or 4, no register reaching into the next (so it is sorted
    by start) and distinct names; every window [read(None)] plans on it
    spans at most 125 addresses.  For a model of [REGSETS] the catalog has
    exactly the names of the model's set, in the set's order; for any other
    model, or none, it is the whole register map. *)
Theorem X25_abb_init_catalog (model : option string) :
  let regs := ABBCatalog.init_REGS model in
  catalog_ok regs /\
  Forall (window_within 125) (batches 125 regs) /\
  (forall m regset,
     model = Some m -> ABBCatalog.REGSETS !! m = Some regset ->
     map r_name regs = regset) /\
  ((forall m, model = Some m -> ABBCatalog.REGSETS !! m = None) ->
   regs = ABBCatalog._REGS).
Proof.
  intros regs.
  assert (Hcases : (exists regset,
                      (regset = ABBCatalog.A43 \/ regset = ABBCatalog.B23 \/
                       regset = ABBCatalog.B21) /\
                      (exists m, model = Some m /\
                                 ABBCatalog.REGSETS !! m = Some regset) /\
                      regs = filter (fun register => r_name register ∈ regset)
                               ABBCatalog._REGS) \/
                   ((forall m, model = Some m -> ABBCatalog.REGSETS !! m = None) /\
                    regs = ABBCatalog._REGS)).
  { unfold regs, ABBCatalog.init_REGS. destruct model as [m|]; simpl.
    - rewrite REGSETS_lookup.
      destruct (decide (m = "A43")) as [->|H1];
        [left; exists ABBCatalog.A43; split_and!; [auto | by exists "A43" | done]|].
      destruct (decide (m = "B23")) as [->|H2];
        [left; exists ABBCatalog.B23; split_and!; [auto | by exists "B23" | done]|].
      destruct (decide (m = "B21")) as [->|H3];
        [left; exists ABBCatalog.B21; split_and!; [auto | by exists "B21" | done]|].
      right. split; [|done]. intros m' [= <-]. rewrite REGSETS_lookup.
      by rewrite !decide_False.
    - right. split; [|done]. by intros m' [=]. }
  assert (Hok : catalog_ok regs).
  { destruct Hcases as [(regset & Hset & _ & ->)|[_ ->]].
    - by apply catalog_ok_b_ok, abb_regset_ok.
    - apply catalog_ok_b_ok, abb_regs_ok. }
  split_and!.
  - exact Hok.
  - destruct Hok as (Hne & Hlen & Hno & _).
    destruct regs as [|r0 rest]; [done|].
    apply batches_within; [by apply non_overlapping_sorted|].
    eapply Forall_impl; [exact Hlen|]. intros r [?|[?|?]]; lia.
  - intros m regset -> Hm.
    destruct Hcases as [(regset' & Hset & (m' & [= <-] & Hm') & ->)|[Hnone _]].
    + rewrite Hm in Hm'. injection Hm' as <-. by apply abb_regset_ok.
    + by rewrite (Hnone m eq_refl) in Hm.
  - intros Hnone.
    destruct Hcases as [(regset' & _ & (m & -> & Hm) & _)|[_ Hall]]; [|done].
    by rewrite (Hnone m eq_refl) in Hm.
Qed.

(** ** A four-word register, by name *)

(** X26. A four-word register reads the same by name and in a list.
    [ModbusRTUMeter.read(name)] of a four-word register fetches its words
    with [read_registers] and decodes them with [_convert_value], as a list
    read does: behind a driver that hands back the words the meter holds,
    when the register's decimals are ones the division accepts
    ([-324 < decimals < 309]), [read(name)] returns the very value
    [read([name])] stores under the name, [None] for a sentinel
    included. *)
Theorem X26_rtu_read_name_four_words (instr : instrument) (mem : Z -> Z)
    (c : client) (r : register) :
  reads_memory instr mem ->
  NoDup (map r_name (REGS c)) -> r ∈ REGS c ->
  r_length r = 4 ->
  decimals_ok (r_decimals r) ->
  (exists c',
     ModbusRTUMeter.read instr (SelStr (r_name r)) c
     = (c', Ok (RVal (rtu_reading (words_of mem r) r)))) /\
  (exists c' d,
     ModbusRTUMeter.read instr (SelList [r_name r]) c = (c', Ok (RDict d)) /\
     d !! r_name r = Some (rtu_reading (words_of mem r) r)).
Proof.
  intros Hinstr Hnd Hr Hlen Hdec. split.
  - destruct Hinstr as [Hmem Hread].
    destruct (memory_words_ok mem (r_start r) (r_length r) Hmem) as [Hws Hlws].
    eexists. unfold ModbusRTUMeter.read.
    unfold bind at 1. unfold get_REGS at 1.
    rewrite (filter_name_unique _ r Hnd Hr).
    unfold ModbusRTUMeter._read_single. rewrite Hlen. simpl.
    unfold bind, emit, lift. simpl. rewrite <- Hlen, Hread.
    fold (words_of mem r).
    rewrite rtu_convert_value_reading; [reflexivity | done | done |].
    unfold words_of. rewrite Hlws, Hlen. auto.
  - assert (Hsel : selected (SelList [r_name r]) (REGS c) = [r])
      by (by apply filter_names_singleton).
    destruct (rtu_read_batch instr (SelList [r_name r]) c) as (c0 & l & Hperm & Hrun).
    { by rewrite Hsel. }
    rewrite Hsel in Hperm. apply Permutation_singleton_r in Hperm as ->.
    destruct (rtu_read_multiple_memory instr mem [r] c0 Hinstr)
      as (c' & d & Hd & _ & Hval).
    { done. }
    { apply Forall_cons_2; [|apply Forall_nil_2].
      split; [unfold word_length_ok; lia | done]. }
    { repeat constructor. by intros ?%elem_of_nil. }
    exists c', (d ∪ ∅). split.
    + rewrite Hrun. unfold ModbusRTUMeter._batch_read.
      rewrite batch_read_plan, batches_singleton by lia.
      simpl. unfold bind at 1. by rewrite Hd.
    + apply lookup_union_Some_l. apply Hval. by left.
Qed.

Lemma X26_rtu_read_name_four_words_witness :
  (exists c',
     ModbusRTUMeter.read saturated_instrument (SelStr "e")
       (new_client [reg "e" 20480 4; reg "f" 20484 4] DeviceNone)
     = (c', Ok (RVal (rtu_reading (words_of (fun _ => 65535) (reg "e" 20480 4))
                        (reg "e" 20480 4))))) /\
  (exists c' d,
     ModbusRTUMeter.read saturated_instrument (SelList ["e"])
       (new_client [reg "e" 20480 4; reg "f" 20484 4] DeviceNone)
     = (c', Ok (RDict d)) /\
     d !! "e" = Some (rtu_reading (words_of (fun _ => 65535) (reg "e" 20480 4))
                        (reg "e" 20480 4))).
Proof.
  apply (X26_rtu_read_name_four_words saturated_instrument (fun _ => 65535)
           (new_client [reg "e" 20480 4; reg "f" 20484 4] DeviceNone)
           (reg "e" 20480 4)).
  - split; [|done]. intros _. unfold is_word. lia.
  - simpl. repeat constructor; rewrite ?elem_of_cons, ?elem_of_nil; naive_solver.
  - by left.
  - reflexivity.
  - unfold decimals_ok. simpl. lia.
Defined.
